(** * Availability aggregation of the rafting permit checker

    A shallow embedding of [rafting.py]: the monthly normaliser
    [get_permit_information], the aggregator [get_num_available_dates] and
    the two renderers [generate_human_output] and [generate_json_output],
    together with the part of Python's [datetime] they rely on. *)

From Stdlib Require Import ZArith List String Ascii Bool Lia.
From Stdlib Require Import Sorted Permutation DecimalString.
Import ListNotations.

Local Open Scope string_scope.
Local Open Scope list_scope.
Local Open Scope Z_scope.

(* ================================================================== *)
(** ** Calendar dates

    Every [datetime] the program handles comes out of [strptime] with a
    format that has no time directive, so hour, minute and second are
    always zero: a value is its year, month and day, compared field by
    field as Python compares datetimes. *)

Module Datetime.

Record datetime : Type := mk_datetime { year : Z; month : Z; day : Z }.

Definition is_leap (y : Z) : bool :=
  (y mod 4 =? 0) && (negb (y mod 100 =? 0) || (y mod 400 =? 0)).

Definition days_in_month (y m : Z) : Z :=
  if m =? 2 then (if is_leap y then 29 else 28)
  else if (m =? 4) || (m =? 6) || (m =? 9) || (m =? 11) then 30
  else 31.

Definition days_in_year (y : Z) : Z := if is_leap y then 366 else 365.

(** Number of days before January 1st of year [y]. *)
Definition days_before_year (y : Z) : Z :=
  let y' := y - 1 in y' * 365 + y' / 4 - y' / 100 + y' / 400.

Definition DAYS_BEFORE_MONTH (m : Z) : Z :=
  if m =? 1 then 0 else if m =? 2 then 31 else if m =? 3 then 59
  else if m =? 4 then 90 else if m =? 5 then 120 else if m =? 6 then 151
  else if m =? 7 then 181 else if m =? 8 then 212 else if m =? 9 then 243
  else if m =? 10 then 273 else if m =? 11 then 304 else 334.

Definition days_before_month (y m : Z) : Z :=
  DAYS_BEFORE_MONTH m + (if (2 <? m) && is_leap y then 1 else 0).

(** [toordinal]: 0001-01-01 is day 1. *)
Definition toordinal (t : datetime) : Z :=
  days_before_year (year t) + days_before_month (year t) (month t) + day t.

(** Monday is 0, Sunday is 6. *)
Definition weekday (t : datetime) : Z := (toordinal t + 6) mod 7.

Definition MINYEAR : Z := 1.
Definition MAXYEAR : Z := 9999.

(** The values a [datetime] can hold. *)
Definition validb (t : datetime) : bool :=
  (MINYEAR <=? year t) && (year t <=? MAXYEAR) &&
  (1 <=? month t) && (month t <=? 12) &&
  (1 <=? day t) && (day t <=? days_in_month (year t) (month t)).

Definition valid (t : datetime) : Prop := validb t = true.

(** Comparison of two datetimes: the tuples (year, month, day). *)
Definition compare (a b : datetime) : comparison :=
  match year a ?= year b with
  | Eq => match month a ?= month b with
          | Eq => day a ?= day b
          | c => c
          end
  | c => c
  end.

Definition ltb (a b : datetime) : bool :=
  match compare a b with Lt => true | _ => false end.
Definition leb (a b : datetime) : bool :=
  match compare a b with Gt => false | _ => true end.
Definition geb (a b : datetime) : bool := leb b a.

(** The day before [t]. *)
Definition prev_day (t : datetime) : datetime :=
  if 1 <? day t then mk_datetime (year t) (month t) (day t - 1)
  else if 1 <? month t
       then mk_datetime (year t) (month t - 1)
                        (days_in_month (year t) (month t - 1))
       else mk_datetime (year t - 1) 12 31.

(** [t - timedelta(days=i)] for a count [i] of days that is not negative:
    [toordinal_sub_days] below shows it is the date whose ordinal is
    [toordinal t - i], which is how Python computes it.  Python raises
    [OverflowError] below 0001-01-01; the aggregator never steps that far,
    it stops at its start date. *)
Definition sub_days (t : datetime) (i : Z) : datetime :=
  Nat.iter (Z.to_nat i) prev_day t.

(** [(a - b).days] *)
Definition days_between (a b : datetime) : Z := toordinal a - toordinal b.

(** First day of the month after the one of [t] (a MONTHLY step of
    [rrule] from a first of the month). *)
Definition next_month (t : datetime) : datetime :=
  if month t =? 12 then mk_datetime (year t + 1) 1 1
  else mk_datetime (year t) (month t + 1) 1.

End Datetime.

Import Datetime.

(* ================================================================== *)
(** ** Date strings: [strftime] and [strptime] *)

(** Modelled from the spec: the enumeration [DateFormat] of
    [enums/date_format.py] is not among the sources.  The tests fix the two
    members the program uses: response dates read ["2022-06-22T00:00:00Z"]
    and input dates ["2022-06-22"], that is the formats
    ["%Y-%m-%dT00:00:00Z"] and ["%Y-%m-%d"]. *)
Inductive DateFormat : Type :=
| ISO_DATE_FORMAT_RESPONSE
| INPUT_DATE_FORMAT.

Definition digit_char (k : Z) : ascii := ascii_of_N (Z.to_N (48 + k)).

(** [%m] and [%d]: two digits, zero padded. *)
Definition pad2 (n : Z) : string :=
  String (digit_char (n / 10 mod 10)) (String (digit_char (n mod 10)) "").

(** Four digits, zero padded: the year of a date string of the service. *)
Definition pad4 (n : Z) : string :=
  String (digit_char (n / 1000 mod 10))
         (String (digit_char (n / 100 mod 10)) (pad2 n)).

(** [str] of an integer. *)
Definition str_of_int (z : Z) : string :=
  NilEmpty.string_of_int (Z.to_int z).

Definition format_suffix (fmt : DateFormat) : string :=
  match fmt with
  | ISO_DATE_FORMAT_RESPONSE => "T00:00:00Z"
  | INPUT_DATE_FORMAT => ""
  end.

(** [datetime.strftime] hands the format to the C library, and glibc
    writes [%Y] as the year in decimal without padding: four digits from
    the year 1000 on, fewer before ([999-01-02]).  [%m] and [%d] are
    padded. *)
Definition strftime (t : datetime) (fmt : DateFormat) : string :=
  (str_of_int (year t) ++ "-" ++ pad2 (month t) ++ "-" ++ pad2 (day t)
   ++ format_suffix fmt)%string.

(** Modelled from the spec: [utils/formatter.py] is not among the sources;
    [format_date] renders a datetime with the given format string. *)
Definition format_date (date_object : datetime) (format_string : DateFormat)
  : string :=
  strftime date_object format_string.

Definition digit_val (c : ascii) : option Z :=
  let n := Z.of_N (N_of_ascii c) in
  if (48 <=? n) && (n <=? 57) then Some (n - 48) else None.

(** [%Y] reads exactly four digits. *)
Definition parse_year (s : string) : option (Z * string) :=
  match s with
  | String a (String b (String c (String d r))) =>
      match digit_val a, digit_val b, digit_val c, digit_val d with
      | Some a, Some b, Some c, Some d =>
          Some (1000 * a + 100 * b + 10 * c + d, r)
      | _, _, _, _ => None
      end
  | _ => None
  end.

Definition next_digit (s : string) : option (Z * string) :=
  match s with
  | String b r => match digit_val b with
                  | Some y => Some (y, r)
                  | None => None
                  end
  | EmptyString => None
  end.

(** [%m] reads [1[0-2]], [0[1-9]] or [[1-9]], tried in this order. *)
Definition parse_month (s : string) : option (Z * string) :=
  match s with
  | EmptyString => None
  | String a r =>
      match digit_val a, next_digit r with
      | Some x, Some (y, r') =>
          if ((x =? 1) && (y <=? 2)) || ((x =? 0) && (1 <=? y))
          then Some (10 * x + y, r')
          else if 1 <=? x then Some (x, r) else None
      | Some x, None => if 1 <=? x then Some (x, r) else None
      | None, _ => None
      end
  end.

(** [%d] reads [3[01]], [[12]\d], [0[1-9]], [[1-9]] or a space and
    [[1-9]], tried in this order. *)
Definition parse_day (s : string) : option (Z * string) :=
  match s with
  | EmptyString => None
  | String a r =>
      match digit_val a, next_digit r with
      | Some x, Some (y, r') =>
          if ((x =? 3) && (y <=? 1)) || (x =? 1) || (x =? 2)
             || ((x =? 0) && (1 <=? y))
          then Some (10 * x + y, r')
          else if 1 <=? x then Some (x, r) else None
      | Some x, None => if 1 <=? x then Some (x, r) else None
      | None, Some (y, r') =>
          if Ascii.eqb a " "%char && (1 <=? y) then Some (y, r') else None
      | None, None => None
      end
  end.

Definition expect_char (c : ascii) (s : string) : option string :=
  match s with
  | String x r => if Ascii.eqb x c then Some r else None
  | EmptyString => None
  end.

Definition lower (c : ascii) : ascii :=
  let n := N_of_ascii c in
  if (65 <=? n)%N && (n <=? 90)%N then ascii_of_N (n + 32) else c.

Fixpoint lower_string (s : string) : string :=
  match s with
  | EmptyString => EmptyString
  | String c r => String (lower c) (lower_string r)
  end.

(** [datetime.strptime]: [None] stands for the [ValueError] raised on text
    that does not match the format or names no calendar day.  The text
    after the day has to be the rest of the format, letters in either
    case. *)
Definition strptime (date_string : string) (fmt : DateFormat)
  : option datetime :=
  match parse_year date_string with
  | None => None
  | Some (y, s1) =>
  match expect_char "-"%char s1 with
  | None => None
  | Some s2 =>
  match parse_month s2 with
  | None => None
  | Some (m, s3) =>
  match expect_char "-"%char s3 with
  | None => None
  | Some s4 =>
  match parse_day s4 with
  | None => None
  | Some (d, s5) =>
      if String.eqb (lower_string s5) (lower_string (format_suffix fmt))
      then let t := mk_datetime y m d in
           if validb t then Some t else None
      else None
  end end end end end.

Definition newline : string := String (ascii_of_nat 10) "".

(* ================================================================== *)
(** ** Dictionaries

    A Python [dict] keeps its keys in insertion order and both renderers
    walk it in that order, so it is an association list; assigning to a
    key that is present keeps the key's place. *)

Class KeyEq (K : Type) : Type := {
  key_eqb : K -> K -> bool;
  key_eqb_spec : forall a b, reflect (a = b) (key_eqb a b)
}.

#[export] Instance KeyEq_string : KeyEq string :=
  {| key_eqb := String.eqb; key_eqb_spec := String.eqb_spec |}.

#[export] Instance KeyEq_Z : KeyEq Z :=
  {| key_eqb := Z.eqb; key_eqb_spec := Z.eqb_spec |}.

Section Dict.
Context {K V : Type} `{KeyEq K}.

Definition dict : Type := list (K * V).

Definition keys (d : dict) : list K := map fst d.

Definition len (d : dict) : Z := Z.of_nat (List.length d).

Fixpoint dict_get (d : dict) (k : K) : option V :=
  match d with
  | [] => None
  | (k', v) :: r => if key_eqb k k' then Some v else dict_get r k
  end.

Definition dict_contains (d : dict) (k : K) : bool :=
  match dict_get d k with Some _ => true | None => false end.

(** [d[k] = v] *)
Fixpoint dict_set (d : dict) (k : K) (v : V) : dict :=
  match d with
  | [] => [(k, v)]
  | (k', v') :: r =>
      if key_eqb k k' then (k', v) :: r else (k', v') :: dict_set r k v
  end.

(** No key occurs twice: what every Python dict satisfies. *)
Fixpoint keys_unique (l : list K) : bool :=
  match l with
  | [] => true
  | k :: r => negb (existsb (key_eqb k) r) && keys_unique r
  end.

Definition well_formed (d : dict) : Prop := keys_unique (keys d) = true.

End Dict.

Arguments dict : clear implicits.

(** A [for] loop whose body may raise: the first failure ends the loop. *)
Fixpoint for_each {A S : Type} (xs : list A) (body : S -> A -> option S)
  (s : S) : option S :=
  match xs with
  | [] => Some s
  | x :: r => match body s x with
              | Some s' => for_each r body s'
              | None => None
              end
  end.

(** [range(lo, hi)] *)
Definition range (lo hi : Z) : list Z :=
  map (fun k => lo + Z.of_nat k) (seq 0 (Z.to_nat (hi - lo))).

(** A set of strings, used only through [in]. *)
Definition str_set : Type := list string.
Definition set_of (l : list string) : str_set := l.
Definition set_mem (s : string) (st : str_set) : bool :=
  existsb (String.eqb s) st.

(* ================================================================== *)
(** ** Data model *)

(** One day of one division: [{"date": ..., "remaining": ..., "total": ...}]. *)
Record date_entry : Type :=
  mk_date_entry { date : string; remaining : Z; total : Z }.

(** A division of the normalised permit information. *)
Record division : Type :=
  mk_division { name : string; available_dates : list date_entry }.

(** A division of the aggregate: [{"name": ..., "dates": ...}]. *)
Record available_division : Type :=
  mk_available_division { div_name : string; dates : list date_entry }.

(** [(current, maximum, available_divisions, permit_name)] *)
Definition permit_result : Type :=
  (Z * Z * dict string available_division * string)%type.

(** *** What the permit service answers

    A key that [.get] reads with a default is an [option]: [None] is a
    missing key. *)

Record avail_info : Type :=
  mk_avail_info { ai_remaining : option Z; ai_total : option Z }.

Record division_data : Type :=
  mk_division_data { date_availability : option (dict string avail_info) }.

Record availability_payload : Type :=
  mk_availability_payload
    { availability : option (dict string division_data) }.

(** A month's answer: its ["payload"] when it has one, and the
    ["availability"] it may carry itself, which is read when it has no
    ["payload"]. *)
Record month_data : Type :=
  mk_month_data { md_payload : option availability_payload;
                  md_availability : option (dict string division_data) }.

Record div_info : Type := mk_div_info { di_name : option string }.

Record permit_payload : Type :=
  mk_permit_payload { pp_name : option string;
                      pp_divisions : option (dict string div_info) }.

Record permit_info : Type :=
  mk_permit_info { pi_payload : option permit_payload }.

Definition get_or {A : Type} (o : option A) (default : A) : A :=
  match o with Some a => a | None => default end.

(* ================================================================== *)
(** ** The normaliser: [get_permit_information] *)

(** [rrule(MONTHLY, dtstart, until)] from a first of the month: the firsts
    of the months up to [until]. *)
Fixpoint rrule_monthly_from (n : nat) (cur until : datetime) : list datetime :=
  match n with
  | O => []
  | S n' => if leb cur until
            then cur :: rrule_monthly_from n' (next_month cur) until
            else []
  end.

Definition rrule_monthly (dtstart until : datetime) : list datetime :=
  rrule_monthly_from
    (Z.to_nat (12 * (year until - year dtstart)
               + (month until - month dtstart) + 1))
    dtstart until.

(** [list.sort(key=lambda x: x["date"])]: a stable sort on the date
    string. *)
Fixpoint insert_by_date (e : date_entry) (l : list date_entry)
  : list date_entry :=
  match l with
  | [] => [e]
  | x :: r => if String.leb (date e) (date x) then e :: x :: r
              else x :: insert_by_date e r
  end.

Definition sort_by_date (l : list date_entry) : list date_entry :=
  fold_right insert_by_date [] l.

(** [date_obj < start_date or date_obj >= end_date]: the test that drops
    an entry of the service's answer. *)
Definition outside_requested_range (date_obj start_date end_date : datetime)
  : bool :=
  ltb date_obj start_date || geb date_obj end_date.

(** The body of the loop over one division's [date_availability]. *)
Definition collect_date (start_date end_date : datetime)
  (division_id : string) (data : dict string division)
  (item : string * avail_info) : option (dict string division) :=
  let (date_str, avail_info) := item in
  let remaining := get_or (ai_remaining avail_info) 0 in
  let total := get_or (ai_total avail_info) 0 in
  if remaining <=? 0 then Some data
  else
    match strptime date_str ISO_DATE_FORMAT_RESPONSE with
    | None => None
    | Some date_obj =>
        if outside_requested_range date_obj start_date end_date
        then Some data
        else
          match dict_get data division_id with
          | None => None
          | Some dv =>
              Some (dict_set data division_id
                      (mk_division (name dv)
                         (available_dates dv
                          ++ [mk_date_entry date_str remaining total])))
          end
    end.

(** The body of the loop over one month's divisions. *)
Definition collect_division (divisions_info : dict string div_info)
  (start_date end_date : datetime) (data : dict string division)
  (item : string * division_data) : option (dict string division) :=
  let (division_id, division_data) := item in
  let data :=
    if dict_contains data division_id then data
    else
      let div_info := get_or (dict_get divisions_info division_id)
                             (mk_div_info None) in
      dict_set data division_id
        (mk_division
           (get_or (di_name div_info) ("Division " ++ division_id)%string)
           []) in
  for_each (get_or (date_availability division_data) [])
           (collect_date start_date end_date division_id) data.

(** The body of the loop over the months. *)
Definition collect_month (divisions_info : dict string div_info)
  (start_date end_date : datetime) (data : dict string division)
  (month_data : month_data) : option (dict string division) :=
  let payload :=
    get_or (md_payload month_data)
           (mk_availability_payload (md_availability month_data)) in
  let availability := get_or (availability payload) [] in
  for_each availability (collect_division divisions_info start_date end_date)
           data.

Definition sort_division (item : string * division) : string * division :=
  (fst item,
   mk_division (name (snd item)) (sort_by_date (available_dates (snd item)))).

(** Everything of [get_permit_information] after the requests. *)
Definition collapse (api_data : list month_data)
  (divisions_info : dict string div_info) (start_date end_date : datetime)
  : option (dict string division) :=
  match for_each api_data (collect_month divisions_info start_date end_date)
                 [] with
  | None => None
  | Some data => Some (map sort_division data)
  end.

Section Client.

(** The permit service, a black box: one answer per request. *)
Variable get_permit_availability : Z -> datetime -> month_data.
Variable get_permit_info : Z -> permit_info.

Definition get_permit_information (permit_id : Z)
  (start_date end_date : datetime) : option (dict string division) :=
  let start_of_month := mk_datetime (year start_date) (month start_date) 1 in
  let months := rrule_monthly start_of_month end_date in
  let api_data := map (get_permit_availability permit_id) months in
  let permit_info := get_permit_info permit_id in
  let divisions_info :=
    get_or (pp_divisions (get_or (pi_payload permit_info)
                                 (mk_permit_payload None None))) [] in
  collapse api_data divisions_info start_date end_date.

End Client.

(* ================================================================== *)
(** ** The aggregator: [get_num_available_dates] *)

Definition is_weekend (date : datetime) : bool :=
  let weekday := weekday date in
  (weekday =? 4) || (weekday =? 5).

(** [dates_in_range], before and after the weekend filter. *)
Definition dates_in_range (start_date end_date : datetime)
  (weekends_only : bool) : list datetime :=
  let num_days := days_between end_date start_date in
  let dates_in_range :=
    map (fun i => sub_days end_date i) (range 1 (num_days + 1)) in
  if weekends_only then filter is_weekend dates_in_range else dates_in_range.

Definition dates_in_range_set (start_date end_date : datetime)
  (weekends_only : bool) : str_set :=
  set_of (map (fun i => format_date i ISO_DATE_FORMAT_RESPONSE)
              (dates_in_range start_date end_date weekends_only)).

(** The test an entry of a division has to pass. *)
Definition matches (st : str_set) (min_permits : Z) (avail : date_entry)
  : bool :=
  set_mem (date avail) st && (remaining avail >=? min_permits).

(** The body of the loop over the divisions. *)
Definition aggregate_division (st : str_set) (min_permits : Z)
  (available_divisions : dict string available_division)
  (item : string * division) : dict string available_division :=
  let (division_id, division_data) := item in
  let division_name := name division_data in
  let matching_dates :=
    filter (matches st min_permits) (available_dates division_data) in
  match matching_dates with
  | [] => available_divisions
  | _ :: _ =>
      dict_set available_divisions division_id
        (mk_available_division division_name matching_dates)
  end.

Definition get_num_available_dates (permit_information : dict string division)
  (start_date end_date : datetime) (weekends_only : bool) (min_permits : Z)
  : Z * Z * dict string available_division :=
  let st := dates_in_range_set start_date end_date weekends_only in
  let total_divisions := len permit_information in
  let available_divisions :=
    fold_left (aggregate_division st min_permits) permit_information [] in
  (len available_divisions, total_divisions, available_divisions).

(** The aggregator's test of a date: is its string in the candidate set? *)
Definition in_candidate_dates (start_date end_date : datetime)
  (weekends_only : bool) (d : datetime) : bool :=
  set_mem (format_date d ISO_DATE_FORMAT_RESPONSE)
          (dates_in_range_set start_date end_date weekends_only).

(** The three components of the aggregator's result. *)
Definition current_of (r : Z * Z * dict string available_division) : Z :=
  fst (fst r).
Definition maximum_of (r : Z * Z * dict string available_division) : Z :=
  snd (fst r).
Definition available_divisions_of
  (r : Z * Z * dict string available_division)
  : dict string available_division := snd r.

(** Friday or Saturday, read off a day's ordinal. *)
Definition weekend_ordinal (n : Z) : bool :=
  ((n + 6) mod 7 =? 4) || ((n + 6) mod 7 =? 5).

(* ================================================================== *)
(** ** The renderers *)

Section Renderers.

(** The two glyphs of [enums/emoji.py], which is not among the sources:
    parameters, any two strings do. *)
Variables RAFTING_SUCCESS RAFTING_FAILURE : string.

(** [json.dumps], which the claims do not look into. *)
Variable json_dumps : dict Z (dict string available_division) -> string.

Definition summary_line (emoji permit_name : string)
  (permit_id current maximum : Z) : string :=
  (emoji ++ " " ++ permit_name ++ " (" ++ str_of_int permit_id ++ "): "
   ++ str_of_int current ++ " division(s) with availability out of "
   ++ str_of_int maximum ++ " division(s)")%string.

Definition division_header (name division_id : string) : string :=
  ("  * " ++ name ++ " (Division " ++ division_id ++ "):")%string.

Definition date_line (show_division_headers : bool) (date_nice : string)
  (remaining total : Z) : string :=
  ("  " ++ (if show_division_headers then "  " else "") ++ "* "
   ++ date_nice ++ ": " ++ str_of_int remaining ++ "/" ++ str_of_int total
   ++ " permits remaining")%string.

(** The body of the loop over a division's dates. *)
Definition render_date (show_division_headers : bool) (out : list string)
  (date_info : date_entry) : option (list string) :=
  match strptime (date date_info) ISO_DATE_FORMAT_RESPONSE with
  | None => None
  | Some d =>
      let date_nice := format_date d INPUT_DATE_FORMAT in
      Some (out ++ [date_line show_division_headers date_nice
                      (remaining date_info) (total date_info)])
  end.

(** The body of the loop over a permit's available divisions. *)
Definition render_division (show_division_headers : bool)
  (out : list string) (item : string * available_division)
  : option (list string) :=
  let (division_id, div_data) := item in
  let out :=
    if show_division_headers
    then out ++ [division_header (div_name div_data) division_id]
    else out in
  for_each (dates div_data) (render_date show_division_headers) out.

(** The body of the loop over the permits; the state is [out] and
    [has_availabilities]. *)
Definition render_permit (state : list string * bool)
  (item : Z * permit_result) : option (list string * bool) :=
  let (out, has_availabilities) := state in
  let '(permit_id, (current, maximum, available_divisions, permit_name)) :=
    item in
  let '(emoji, has_availabilities) :=
    if negb (current =? 0) then (RAFTING_SUCCESS, true)
    else (RAFTING_FAILURE, has_availabilities) in
  let out :=
    out ++ [summary_line emoji permit_name permit_id current maximum] in
  match available_divisions with
  | [] => Some (out, has_availabilities)
  | _ :: _ =>
      let show_division_headers :=
        (len available_divisions >? 1) || (maximum >? 1) in
      match for_each available_divisions
                     (render_division show_division_headers) out with
      | None => None
      | Some out => Some (out, has_availabilities)
      end
  end.

Definition headline (has_availabilities : bool)
  (start_date end_date : datetime) : string :=
  if has_availabilities
  then ("there are permits available from "
        ++ strftime start_date INPUT_DATE_FORMAT ++ " to "
        ++ strftime end_date INPUT_DATE_FORMAT ++ "!!!")%string
  else "There are no permits available :(".

Definition generate_human_output (info_by_permit_id : dict Z permit_result)
  (start_date end_date : datetime) : option (string * bool) :=
  match for_each info_by_permit_id render_permit ([], false) with
  | None => None
  | Some (out, has_availabilities) =>
      let out := headline has_availabilities start_date end_date :: out in
      Some (String.concat newline out, has_availabilities)
  end.

(** The body of the loop of [generate_json_output]; the state is
    [availabilities_by_permit_id] and [has_availabilities]. *)
Definition collect_json
  (state : dict Z (dict string available_division) * bool)
  (item : Z * permit_result)
  : dict Z (dict string available_division) * bool :=
  let (availabilities_by_permit_id, has_availabilities) := state in
  let '(permit_id, (current, _, available_divisions, _)) := item in
  if negb (current =? 0)
  then (dict_set availabilities_by_permit_id permit_id available_divisions,
        true)
  else (availabilities_by_permit_id, has_availabilities).

(** The mapping [generate_json_output] serialises, and its flag. *)
Definition availabilities_of (info_by_permit_id : dict Z permit_result)
  : dict Z (dict string available_division) * bool :=
  fold_left collect_json info_by_permit_id ([], false).

Definition generate_json_output (info_by_permit_id : dict Z permit_result)
  : string * bool :=
  let (availabilities_by_permit_id, has_availabilities) :=
    availabilities_of info_by_permit_id in
  (json_dumps availabilities_by_permit_id, has_availabilities).

End Renderers.

(* ================================================================== *)
(** ** The orchestrator *)

Section Orchestrator.

Variable get_permit_availability : Z -> datetime -> month_data.
Variable get_permit_info : Z -> permit_info.
Variables RAFTING_SUCCESS RAFTING_FAILURE : string.
Variable json_dumps : dict Z (dict string available_division) -> string.

Definition check_permit (permit_id : Z) (start_date end_date : datetime)
  (weekends_only : bool) (min_permits : Z) : option permit_result :=
  match get_permit_information get_permit_availability get_permit_info
          permit_id start_date end_date with
  | None => None
  | Some permit_information =>
      let permit_info := get_permit_info permit_id in
      let permit_name :=
        get_or (pp_name (get_or (pi_payload permit_info)
                                (mk_permit_payload None None)))
               ("Permit " ++ str_of_int permit_id)%string in
      let '(current, maximum, available_divisions) :=
        get_num_available_dates permit_information start_date end_date
                                weekends_only min_permits in
      Some (current, maximum, available_divisions, permit_name)
  end.

(** [main], returning what it prints together with its result. *)
Definition main (permits : list Z) (json_output : bool)
  (start_date end_date : datetime) (weekends_only : bool) (min_permits : Z)
  : option (string * bool) :=
  match for_each permits
          (fun info_by_permit_id permit_id =>
             match check_permit permit_id start_date end_date
                                weekends_only min_permits with
             | None => None
             | Some r => Some (dict_set info_by_permit_id permit_id r)
             end) [] with
  | None => None
  | Some info_by_permit_id =>
      if json_output
      then Some (generate_json_output json_dumps info_by_permit_id)
      else generate_human_output RAFTING_SUCCESS RAFTING_FAILURE
                                 info_by_permit_id start_date end_date
  end.

End Orchestrator.

(** The mapping [main] builds before it renders; [main] is the match on
    it (see [main_unfold]). *)
Section RunResult.
Variable get_permit_availability : Z -> datetime -> month_data.
Variable get_permit_info : Z -> permit_info.

(** [info_by_permit_id] as [main] builds it. *)
Definition run_result (permits : list Z) (start_date end_date : datetime)
  (weekends_only : bool) (min_permits : Z) : option (dict Z permit_result) :=
  for_each permits
    (fun info_by_permit_id permit_id =>
       match check_permit get_permit_availability get_permit_info permit_id
                          start_date end_date weekends_only min_permits with
       | None => None
       | Some r => Some (dict_set info_by_permit_id permit_id r)
       end) [].

End RunResult.

(* ================================================================== *)
(** ** The argument parser's dates *)

(** [TypeConverter.date] of the argument parser: [None] stands for the
    [ArgumentTypeError] it raises. *)
Definition TypeConverter_date (date_str : string) : option datetime :=
  strptime date_str INPUT_DATE_FORMAT.

(* ================================================================== *)
(** ** Vocabulary of the statements *)

(** Two entries in the order of their date strings. *)
Definition date_le (a b : date_entry) : Prop :=
  String.leb (date a) (date b) = true.

(** The text of a calendar day as [format_date] writes it in the format of
    the responses. *)
Definition iso_date_string (s : string) : Prop :=
  exists d, valid d /\ s = format_date d ISO_DATE_FORMAT_RESPONSE.

(** The zero padded text of a day: four digits of year, two of month and
    two of day, as ISO 8601 and the service write a date. *)
Definition padded_text (d : datetime) (fmt : DateFormat) : string :=
  (pad4 (year d) ++ "-" ++ pad2 (month d) ++ "-" ++ pad2 (day d)
   ++ format_suffix fmt)%string.

Definition padded_date_string (s : string) : Prop :=
  exists d, valid d /\ s = padded_text d ISO_DATE_FORMAT_RESPONSE.

(** Chronological order of two entries, read through [strptime]. *)
Definition chronological (a b : date_entry) : Prop :=
  exists da db,
    strptime (date a) ISO_DATE_FORMAT_RESPONSE = Some da
    /\ strptime (date b) ISO_DATE_FORMAT_RESPONSE = Some db
    /\ leb da db = true.

(** What every entry the normaliser collects satisfies. *)
Definition entry_ok (start_date end_date : datetime) (e : date_entry)
  : Prop :=
  0 < remaining e
  /\ exists d, strptime (date e) ISO_DATE_FORMAT_RESPONSE = Some d
               /\ leb start_date d = true /\ ltb d end_date = true.

Definition data_ok (start_date end_date : datetime)
  (data : dict string division) : Prop :=
  forall division_id dv e,
    In (division_id, dv) data -> In e (available_dates dv) ->
    entry_ok start_date end_date e.

Fixpoint last_char (s : string) : option ascii :=
  match s with
  | EmptyString => None
  | String c EmptyString => Some c
  | String _ r => last_char r
  end.

(** The sub-header of a division, as the human output shows it. *)
Definition sub_header (division_id : string) (dv : available_division)
  : string :=
  ("  * " ++ div_name dv ++ " (Division " ++ division_id ++ "):")%string.

(** The rule of the sub-headers: more than one available division, or
    more than one division in all. *)
Definition shows_sub_headers
  (available_divisions : dict string available_division) (maximum : Z)
  : bool :=
  (1 <? len available_divisions) || (1 <? maximum).

(** The day of an entry as its date line shows it (the renderer fails on
    an entry [strptime] rejects, which has no date line). *)
Definition date_text (e : date_entry) : string :=
  match strptime (date e) ISO_DATE_FORMAT_RESPONSE with
  | Some d => format_date d INPUT_DATE_FORMAT
  | None => ""
  end.

(** The lines of one available division: its sub-header when sub-headers
    are shown, then one line for each of its dates. *)
Definition division_lines (show : bool) (item : string * available_division)
  : list string :=
  (if show then [sub_header (fst item) (snd item)] else [])
  ++ map (fun e => date_line show (date_text e) (remaining e) (total e))
         (dates (snd item)).

(** The lines of one permit: its summary line, then the lines of its
    available divisions. *)
Definition permit_lines (RAFTING_SUCCESS RAFTING_FAILURE : string)
  (item : Z * permit_result) : list string :=
  let '(permit_id, (current, maximum, available_divisions, permit_name)) :=
    item in
  summary_line
    (if negb (current =? 0) then RAFTING_SUCCESS else RAFTING_FAILURE)
    permit_name permit_id current maximum
  :: flat_map (division_lines (shows_sub_headers available_divisions maximum))
              available_divisions.

(** What the structured renderer keeps of one permit. *)
Definition json_entry (r : permit_result)
  : option (dict string available_division) :=
  let '(current, _, available_divisions, _) := r in
  if 0 <? current then Some available_divisions else None.

(** The counts of a run are lengths. *)
Definition current_nonnegative (info_by_permit_id : dict Z permit_result)
  : Prop :=
  forall permit_id current maximum available_divisions permit_name,
    In (permit_id, (current, maximum, available_divisions, permit_name))
       info_by_permit_id ->
    0 <= current.

(** Every date string of the service's answers is one [strptime] reads. *)
Definition answer_dates_parse (api_data : list month_data) : Prop :=
  forall month division_id division_data date_str info,
    In month api_data ->
    In (division_id, division_data)
       (get_or (availability
                  (get_or (md_payload month)
                     (mk_availability_payload (md_availability month)))) []) ->
    In (date_str, info) (get_or (date_availability division_data) []) ->
    exists d, strptime date_str ISO_DATE_FORMAT_RESPONSE = Some d.

(** Months counted from year 0: the key the monthly requests go by. *)
Definition month_index (t : datetime) : Z := 12 * year t + month t.

Definition first_of_month (t : datetime) : Prop :=
  day t = 1 /\ 1 <= month t <= 12.

(** The divisions of a month's answer, and the dates of a division. *)
Definition month_divisions (m : month_data) : dict string division_data :=
  get_or (availability
            (get_or (md_payload m)
                    (mk_availability_payload (md_availability m)))) [].

Definition division_dates (dd : division_data) : dict string avail_info :=
  get_or (date_availability dd) [].

(** The entry the normaliser makes of one date of an answer, when it keeps
    it. *)
Definition collected (start_date end_date : datetime) (date_str : string)
  (info : avail_info) (e : date_entry) : Prop :=
  e = mk_date_entry date_str (get_or (ai_remaining info) 0)
                    (get_or (ai_total info) 0)
  /\ 0 < get_or (ai_remaining info) 0
  /\ exists d, strptime date_str ISO_DATE_FORMAT_RESPONSE = Some d
               /\ outside_requested_range d start_date end_date = false.

(** [e] is an entry of division [division_id] of some answer. *)
Definition answered (api_data : list month_data)
  (start_date end_date : datetime) (division_id : string) (e : date_entry)
  : Prop :=
  exists month dd date_str info,
    In month api_data /\ In (division_id, dd) (month_divisions month)
    /\ In (date_str, info) (division_dates dd)
    /\ collected start_date end_date date_str info e.

Definition has_entry (data : dict string division) (division_id : string)
  (e : date_entry) : Prop :=
  exists dv, In (division_id, dv) data /\ In e (available_dates dv).

(** The name the normaliser gives a division. *)
Definition resolved_name (divisions_info : dict string div_info)
  (division_id : string) : string :=
  get_or (di_name (get_or (dict_get divisions_info division_id)
                          (mk_div_info None)))
         ("Division " ++ division_id)%string.

(** A dictionary whose divisions carry their resolved names. *)
Definition named_dict (divisions_info : dict string div_info)
  (data : dict string division) : Prop :=
  well_formed data
  /\ forall division_id dv,
       In (division_id, dv) data ->
       name dv = resolved_name divisions_info division_id.

(** The dates of a division that pass the aggregator's test. *)
Definition kept_dates (st : str_set) (min_permits : Z) (dv : division)
  : list date_entry :=
  filter (matches st min_permits) (available_dates dv).

(** The divisions with a date that passes, in the order of the input. *)
Definition kept_divisions (st : str_set) (min_permits : Z)
  (permit_information : dict string division)
  : dict string available_division :=
  flat_map
    (fun item =>
       match kept_dates st min_permits (snd item) with
       | [] => []
       | e :: l =>
           [(fst item, mk_available_division (name (snd item)) (e :: l))]
       end)
    permit_information.

(** What [check_permit] reports of one date. *)
Definition reported_date (start_date end_date : datetime)
  (weekends_only : bool) (min_permits : Z) (a : date_entry) : Prop :=
  min_permits <= remaining a /\ 0 < remaining a
  /\ exists d, valid d
               /\ strptime (date a) ISO_DATE_FORMAT_RESPONSE = Some d
               /\ date a = format_date d ISO_DATE_FORMAT_RESPONSE
               /\ leb start_date d = true /\ ltb d end_date = true
               /\ (weekends_only = true -> is_weekend d = true).

(** The permit's name, or ["Permit <id>"] when the metadata has none. *)
Definition resolved_permit_name (info : permit_info) (permit_id : Z)
  : string :=
  get_or (pp_name (get_or (pi_payload info) (mk_permit_payload None None)))
         ("Permit " ++ str_of_int permit_id)%string.

Definition permit_divisions_info (info : permit_info) : dict string div_info :=
  get_or (pp_divisions (get_or (pi_payload info)
                               (mk_permit_payload None None))) [].

(** The components of a permit's result. *)
Definition result_current (r : permit_result) : Z := fst (fst (fst r)).
Definition result_divisions (r : permit_result)
  : dict string available_division := snd (fst r).

(** Has some permit of the run an available division? *)
Definition any_available (info_by_permit_id : dict Z permit_result) : bool :=
  existsb (fun item => negb (result_current (snd item) =? 0))
          info_by_permit_id.

(** The permits with availability, each with its divisions, in the order
    of the run. *)
Definition available_permits (info_by_permit_id : dict Z permit_result)
  : dict Z (dict string available_division) :=
  flat_map
    (fun item =>
       if negb (result_current (snd item) =? 0)
       then [(fst item, result_divisions (snd item))]
       else [])
    info_by_permit_id.

(** [strptime] reads every date string of the run. *)
Definition run_dates_parse (info_by_permit_id : dict Z permit_result)
  : Prop :=
  forall permit_id r division_id v a,
    In (permit_id, r) info_by_permit_id ->
    In (division_id, v) (result_divisions r) ->
    In a (dates v) ->
    exists d, strptime (date a) ISO_DATE_FORMAT_RESPONSE = Some d.

(** What the loop of [main] keeps: distinct keys, the permits seen so far,
    each with what [check] returned for it. *)
Definition run_ok (check : Z -> option permit_result) (seen : list Z)
  (info : dict Z permit_result) : Prop :=
  well_formed info
  /\ (forall p, In p (keys info) <-> In p seen)
  /\ (forall p r, In (p, r) info -> check p = Some r).

(* ================================================================== *)
(** ** Sample data

    The windows and the permit information of the repository's tests. *)

Definition d_2022_06_20 : datetime := mk_datetime 2022 6 20.
Definition d_2022_06_22 : datetime := mk_datetime 2022 6 22.
Definition d_2022_06_24 : datetime := mk_datetime 2022 6 24.
Definition d_2022_06_27 : datetime := mk_datetime 2022 6 27.

Definition sample_permit_information : dict string division :=
  [("100", mk_division "Empty Division" []);
   ("200", mk_division "Some River Section"
             [mk_date_entry "2022-06-22T00:00:00Z" 3 6;
              mk_date_entry "2022-06-23T00:00:00Z" 1 6]);
   ("300", mk_division "Another River Section"
             [mk_date_entry "2022-06-22T00:00:00Z" 5 10;
              mk_date_entry "2022-06-25T00:00:00Z" 2 10])].

Definition sample_weekend_information : dict string division :=
  [("200", mk_division "Some River Section"
             [mk_date_entry "2022-06-22T00:00:00Z" 3 6;
              mk_date_entry "2022-06-24T00:00:00Z" 1 6])].

Definition sample_month_data : month_data :=
  mk_month_data
    (Some (mk_availability_payload
       (Some [("200", mk_division_data
                  (Some [("2022-06-23T00:00:00Z",
                          mk_avail_info (Some 1) (Some 6));
                         ("2022-06-22T00:00:00Z",
                          mk_avail_info (Some 3) (Some 6));
                         ("2022-06-24T00:00:00Z",
                          mk_avail_info (Some 2) (Some 6));
                         ("2022-06-21T00:00:00Z",
                          mk_avail_info (Some 0) (Some 6))]))])))
    None.

Definition sample_get_permit_availability (permit_id : Z) (month : datetime)
  : month_data := sample_month_data.

Definition sample_get_permit_info (permit_id : Z) : permit_info :=
  mk_permit_info
    (Some (mk_permit_payload (Some "Some River Permit")
             (Some [("200", mk_div_info (Some "Some River Section"))]))).

Definition sample_normalized : dict string division :=
  [("200", mk_division "Some River Section"
             [mk_date_entry "2022-06-22T00:00:00Z" 3 6;
              mk_date_entry "2022-06-23T00:00:00Z" 1 6])].

Definition sample_run_result : dict Z permit_result :=
  [(233393,
    (1, 1,
     [("282", mk_available_division "Desolation-Gray Canyons"
                [mk_date_entry "2022-06-22T00:00:00Z" 3 6])],
     "Some River Permit"))].

Definition sample_json_dumps
  (m : dict Z (dict string available_division)) : string :=
  String.concat "," (map (fun item => str_of_int (fst item)) m).

Definition sample_two_permits : dict Z permit_result :=
  [(233393,
    (1, 1,
     [("282", mk_available_division "Desolation-Gray Canyons"
                [mk_date_entry "2022-06-22T00:00:00Z" 3 6])],
     "Some River Permit"));
   (234567, (0, 2, [], "Another Permit"))].

Definition sample_two_divisions : dict Z permit_result :=
  [(233393,
    (2, 2,
     [("100", mk_available_division "Section A"
                [mk_date_entry "2022-06-22T00:00:00Z" 3 6]);
      ("200", mk_available_division "Section B"
                [mk_date_entry "2022-06-25T00:00:00Z" 2 8])],
     "Some River Permit"))].

Definition sample_min_permits_information : dict string division :=
  [("200", mk_division "Some River Section"
             [mk_date_entry "2022-06-22T00:00:00Z" 1 6;
              mk_date_entry "2022-06-23T00:00:00Z" 3 6])].

Definition sample_answers : list month_data :=
  [sample_month_data;
   mk_month_data None
     (Some [("200", mk_division_data
               (Some [("2022-06-22T00:00:00Z",
                       mk_avail_info (Some 4) None)]));
            ("300", mk_division_data None)])].

(** An answer that writes the days of June 9th and 10th without padding
    the day below ten. *)
Definition sample_unpadded_month : month_data :=
  mk_month_data
    (Some (mk_availability_payload
       (Some [("200", mk_division_data
                  (Some [("2022-06-9T00:00:00Z",
                          mk_avail_info (Some 1) (Some 6));
                         ("2022-06-10T00:00:00Z",
                          mk_avail_info (Some 2) (Some 6))]))])))
    None.

(** A permit with one available division and two divisions in all. *)
Definition sample_one_of_two : dict Z permit_result :=
  [(233393,
    (1, 2,
     [("282", mk_available_division "Desolation-Gray Canyons"
                [mk_date_entry "2022-06-22T00:00:00Z" 3 6])],
     "Some River Permit"))].

(* ================================================================== *)
(** * Facts *)

(** ** The calendar *)

Lemma is_leap_true_iff y :
  is_leap y = true <-> y mod 4 = 0 /\ (y mod 100 <> 0 \/ y mod 400 = 0).
Proof.
  unfold is_leap.
  rewrite andb_true_iff, orb_true_iff, negb_true_iff, !Z.eqb_eq, Z.eqb_neq.
  tauto.
Qed.

Lemma days_before_year_succ y :
  days_before_year (y + 1) = days_before_year y + days_in_year y.
Proof.
  unfold days_before_year, days_in_year.
  replace (y + 1 - 1) with y by lia.
  destruct (is_leap y) eqn:E.
  - apply is_leap_true_iff in E. Z.div_mod_to_equations; lia.
  - assert (~ (y mod 4 = 0 /\ (y mod 100 <> 0 \/ y mod 400 = 0))) as N
      by (rewrite <- is_leap_true_iff; congruence).
    Z.div_mod_to_equations; lia.
Qed.

Lemma days_before_year_mono a b :
  a <= b -> days_before_year a <= days_before_year b.
Proof.
  unfold days_before_year. intros. Z.div_mod_to_equations; lia.
Qed.

Lemma days_before_year_1 : days_before_year 1 = 0.
Proof. reflexivity. Qed.

(** A month number between 1 and 12 is one of the twelve. *)
Ltac month_cases m :=
  let H := fresh in
  assert (H : m = 1 \/ m = 2 \/ m = 3 \/ m = 4 \/ m = 5 \/ m = 6 \/ m = 7
              \/ m = 8 \/ m = 9 \/ m = 10 \/ m = 11 \/ m = 12) by lia;
  repeat (destruct H as [H | H]; [subst m | ]); [.. | subst m].

Ltac calendar_unfold :=
  unfold days_before_month, DAYS_BEFORE_MONTH, days_in_month, days_in_year in *;
  cbn [Z.eqb Z.ltb Z.compare Pos.eqb Pos.compare Pos.compare_cont andb orb negb] in *.

Ltac calendar_solve y :=
  calendar_unfold; destruct (is_leap y); cbn [andb orb negb]; lia.

Lemma days_before_month_step y m m' :
  1 <= m -> m < m' <= m + 1 -> m' <= 12 ->
  days_before_month y m' = days_before_month y m + days_in_month y m.
Proof.
  intros H1 E H2.
  assert (Hm : 1 <= m <= 12) by lia. assert (Hm' : 1 <= m' <= 12) by lia.
  month_cases m; month_cases m'; try lia; calendar_solve y.
Qed.

Lemma day_of_year_bounds y m d :
  1 <= m <= 12 -> 1 <= d <= days_in_month y m ->
  1 <= days_before_month y m + d <= days_in_year y.
Proof.
  intros Hm. month_cases m; calendar_solve y.
Qed.

Lemma days_before_month_lt y m1 m2 :
  1 <= m1 -> m1 < m2 -> m2 <= 12 ->
  days_before_month y m1 + days_in_month y m1 <= days_before_month y m2.
Proof.
  intros H1 H2 H3.
  assert (Hm1 : 1 <= m1 <= 12) by lia. assert (Hm2 : 1 <= m2 <= 12) by lia.
  month_cases m1; month_cases m2; try lia; calendar_solve y.
Qed.

Lemma valid_fields t :
  valid t ->
  1 <= year t <= 9999 /\ 1 <= month t <= 12
  /\ 1 <= day t <= days_in_month (year t) (month t).
Proof.
  unfold valid, validb, MINYEAR, MAXYEAR.
  rewrite !andb_true_iff, !Z.leb_le. tauto.
Qed.

Lemma valid_intro y m d :
  1 <= y <= 9999 -> 1 <= m <= 12 -> 1 <= d <= days_in_month y m ->
  valid (mk_datetime y m d).
Proof.
  intros. unfold valid, validb, MINYEAR, MAXYEAR. simpl.
  rewrite !andb_true_iff, !Z.leb_le. tauto.
Qed.

Lemma toordinal_pos t : valid t -> 1 <= toordinal t.
Proof.
  intros Hv. apply valid_fields in Hv as (Hy & Hm & Hd).
  unfold toordinal.
  pose proof (day_of_year_bounds _ _ _ Hm Hd).
  pose proof (days_before_year_mono 1 (year t) ltac:(lia)).
  rewrite days_before_year_1 in *. lia.
Qed.

Lemma compare_toordinal a b :
  valid a -> valid b -> compare a b = (toordinal a ?= toordinal b).
Proof.
  intros Ha Hb.
  apply valid_fields in Ha as (Hya & Hma & Hda).
  apply valid_fields in Hb as (Hyb & Hmb & Hdb).
  pose proof (day_of_year_bounds _ _ _ Hma Hda) as Ba.
  pose proof (day_of_year_bounds _ _ _ Hmb Hdb) as Bb.
  unfold compare, toordinal.
  destruct (Z.compare_spec (year a) (year b)) as [Ey | Ly | Ly].
  - rewrite Ey in *.
    destruct (Z.compare_spec (month a) (month b)) as [Em | Lm | Lm].
    + rewrite Em. now rewrite Z.add_compare_mono_l.
    + symmetry. apply Z.compare_lt_iff.
      pose proof (days_before_month_lt (year b) (month a) (month b)). lia.
    + symmetry. apply Z.compare_gt_iff.
      pose proof (days_before_month_lt (year b) (month b) (month a)). lia.
  - symmetry. apply Z.compare_lt_iff.
    pose proof (days_before_year_succ (year a)).
    pose proof (days_before_year_mono (year a + 1) (year b)). lia.
  - symmetry. apply Z.compare_gt_iff.
    pose proof (days_before_year_succ (year b)).
    pose proof (days_before_year_mono (year b + 1) (year a)). lia.
Qed.

Lemma compare_eq a b : compare a b = Eq -> a = b.
Proof.
  unfold compare. destruct a as [ya ma da], b as [yb mb db]. simpl.
  destruct (Z.compare_spec ya yb); try discriminate.
  destruct (Z.compare_spec ma mb); try discriminate.
  destruct (Z.compare_spec da db); try discriminate.
  congruence.
Qed.

Lemma toordinal_inj a b :
  valid a -> valid b -> toordinal a = toordinal b -> a = b.
Proof.
  intros Ha Hb E. apply compare_eq. rewrite compare_toordinal by assumption.
  now apply Z.compare_eq_iff.
Qed.

Lemma ltb_toordinal a b :
  valid a -> valid b -> ltb a b = (toordinal a <? toordinal b).
Proof.
  intros. unfold ltb, Z.ltb. now rewrite compare_toordinal.
Qed.

Lemma leb_toordinal a b :
  valid a -> valid b -> leb a b = (toordinal a <=? toordinal b).
Proof.
  intros. unfold leb, Z.leb. now rewrite compare_toordinal.
Qed.

Lemma toordinal_prev_day t :
  1 <= month t <= 12 -> 1 <= day t ->
  toordinal (prev_day t) = toordinal t - 1.
Proof.
  intros Hm Hd1. unfold prev_day, toordinal.
  destruct (Z.ltb_spec 1 (day t)) as [Hd | Hd]; simpl; [lia | ].
  destruct (Z.ltb_spec 1 (month t)) as [Hm1 | Hm1]; simpl.
  - pose proof (days_before_month_step (year t) (month t - 1) (month t)). lia.
  - replace (month t) with 1 by lia.
    pose proof (days_before_year_succ (year t - 1)) as E.
    replace (year t - 1 + 1) with (year t) in E by lia.
    rewrite E. unfold days_in_year. calendar_solve (year t - 1).
Qed.

Lemma prev_day_valid t :
  valid t -> 1 < toordinal t -> valid (prev_day t).
Proof.
  intros Hv Ho. pose proof (valid_fields _ Hv) as (Hy & Hm & Hd).
  unfold prev_day.
  destruct (Z.ltb_spec 1 (day t)) as [Hd1 | Hd1].
  - apply valid_intro; lia.
  - destruct (Z.ltb_spec 1 (month t)) as [Hm1 | Hm1].
    + apply valid_intro; try lia.
      assert (Hm' : 1 <= month t - 1 <= 12) by lia. revert Hm'.
      generalize (month t - 1). intros m Hm'.
      month_cases m; calendar_solve (year t).
    + apply valid_intro; try lia; [ | calendar_solve (year t - 1)].
      assert (year t <> 1); [ | lia].
      intros E. unfold toordinal in Ho. rewrite E in Ho.
      replace (month t) with 1 in Ho by lia.
      change (days_before_year 1) with 0 in Ho.
      revert Ho. calendar_solve 1.
Qed.

Lemma sub_days_spec t (n : nat) :
  valid t -> Z.of_nat n < toordinal t ->
  valid (Nat.iter n prev_day t)
  /\ toordinal (Nat.iter n prev_day t) = toordinal t - Z.of_nat n.
Proof.
  intros Hv. induction n as [ | n IH]; intros Hn.
  - simpl. split; [assumption | lia].
  - destruct IH as [IHv IHo]; [lia | ].
    cbn [Nat.iter nat_rect]. 
    change (nat_rect (fun _ => datetime) t (fun _ => prev_day) n) with (Nat.iter n prev_day t).
    split.
    + apply prev_day_valid; [assumption | lia].
    + apply valid_fields in IHv. rewrite toordinal_prev_day; lia.
Qed.

Lemma sub_days_valid t i :
  valid t -> 0 <= i < toordinal t -> valid (sub_days t i).
Proof.
  intros Hv Hi. unfold sub_days. apply sub_days_spec; [assumption | lia].
Qed.

Lemma toordinal_sub_days t i :
  valid t -> 0 <= i < toordinal t ->
  toordinal (sub_days t i) = toordinal t - i.
Proof.
  intros Hv Hi. unfold sub_days.
  destruct (sub_days_spec t (Z.to_nat i) Hv) as [_ E]; lia.
Qed.

(** ** Dictionaries *)

Section DictFacts.
Context {K V : Type} `{KeyEq K}.

Lemma key_eqb_refl (k : K) : key_eqb k k = true.
Proof. destruct (key_eqb_spec k k); congruence. Qed.

Lemma key_eqb_eq (a b : K) : key_eqb a b = true <-> a = b.
Proof. destruct (key_eqb_spec a b); split; congruence. Qed.

Lemma dict_contains_keys (d : dict K V) k :
  dict_contains d k = true <-> In k (keys d).
Proof.
  unfold dict_contains. induction d as [ | [k' v] d IH]; simpl.
  - split; [discriminate | tauto].
  - destruct (key_eqb_spec k k') as [E | N].
    + split; auto.
    + rewrite IH. split; [auto | intros [E | I]; congruence].
Qed.

Lemma dict_get_In (d : dict K V) k v : dict_get d k = Some v -> In (k, v) d.
Proof.
  induction d as [ | [k' v'] d IH]; simpl; [discriminate | ].
  destruct (key_eqb_spec k k') as [E | N].
  - intros [= ->]. subst. now left.
  - auto.
Qed.

Lemma keys_unique_notin (l : list K) k :
  existsb (key_eqb k) l = false <-> ~ In k l.
Proof.
  rewrite <- not_true_iff_false, existsb_exists.
  split; intros N I; apply N.
  - exists k. split; [assumption | apply key_eqb_refl].
  - destruct I as (x & I & E). apply key_eqb_eq in E. now subst.
Qed.

Lemma In_dict_get (d : dict K V) k v :
  well_formed d -> In (k, v) d -> dict_get d k = Some v.
Proof.
  unfold well_formed.
  induction d as [ | [k' v'] d IH]; simpl; [tauto | ].
  rewrite andb_true_iff, negb_true_iff, keys_unique_notin.
  intros [N U] [E | I].
  - injection E as -> ->. now rewrite key_eqb_refl.
  - destruct (key_eqb_spec k k') as [-> | _]; [ | auto].
    exfalso. apply N. change (In (fst (k', v)) (map fst d)). now apply in_map.
Qed.

Lemma keys_dict_set (d : dict K V) k v :
  keys (dict_set d k v) = if dict_contains d k then keys d else keys d ++ [k].
Proof.
  unfold dict_contains. induction d as [ | [k' v'] d IH]; simpl; [reflexivity | ].
  destruct (key_eqb_spec k k'); simpl; [reflexivity | ].
  rewrite IH. now destruct (dict_get d k).
Qed.

Lemma In_keys_dict_set (d : dict K V) k v k' :
  In k' (keys (dict_set d k v)) <-> k' = k \/ In k' (keys d).
Proof.
  rewrite keys_dict_set. destruct (dict_contains d k) eqn:E.
  - apply dict_contains_keys in E. split; [auto | intros [-> | I]; auto].
  - rewrite in_app_iff. simpl. intuition congruence.
Qed.

Lemma length_dict_set (d : dict K V) k v :
  (List.length (dict_set d k v) <= S (List.length d))%nat.
Proof.
  induction d as [ | [k' v'] d IH]; simpl; [lia | ].
  destruct (key_eqb k k'); simpl; lia.
Qed.

Lemma In_dict_set (d : dict K V) k v k' v' :
  In (k', v') (dict_set d k v) -> (k' = k /\ v' = v) \/ In (k', v') d.
Proof.
  induction d as [ | [k0 v0] d IH]; simpl.
  - intros [[= <- <-] | []]. now left.
  - destruct (key_eqb_spec k k0) as [-> | N]; simpl.
    + intros [[= <- <-] | I]; auto.
    + intros [E | I]; auto. destruct (IH I); auto.
Qed.

Lemma dict_get_set (d : dict K V) k v k' :
  dict_get (dict_set d k v) k' = if key_eqb k' k then Some v else dict_get d k'.
Proof.
  induction d as [ | [k0 v0] d IH]; simpl.
  - reflexivity.
  - destruct (key_eqb_spec k k0) as [-> | N]; simpl.
    + destruct (key_eqb k' k0); reflexivity.
    + rewrite IH. destruct (key_eqb_spec k' k0) as [-> | N'].
      * destruct (key_eqb_spec k0 k); congruence.
      * reflexivity.
Qed.

Lemma well_formed_dict_set (d : dict K V) k v :
  well_formed d -> well_formed (dict_set d k v).
Proof.
  unfold well_formed. induction d as [ | [k0 v0] d IH]; simpl; [reflexivity | ].
  rewrite andb_true_iff, negb_true_iff. intros [N U].
  destruct (key_eqb_spec k k0) as [-> | Nk]; simpl.
  - now rewrite N, U.
  - rewrite IH by assumption. rewrite andb_true_r, negb_true_iff.
    apply keys_unique_notin. rewrite (In_keys_dict_set d k v k0).
    apply keys_unique_notin in N. intuition congruence.
Qed.

End DictFacts.

Lemma In_range lo hi k : In k (range lo hi) <-> lo <= k < hi.
Proof.
  unfold range. rewrite in_map_iff. split.
  - intros (n & <- & I). apply in_seq in I. lia.
  - intros Hk. exists (Z.to_nat (k - lo)). split; [lia | ].
    apply in_seq. lia.
Qed.

Lemma length_range lo hi : List.length (range lo hi) = Z.to_nat (hi - lo).
Proof. unfold range. now rewrite length_map, length_seq. Qed.

Lemma set_mem_In s st : set_mem s st = true <-> In s st.
Proof.
  unfold set_mem. rewrite existsb_exists. split.
  - intros (x & I & E). apply String.eqb_eq in E. now subst.
  - intros I. exists s. split; [assumption | apply String.eqb_refl].
Qed.

Lemma NoDup_map_inj_in {A B : Type} (f : A -> B) (l : list A) :
  (forall x y, In x l -> In y l -> f x = f y -> x = y) ->
  NoDup l -> NoDup (map f l).
Proof.
  intros Inj N. induction N as [ | x l Nx N IH]; simpl; constructor.
  - rewrite in_map_iff. intros (y & E & I). apply Nx.
    rewrite (Inj x y); [assumption | now left | now right | congruence].
  - apply IH. intros a b Ia Ib. apply Inj; now right.
Qed.

Lemma NoDup_range lo hi : NoDup (range lo hi).
Proof.
  unfold range. apply NoDup_map_inj_in; [ | apply seq_NoDup].
  intros x y _ _. lia.
Qed.

(** ** Date strings *)

Lemma N_of_digit_char k :
  0 <= k <= 9 -> N_of_ascii (digit_char k) = Z.to_N (48 + k).
Proof. intros. unfold digit_char. apply N_ascii_embedding. lia. Qed.

Lemma digit_val_digit_char k :
  0 <= k <= 9 -> digit_val (digit_char k) = Some k.
Proof.
  intros Hk. unfold digit_val. rewrite N_of_digit_char by assumption.
  rewrite Z2N.id by lia.
  replace ((48 <=? 48 + k) && (48 + k <=? 57)) with true
    by (symmetry; apply andb_true_iff; split; apply Z.leb_le; lia).
  f_equal. lia.
Qed.

Lemma compare_digit_char a b :
  0 <= a <= 9 -> 0 <= b <= 9 ->
  Ascii.compare (digit_char a) (digit_char b) = (a ?= b).
Proof.
  intros Ha Hb. unfold Ascii.compare. rewrite !N_of_digit_char by assumption.
  rewrite Z2N.inj_compare by lia. apply Z.add_compare_mono_l.
Qed.

(** Comparing two numbers digit by digit, high digit first. *)
Lemma compare_high_low (B h1 l1 h2 l2 : Z) (k : comparison) :
  0 <= l1 < B -> 0 <= l2 < B ->
  match h1 ?= h2 with
  | Eq => match l1 ?= l2 with Eq => k | c => c end
  | c => c
  end
  = match B * h1 + l1 ?= B * h2 + l2 with Eq => k | c => c end.
Proof.
  intros H1 H2.
  destruct (Z.compare_spec h1 h2) as [E | L | L].
  - subst h2. now rewrite Z.add_compare_mono_l.
  - replace (B * h1 + l1 ?= B * h2 + l2) with Lt; [reflexivity | ].
    symmetry. apply Z.compare_lt_iff. nia.
  - replace (B * h1 + l1 ?= B * h2 + l2) with Gt; [reflexivity | ].
    symmetry. apply Z.compare_gt_iff. nia.
Qed.

Lemma compare_refl s : String.compare s s = Eq.
Proof.
  induction s as [ | c s IH]; [reflexivity | ]. simpl.
  unfold Ascii.compare. now rewrite N.compare_refl.
Qed.

Lemma digits2 n :
  0 <= n <= 99 ->
  0 <= n / 10 mod 10 <= 9 /\ 0 <= n mod 10 <= 9
  /\ n = 10 * (n / 10 mod 10) + n mod 10.
Proof. intros. Z.div_mod_to_equations. lia. Qed.

Lemma digits4 n :
  0 <= n <= 9999 ->
  0 <= n / 1000 mod 10 <= 9 /\ 0 <= n / 100 mod 10 <= 9
  /\ 0 <= n / 10 mod 10 <= 9 /\ 0 <= n mod 10 <= 9
  /\ n = 1000 * (n / 1000 mod 10) + 100 * (n / 100 mod 10)
         + 10 * (n / 10 mod 10) + n mod 10.
Proof. intros. Z.div_mod_to_equations. lia. Qed.

Lemma compare_pad2 m1 m2 r1 r2 :
  0 <= m1 <= 99 -> 0 <= m2 <= 99 ->
  String.compare (pad2 m1 ++ r1) (pad2 m2 ++ r2)
  = match m1 ?= m2 with Eq => String.compare r1 r2 | c => c end.
Proof.
  intros H1 H2.
  destruct (digits2 m1 H1) as (Hx1 & Hy1 & E1).
  destruct (digits2 m2 H2) as (Hx2 & Hy2 & E2).
  unfold pad2. cbn [append String.compare].
  rewrite !compare_digit_char by assumption.
  rewrite (compare_high_low 10) by lia. now rewrite <- E1, <- E2.
Qed.

Lemma compare_pad4 y1 y2 r1 r2 :
  0 <= y1 <= 9999 -> 0 <= y2 <= 9999 ->
  String.compare (pad4 y1 ++ r1) (pad4 y2 ++ r2)
  = match y1 ?= y2 with Eq => String.compare r1 r2 | c => c end.
Proof.
  intros H1 H2.
  destruct (digits4 y1 H1) as (Ha1 & Hb1 & Hc1 & Hd1 & E1).
  destruct (digits4 y2 H2) as (Ha2 & Hb2 & Hc2 & Hd2 & E2).
  unfold pad4, pad2. cbn [append String.compare].
  rewrite !compare_digit_char by assumption.
  rewrite (compare_high_low 10 (y1 / 10 mod 10)) by lia.
  rewrite (compare_high_low 100 (y1 / 100 mod 10)) by lia.
  rewrite (compare_high_low 1000 (y1 / 1000 mod 10)) by lia.
  replace (1000 * (y1 / 1000 mod 10) + (100 * (y1 / 100 mod 10) + (10 * (y1 / 10 mod 10) + y1 mod 10))) with y1 by lia.
  replace (1000 * (y2 / 1000 mod 10) + (100 * (y2 / 100 mod 10) + (10 * (y2 / 10 mod 10) + y2 mod 10))) with y2 by lia.
  reflexivity.
Qed.

Lemma days_in_month_le y m : days_in_month y m <= 31.
Proof. unfold days_in_month. repeat destruct (_ : bool); simpl; lia. Qed.

(** *** The zero padded text *)

(** The padded date strings are ordered as the dates are. *)
Lemma compare_padded a b fmt :
  valid a -> valid b ->
  String.compare (padded_text a fmt) (padded_text b fmt)
  = Datetime.compare a b.
Proof.
  intros Ha Hb.
  apply valid_fields in Ha as (Hya & Hma & Hda).
  apply valid_fields in Hb as (Hyb & Hmb & Hdb).
  pose proof (days_in_month_le (year a) (month a)).
  pose proof (days_in_month_le (year b) (month b)).
  unfold padded_text, Datetime.compare.
  rewrite compare_pad4 by lia. cbn [append String.compare].
  change (Ascii.compare "-" "-") with Eq. cbv iota.
  rewrite compare_pad2 by lia. cbn [append String.compare].
  change (Ascii.compare "-" "-") with Eq. cbv iota.
  rewrite compare_pad2 by lia. rewrite compare_refl.
  destruct (year a ?= year b); try reflexivity.
  destruct (month a ?= month b); try reflexivity.
  destruct (day a ?= day b); reflexivity.
Qed.

Lemma padded_text_inj a b fmt :
  valid a -> valid b -> padded_text a fmt = padded_text b fmt -> a = b.
Proof.
  intros Ha Hb E. apply compare_eq.
  rewrite <- (compare_padded a b fmt) by assumption.
  rewrite E. apply compare_refl.
Qed.

Lemma leb_padded a b fmt :
  valid a -> valid b ->
  String.leb (padded_text a fmt) (padded_text b fmt) = Datetime.leb a b.
Proof.
  intros Ha Hb. unfold String.leb, Datetime.leb. now rewrite compare_padded.
Qed.

(** *** Reading the padded text *)

Lemma parse_year_pad4 y r :
  0 <= y <= 9999 -> parse_year (pad4 y ++ r) = Some (y, r).
Proof.
  intros Hy. destruct (digits4 y Hy) as (Ha & Hb & Hc & Hd & E).
  unfold pad4, pad2, parse_year. cbn [append].
  rewrite !digit_val_digit_char by assumption. now rewrite <- E.
Qed.

Lemma parse_month_pad2 m r :
  1 <= m <= 12 -> parse_month (pad2 m ++ r) = Some (m, r).
Proof.
  intros Hm. destruct (digits2 m ltac:(lia)) as (Hx & Hy & E).
  unfold pad2, parse_month, next_digit. cbn [append].
  rewrite !digit_val_digit_char by assumption.
  replace ((m / 10 mod 10 =? 1) && (m mod 10 <=? 2)
           || (m / 10 mod 10 =? 0) && (1 <=? m mod 10)) with true.
  - now rewrite <- E.
  - symmetry. rewrite orb_true_iff, !andb_true_iff, !Z.eqb_eq, !Z.leb_le. lia.
Qed.

Lemma parse_day_pad2 d r :
  1 <= d <= 31 -> parse_day (pad2 d ++ r) = Some (d, r).
Proof.
  intros Hd. destruct (digits2 d ltac:(lia)) as (Hx & Hy & E).
  unfold pad2, parse_day, next_digit. cbn [append].
  rewrite !digit_val_digit_char by assumption.
  replace ((d / 10 mod 10 =? 3) && (d mod 10 <=? 1) || (d / 10 mod 10 =? 1)
           || (d / 10 mod 10 =? 2)
           || (d / 10 mod 10 =? 0) && (1 <=? d mod 10)) with true.
  - now rewrite <- E.
  - symmetry.
    rewrite !orb_true_iff, !andb_true_iff, !Z.eqb_eq, !Z.leb_le. lia.
Qed.

(** [strptime] reads the padded text of every day, in either format's
    own text. *)
Lemma strptime_padded t fmt :
  valid t -> strptime (padded_text t fmt) fmt = Some t.
Proof.
  intros Hv. pose proof (valid_fields _ Hv) as (Hy & Hm & Hd).
  pose proof (days_in_month_le (year t) (month t)).
  unfold strptime, padded_text.
  rewrite parse_year_pad4 by lia. cbn [append expect_char].
  change (Ascii.eqb "-" "-") with true. cbv iota.
  rewrite parse_month_pad2 by lia. cbn [append expect_char].
  change (Ascii.eqb "-" "-") with true. cbv iota.
  rewrite parse_day_pad2 by lia.
  rewrite String.eqb_refl.
  destruct t as [y m d]. simpl in *. unfold valid in Hv. simpl in Hv. now rewrite Hv.
Qed.

(** *** What [strftime] writes *)

Lemma digit_char_inj a b :
  0 <= a <= 9 -> 0 <= b <= 9 -> digit_char a = digit_char b -> a = b.
Proof.
  intros Ha Hb E. apply (f_equal digit_val) in E.
  rewrite !digit_val_digit_char in E by assumption. congruence.
Qed.

Lemma digit_char_not_dash a : 0 <= a <= 9 -> digit_char a <> "-"%char.
Proof.
  intros Ha E. apply (f_equal digit_val) in E.
  rewrite digit_val_digit_char in E by assumption. discriminate.
Qed.

(** [str] of a year has as many digits as the year needs. *)
Lemma str_of_int_year n :
  0 <= n <= 9999 ->
  str_of_int n
  = if n <? 10 then String (digit_char n) ""
    else if n <? 100 then pad2 n
    else if n <? 1000 then String (digit_char (n / 100 mod 10)) (pad2 n)
    else pad4 n.
Proof.
  intros Hn.
  assert (forallb
            (fun n =>
               String.eqb
                 (str_of_int n)
                 (if n <? 10 then String (digit_char n) ""
                  else if n <? 100 then pad2 n
                  else if n <? 1000
                       then String (digit_char (n / 100 mod 10)) (pad2 n)
                       else pad4 n))
            (range 0 10000) = true) as F by (vm_compute; reflexivity).
  rewrite forallb_forall in F. apply String.eqb_eq, F, In_range. lia.
Qed.

Lemma strftime_padded t fmt :
  1000 <= year t <= 9999 -> strftime t fmt = padded_text t fmt.
Proof.
  intros Hy. unfold strftime, padded_text. rewrite str_of_int_year by lia.
  destruct (Z.ltb_spec (year t) 10); [lia | ].
  destruct (Z.ltb_spec (year t) 100); [lia | ].
  destruct (Z.ltb_spec (year t) 1000); [lia | reflexivity].
Qed.

(** The text of a year below 1000 has no fourth digit for [%Y] to read. *)
Lemma parse_year_short n r :
  0 <= n < 1000 -> parse_year (str_of_int n ++ "-" ++ r) = None.
Proof.
  intros Hn. rewrite str_of_int_year by lia.
  assert (digit_val "-" = None) as D by reflexivity.
  destruct (Z.ltb_spec n 10); [ | destruct (Z.ltb_spec n 100);
    [ | destruct (Z.ltb_spec n 1000); [ | lia]]].
  all: unfold pad2, parse_year; cbn [append].
  - destruct r as [ | ? [ | ? ?]]; try reflexivity.
    rewrite D. now destruct (digit_val (digit_char n)).
  - destruct r as [ | ? ?]; try reflexivity.
    rewrite D. now destruct (digit_val (digit_char (n / 10 mod 10))),
                 (digit_val (digit_char (n mod 10))).
  - rewrite D. now destruct (digit_val (digit_char (n / 100 mod 10))),
                 (digit_val (digit_char (n / 10 mod 10))),
                 (digit_val (digit_char (n mod 10))).
Qed.

Lemma strptime_strftime t fmt :
  valid t -> 1000 <= year t -> strptime (strftime t fmt) fmt = Some t.
Proof.
  intros Hv Hy. pose proof (valid_fields _ Hv) as (Hy' & _).
  rewrite strftime_padded by lia. now apply strptime_padded.
Qed.

Lemma strptime_strftime_short t fmt fmt' :
  valid t -> year t < 1000 -> strptime (strftime t fmt) fmt' = None.
Proof.
  intros Hv Hy. pose proof (valid_fields _ Hv) as (Hy' & _).
  unfold strptime, strftime. now rewrite parse_year_short by lia.
Qed.

(** Whatever [strptime] reads of a text of [strftime] is the day that was
    written, and its year has four digits. *)
Lemma strptime_strftime_inv t t' fmt :
  valid t -> strptime (strftime t fmt) fmt = Some t' ->
  t' = t /\ 1000 <= year t.
Proof.
  intros Hv P. destruct (Z.lt_ge_cases (year t) 1000) as [L | G].
  - rewrite strptime_strftime_short in P by assumption. discriminate.
  - rewrite strptime_strftime in P by assumption. split; [congruence | lia].
Qed.

Ltac digits_solve :=
  repeat match goal with
         | E : digit_char _ = digit_char _ |- _ =>
             apply digit_char_inj in E;
             [ | Z.div_mod_to_equations; lia | Z.div_mod_to_equations; lia]
         | E : digit_char _ = "-"%char |- _ =>
             exfalso; apply digit_char_not_dash in E;
             [exact E | Z.div_mod_to_equations; lia]
         | E : "-"%char = digit_char _ |- _ =>
             exfalso; symmetry in E; apply digit_char_not_dash in E;
             [exact E | Z.div_mod_to_equations; lia]
         end.

(** The year ends at the first dash. *)
Lemma str_of_int_year_inj n1 n2 r1 r2 :
  0 <= n1 <= 9999 -> 0 <= n2 <= 9999 ->
  (str_of_int n1 ++ "-" ++ r1)%string = (str_of_int n2 ++ "-" ++ r2)%string ->
  n1 = n2 /\ r1 = r2.
Proof.
  intros H1 H2. rewrite !str_of_int_year by assumption.
  destruct (Z.ltb_spec n1 10); [ | destruct (Z.ltb_spec n1 100);
    [ | destruct (Z.ltb_spec n1 1000)]].
  all: (destruct (Z.ltb_spec n2 10); [ | destruct (Z.ltb_spec n2 100);
    [ | destruct (Z.ltb_spec n2 1000)]]).
  all: unfold pad4, pad2; cbn [append]; intros E; injection E; clear E; intros.
  all: digits_solve.
  all: split; [Z.div_mod_to_equations; lia | assumption].
Qed.

Lemma pad2_inj m1 m2 r1 r2 :
  0 <= m1 <= 99 -> 0 <= m2 <= 99 ->
  (pad2 m1 ++ r1)%string = (pad2 m2 ++ r2)%string -> m1 = m2 /\ r1 = r2.
Proof.
  intros H1 H2. unfold pad2. cbn [append]. intros E.
  injection E; clear E; intros. digits_solve.
  split; [Z.div_mod_to_equations; lia | assumption].
Qed.

(** Two days with the same text are the same day. *)
Lemma strftime_inj a b fmt :
  valid a -> valid b -> strftime a fmt = strftime b fmt -> a = b.
Proof.
  intros Ha Hb E.
  apply valid_fields in Ha as (Hya & Hma & Hda).
  apply valid_fields in Hb as (Hyb & Hmb & Hdb).
  pose proof (days_in_month_le (year a) (month a)).
  pose proof (days_in_month_le (year b) (month b)).
  unfold strftime in E.
  apply str_of_int_year_inj in E; [ | lia | lia]. destruct E as [Ey E].
  apply pad2_inj in E; [ | lia | lia]. destruct E as [Em E].
  assert (forall x y, ("-" ++ x)%string = ("-" ++ y)%string -> x = y) as Dash
    by (intros x y [= ->]; reflexivity).
  apply Dash in E.
  apply pad2_inj in E; [ | lia | lia]. destruct E as [Ed _].
  destruct a, b. cbn [year month day] in *. congruence.
Qed.

(** From the year 1000 on the texts are ordered as the days are. *)
Lemma leb_strftime a b fmt :
  valid a -> valid b -> 1000 <= year a -> 1000 <= year b ->
  String.leb (strftime a fmt) (strftime b fmt) = Datetime.leb a b.
Proof.
  intros Ha Hb Ya Yb.
  pose proof (valid_fields _ Ha) as (Hya & _).
  pose proof (valid_fields _ Hb) as (Hyb & _).
  rewrite !strftime_padded by lia. now apply leb_padded.
Qed.

(** ** The candidate dates *)

Lemma In_dates_in_range start_date end_date weekends_only d :
  valid start_date -> valid end_date ->
  In d (dates_in_range start_date end_date weekends_only)
  <-> valid d
      /\ toordinal start_date <= toordinal d < toordinal end_date
      /\ (weekends_only = true -> is_weekend d = true).
Proof.
  intros Hs He. pose proof (toordinal_pos _ Hs) as Ps.
  assert (In d (map (fun i => sub_days end_date i)
                    (range 1 (days_between end_date start_date + 1)))
          <-> valid d
              /\ toordinal start_date <= toordinal d < toordinal end_date) as R.
  { rewrite in_map_iff. unfold days_between. split.
    - intros (i & <- & I). apply In_range in I.
      rewrite toordinal_sub_days by (assumption || lia).
      split; [apply sub_days_valid; (assumption || lia) | lia].
    - intros (Hd & Ho). exists (toordinal end_date - toordinal d).
      split; [ | apply In_range; lia].
      apply toordinal_inj;
        [apply sub_days_valid; (assumption || lia) | assumption | ].
      rewrite toordinal_sub_days by (assumption || lia). lia. }
  unfold dates_in_range. destruct weekends_only.
  - rewrite filter_In, R. intuition.
  - rewrite R. intuition congruence.
Qed.

Lemma In_dates_in_range_set start_date end_date weekends_only s :
  valid start_date -> valid end_date ->
  In s (dates_in_range_set start_date end_date weekends_only)
  <-> exists d, s = format_date d ISO_DATE_FORMAT_RESPONSE
                /\ In d (dates_in_range start_date end_date weekends_only).
Proof.
  intros Hs He. unfold dates_in_range_set, set_of. rewrite in_map_iff.
  split; intros (d & A & B); exists d; auto.
Qed.

Lemma NoDup_dates_in_range start_date end_date weekends_only :
  valid start_date -> valid end_date ->
  NoDup (dates_in_range start_date end_date weekends_only).
Proof.
  intros Hs He. pose proof (toordinal_pos _ Hs) as Ps.
  assert (NoDup (map (fun i => sub_days end_date i)
                     (range 1 (days_between end_date start_date + 1)))) as N.
  { apply NoDup_map_inj_in; [ | apply NoDup_range].
    unfold days_between. intros x y Ix Iy E.
    apply In_range in Ix, Iy.
    assert (toordinal (sub_days end_date x) = toordinal (sub_days end_date y))
      as Eo by congruence.
    rewrite !toordinal_sub_days in Eo by (assumption || lia). lia. }
  unfold dates_in_range. destruct weekends_only; [ | exact N].
  now apply NoDup_filter.
Qed.

Lemma NoDup_dates_in_range_set start_date end_date weekends_only :
  valid start_date -> valid end_date ->
  NoDup (dates_in_range_set start_date end_date weekends_only).
Proof.
  intros Hs He. unfold dates_in_range_set, set_of.
  apply NoDup_map_inj_in; [ | now apply NoDup_dates_in_range].
  intros x y Ix Iy E.
  apply In_dates_in_range in Ix, Iy; try assumption.
  apply (strftime_inj x y ISO_DATE_FORMAT_RESPONSE); tauto.
Qed.

Lemma length_dates_in_range_set start_date end_date weekends_only :
  List.length (dates_in_range_set start_date end_date weekends_only)
  = List.length (dates_in_range start_date end_date weekends_only).
Proof. unfold dates_in_range_set, set_of. apply length_map. Qed.

Lemma dates_in_range_set_elements start_date end_date weekends_only s :
  valid start_date -> valid end_date ->
  In s (dates_in_range_set start_date end_date weekends_only) ->
  exists d, valid d /\ s = format_date d ISO_DATE_FORMAT_RESPONSE
            /\ toordinal start_date <= toordinal d < toordinal end_date
            /\ (weekends_only = true -> is_weekend d = true).
Proof.
  intros Hs He I. apply In_dates_in_range_set in I; try assumption.
  destruct I as (d & -> & I).
  apply In_dates_in_range in I; try assumption. destruct I as (Hd & Ho & Hw).
  exists d. auto.
Qed.

Lemma set_mem_dates_in_range_set start_date end_date weekends_only d :
  valid start_date -> valid end_date -> valid d ->
  set_mem (format_date d ISO_DATE_FORMAT_RESPONSE)
          (dates_in_range_set start_date end_date weekends_only) = true
  <-> toordinal start_date <= toordinal d < toordinal end_date
      /\ (weekends_only = true -> is_weekend d = true).
Proof.
  intros Hs He Hd. rewrite set_mem_In. split.
  - intros I. apply dates_in_range_set_elements in I; try assumption.
    destruct I as (d' & Hd' & E & Ho & Hw).
    apply strftime_inj in E; try assumption. subst d'. auto.
  - intros (Ho & Hw). apply In_dates_in_range_set; try assumption.
    exists d. split; [reflexivity | ].
    apply In_dates_in_range; auto.
Qed.

(** Claim C1, as amended.  The candidate set of [get_num_available_dates]
    is the half-open window that includes [start_date] and excludes
    [end_date]: every string of the set is the text of a date [d] with
    [start_date <= d < end_date] (a Friday or Saturday under
    [weekends_only]), and the text of every such date is in the set. *)
Theorem candidate_dates_window start_date end_date weekends_only :
  valid start_date -> valid end_date ->
  (forall s,
      In s (dates_in_range_set start_date end_date weekends_only) ->
      exists d, valid d /\ s = format_date d ISO_DATE_FORMAT_RESPONSE
                /\ leb start_date d = true /\ ltb d end_date = true
                /\ (weekends_only = true -> is_weekend d = true))
  /\ (forall d,
         valid d ->
         set_mem (format_date d ISO_DATE_FORMAT_RESPONSE)
                 (dates_in_range_set start_date end_date weekends_only) = true
         <-> leb start_date d = true /\ ltb d end_date = true
             /\ (weekends_only = true -> is_weekend d = true)).
Proof.
  intros Hs He. split.
  - intros s I. apply dates_in_range_set_elements in I; try assumption.
    destruct I as (d & Hd & E & Ho & Hw).
    exists d. rewrite leb_toordinal, ltb_toordinal by assumption.
    rewrite Z.leb_le, Z.ltb_lt. intuition.
  - intros d Hd. rewrite set_mem_dates_in_range_set by assumption.
    rewrite leb_toordinal, ltb_toordinal by assumption.
    rewrite Z.leb_le, Z.ltb_lt. tauto.
Qed.

Lemma candidate_dates_window_witness :
  valid d_2022_06_22 /\ valid d_2022_06_24
  /\ (set_mem (format_date d_2022_06_22 ISO_DATE_FORMAT_RESPONSE)
              (dates_in_range_set d_2022_06_22 d_2022_06_24 false) = true
      <-> leb d_2022_06_22 d_2022_06_22 = true
          /\ ltb d_2022_06_22 d_2022_06_24 = true
          /\ (false = true -> is_weekend d_2022_06_22 = true)).
Proof.
  split; [reflexivity | ]. split; [reflexivity | ].
  apply (candidate_dates_window d_2022_06_22 d_2022_06_24 false);
    reflexivity.
Defined.

Lemma candidate_dates_counterexample :
  ltb d_2022_06_22 d_2022_06_24 = true
  /\ set_mem (format_date d_2022_06_22 ISO_DATE_FORMAT_RESPONSE)
             (dates_in_range_set d_2022_06_22 d_2022_06_24 false) = true
  /\ ltb d_2022_06_22 d_2022_06_22 = false
  /\ leb d_2022_06_24 d_2022_06_24 = true
  /\ set_mem (format_date d_2022_06_24 ISO_DATE_FORMAT_RESPONSE)
             (dates_in_range_set d_2022_06_22 d_2022_06_24 false) = false.
Proof. repeat split. Qed.

Lemma bool_eq_iff (a b : bool) : (a = true <-> b = true) -> a = b.
Proof. destruct a, b; intuition congruence. Qed.

Lemma in_candidate_dates_spec start_date end_date weekends_only d :
  valid start_date -> valid end_date -> valid d ->
  in_candidate_dates start_date end_date weekends_only d
  = negb (outside_requested_range d start_date end_date)
    && (negb weekends_only || is_weekend d).
Proof.
  intros Hs He Hd. apply bool_eq_iff. unfold in_candidate_dates.
  rewrite set_mem_dates_in_range_set by assumption.
  unfold outside_requested_range, geb.
  rewrite !leb_toordinal, !ltb_toordinal by assumption.
  rewrite andb_true_iff, negb_true_iff, orb_false_iff, orb_true_iff,
    negb_true_iff, Z.ltb_ge, Z.leb_gt.
  destruct weekends_only; intuition congruence.
Qed.

(** Claim C2, as amended.  The aggregator's membership test and the
    normaliser's range test are two pieces of code that agree on every
    date: for a window with [start_date < end_date] both accept
    [start_date] and both reject [end_date]. *)
Theorem window_predicates_agree start_date end_date :
  valid start_date -> valid end_date -> ltb start_date end_date = true ->
  in_candidate_dates start_date end_date false start_date = true
  /\ in_candidate_dates start_date end_date false end_date = false
  /\ outside_requested_range start_date start_date end_date = false
  /\ outside_requested_range end_date start_date end_date = true
  /\ (forall d, valid d ->
                in_candidate_dates start_date end_date false d
                = negb (outside_requested_range d start_date end_date)).
Proof.
  intros Hs He L.
  assert (forall d, valid d ->
                    in_candidate_dates start_date end_date false d
                    = negb (outside_requested_range d start_date end_date)) as A.
  { intros d Hd. rewrite in_candidate_dates_spec by assumption.
    simpl. apply andb_true_r. }
  assert (outside_requested_range start_date start_date end_date = false) as B.
  { unfold outside_requested_range, geb.
    rewrite leb_toordinal, !ltb_toordinal in * by assumption.
    apply orb_false_iff. rewrite Z.ltb_ge, Z.leb_gt.
    apply Z.ltb_lt in L. lia. }
  assert (outside_requested_range end_date start_date end_date = true) as C.
  { unfold outside_requested_range, geb.
    rewrite leb_toordinal by assumption. apply orb_true_iff. right.
    apply Z.leb_le. lia. }
  rewrite !A, B, C by assumption. auto.
Qed.

Lemma window_predicates_agree_witness :
  valid d_2022_06_22 /\ valid d_2022_06_24
  /\ ltb d_2022_06_22 d_2022_06_24 = true
  /\ in_candidate_dates d_2022_06_22 d_2022_06_24 false d_2022_06_22 = true
  /\ in_candidate_dates d_2022_06_22 d_2022_06_24 false d_2022_06_24 = false
  /\ outside_requested_range d_2022_06_22 d_2022_06_22 d_2022_06_24 = false
  /\ outside_requested_range d_2022_06_24 d_2022_06_22 d_2022_06_24 = true.
Proof.
  split; [reflexivity | ]. split; [reflexivity | ]. split; [reflexivity | ].
  destruct (window_predicates_agree d_2022_06_22 d_2022_06_24)
    as (A & B & C & D & _); try reflexivity.
  exact (conj A (conj B (conj C D))).
Defined.

Lemma window_predicates_counterexample :
  ltb d_2022_06_22 d_2022_06_24 = true
  /\ in_candidate_dates d_2022_06_22 d_2022_06_24 false d_2022_06_24 = false
  /\ in_candidate_dates d_2022_06_22 d_2022_06_24 false d_2022_06_22 = true
  /\ negb (outside_requested_range d_2022_06_22 d_2022_06_22 d_2022_06_24)
     = in_candidate_dates d_2022_06_22 d_2022_06_24 false d_2022_06_22
  /\ negb (outside_requested_range d_2022_06_24 d_2022_06_22 d_2022_06_24)
     = in_candidate_dates d_2022_06_22 d_2022_06_24 false d_2022_06_24.
Proof. repeat split. Qed.

(** ** The aggregate *)

Section Aggregate.
Variables (st : str_set) (min_permits : Z).

Local Abbreviation step := (aggregate_division st min_permits).
Local Abbreviation kept dv :=
  (filter (matches st min_permits) (available_dates dv)).

Lemma aggregate_division_keys acc id dv k :
  In k (keys (step acc (id, dv)))
  <-> In k (keys acc) \/ (k = id /\ kept dv <> []).
Proof.
  unfold aggregate_division.
  destruct (kept dv) as [ | e l] eqn:E.
  - intuition congruence.
  - rewrite In_keys_dict_set. intuition congruence.
Qed.

Lemma fold_aggregate_keys items acc k :
  In k (keys (fold_left step items acc))
  <-> In k (keys acc)
      \/ exists dv, In (k, dv) items /\ kept dv <> [].
Proof.
  revert acc. induction items as [ | [id dv] items IH]; intros acc; cbn [fold_left].
  - split; [auto | intros [I | (dv & [] & _)]; assumption].
  - rewrite IH, aggregate_division_keys. split.
    + intros [[I | [-> N]] | (dv' & I & N)].
      * now left.
      * right. exists dv. split; [now left | assumption].
      * right. exists dv'. split; [now right | assumption].
    + intros [I | (dv' & [E | I] & N)].
      * left. now left.
      * injection E as -> ->. left. right. now split.
      * right. exists dv'. now split.
Qed.

Lemma fold_aggregate_values items acc k v :
  In (k, v) (fold_left step items acc) ->
  In (k, v) acc
  \/ exists dv, In (k, dv) items /\ kept dv <> []
                /\ v = mk_available_division (name dv) (kept dv).
Proof.
  revert acc. induction items as [ | [id dv] items IH]; intros acc; cbn [fold_left].
  - auto.
  - intros I. apply IH in I. destruct I as [I | (dv' & I & N & E)].
    + unfold aggregate_division in I.
      destruct (kept dv) as [ | e l] eqn:E; [now left | ].
      apply In_dict_set in I. destruct I as [[-> ->] | I]; [ | now left].
      right. exists dv. rewrite E.
      split; [now left | split; [discriminate | reflexivity]].
    + right. exists dv'. split; [now right | now split].
Qed.

Lemma fold_aggregate_length items acc :
  (List.length (fold_left step items acc)
   <= List.length acc + List.length items)%nat.
Proof.
  revert acc. induction items as [ | [id dv] items IH]; intros acc; cbn [fold_left].
  - lia.
  - etransitivity; [apply IH | ].
    unfold aggregate_division.
    destruct (filter _ _); [simpl; lia | ].
    pose proof (length_dict_set acc id
                  (mk_available_division (name dv) (d :: l))).
    cbn [List.length]. lia.
Qed.

End Aggregate.

Lemma matches_spec st min_permits avail :
  matches st min_permits avail = true
  <-> set_mem (date avail) st = true /\ min_permits <= remaining avail.
Proof.
  unfold matches. rewrite andb_true_iff, Z.geb_le. tauto.
Qed.

Lemma filter_nonempty {A : Type} (f : A -> bool) (l : list A) :
  filter f l <> [] <-> exists x, In x l /\ f x = true.
Proof.
  split.
  - destruct (filter f l) as [ | x r] eqn:E; [congruence | ].
    intros _. exists x. apply filter_In. rewrite E. now left.
  - intros (x & I & F) E.
    assert (In x (filter f l)) as I' by (apply filter_In; auto).
    rewrite E in I'. destruct I'.
Qed.

(** Claim C3.  A division is a key of [available_divisions] exactly when
    one of its dates is in the candidate set and has at least
    [min_permits] remaining; no entry of [available_divisions] has an empty
    list of dates; and the total count is the number of divisions of the
    input, whatever the filters keep. *)
Theorem division_listed_iff_date_survives
  (permit_information : dict string division) (start_date end_date : datetime)
  (weekends_only : bool) (min_permits : Z) :
  (forall division_id,
      dict_contains
        (available_divisions_of
           (get_num_available_dates permit_information start_date end_date
                                    weekends_only min_permits))
        division_id = true
      <-> exists division_data avail,
          In (division_id, division_data) permit_information
          /\ In avail (available_dates division_data)
          /\ set_mem (date avail)
                     (dates_in_range_set start_date end_date weekends_only)
             = true
          /\ min_permits <= remaining avail)
  /\ (forall division_id v,
         In (division_id, v)
            (available_divisions_of
               (get_num_available_dates permit_information start_date end_date
                                        weekends_only min_permits)) ->
         dates v <> [])
  /\ maximum_of (get_num_available_dates permit_information start_date end_date
                                         weekends_only min_permits)
     = len permit_information.
Proof.
  unfold get_num_available_dates, available_divisions_of, maximum_of.
  cbn [fst snd]. split; [ | split; [ | reflexivity]].
  - intros division_id. rewrite dict_contains_keys, fold_aggregate_keys.
    split.
    + intros [[] | (dv & I & N)]. apply filter_nonempty in N.
      destruct N as (avail & Ia & M). apply matches_spec in M.
      exists dv, avail. tauto.
    + intros (dv & avail & I & Ia & M). right. exists dv.
      split; [assumption | ]. apply filter_nonempty. exists avail.
      split; [assumption | ]. now apply matches_spec.
  - intros division_id v I. apply fold_aggregate_values in I.
    destruct I as [[] | (dv & _ & N & ->)]. exact N.
Qed.

Lemma surviving_entry
  (permit_information : dict string division) (start_date end_date : datetime)
  (weekends_only : bool) (min_permits : Z) division_id v avail :
  In (division_id, v)
     (available_divisions_of
        (get_num_available_dates permit_information start_date end_date
                                 weekends_only min_permits)) ->
  In avail (dates v) ->
  exists division_data,
    In (division_id, division_data) permit_information
    /\ In avail (available_dates division_data)
    /\ matches (dates_in_range_set start_date end_date weekends_only)
               min_permits avail = true.
Proof.
  unfold get_num_available_dates, available_divisions_of. cbn [fst snd].
  intros I Ia. apply fold_aggregate_values in I.
  destruct I as [[] | (dv & I & _ & ->)]. cbn [dates] in Ia.
  apply filter_In in Ia. destruct Ia as [Ia M]. exists dv. auto.
Qed.

(** Claim C4.  Every date that survives in a division of the aggregate has
    at least [min_permits] remaining and its date string in the candidate
    set, and it is an entry of that division in the input: a date with
    fewer than [min_permits] remaining never survives. *)
Theorem surviving_dates_meet_threshold
  (permit_information : dict string division) (start_date end_date : datetime)
  (weekends_only : bool) (min_permits : Z) division_id v avail :
  In (division_id, v)
     (available_divisions_of
        (get_num_available_dates permit_information start_date end_date
                                 weekends_only min_permits)) ->
  In avail (dates v) ->
  min_permits <= remaining avail
  /\ set_mem (date avail)
             (dates_in_range_set start_date end_date weekends_only) = true
  /\ exists division_data,
       In (division_id, division_data) permit_information
       /\ In avail (available_dates division_data).
Proof.
  intros I Ia.
  destruct (surviving_entry _ _ _ _ _ _ _ _ I Ia) as (dv & Id & Iad & M).
  apply matches_spec in M. destruct M as [Ms Mr].
  split; [exact Mr | ]. split; [exact Ms | ].
  exists dv. split; assumption.
Qed.

Lemma surviving_dates_meet_threshold_witness :
  In ("200", mk_available_division "Some River Section"
               [mk_date_entry "2022-06-22T00:00:00Z" 3 6])
     (available_divisions_of
        (get_num_available_dates sample_permit_information
           d_2022_06_22 d_2022_06_24 false 2))
  /\ 2 <= remaining (mk_date_entry "2022-06-22T00:00:00Z" 3 6)
  /\ set_mem (date (mk_date_entry "2022-06-22T00:00:00Z" 3 6))
             (dates_in_range_set d_2022_06_22 d_2022_06_24 false) = true.
Proof.
  assert (In ("200", mk_available_division "Some River Section"
                       [mk_date_entry "2022-06-22T00:00:00Z" 3 6])
             (available_divisions_of
                (get_num_available_dates sample_permit_information
                   d_2022_06_22 d_2022_06_24 false 2))) as I
    by (left; reflexivity).
  split; [exact I | ].
  destruct (surviving_dates_meet_threshold _ _ _ _ _ _ _
              (mk_date_entry "2022-06-22T00:00:00Z" 3 6) I)
    as (A & B & _); [left; reflexivity | ].
  exact (conj A B).
Defined.

(** Claim C10.  The first component of the aggregator's result is the
    number of entries of the third, it is at most the second, and every
    key of the third is a key of the normalised input. *)
Theorem aggregate_counts_consistent
  (permit_information : dict string division) (start_date end_date : datetime)
  (weekends_only : bool) (min_permits : Z) :
  current_of (get_num_available_dates permit_information start_date end_date
                                      weekends_only min_permits)
  = len (available_divisions_of
           (get_num_available_dates permit_information start_date end_date
                                    weekends_only min_permits))
  /\ current_of (get_num_available_dates permit_information start_date
                                         end_date weekends_only min_permits)
     <= maximum_of (get_num_available_dates permit_information start_date
                                            end_date weekends_only min_permits)
  /\ (forall division_id,
         In division_id
            (keys (available_divisions_of
                     (get_num_available_dates permit_information start_date
                        end_date weekends_only min_permits))) ->
         In division_id (keys permit_information)).
Proof.
  unfold get_num_available_dates, available_divisions_of, current_of,
    maximum_of. cbn [fst snd].
  split; [reflexivity | ]. split.
  - unfold len.
    pose proof (fold_aggregate_length
                  (dates_in_range_set start_date end_date weekends_only)
                  min_permits permit_information []) as L.
    simpl in L. lia.
  - intros division_id I. apply fold_aggregate_keys in I.
    destruct I as [[] | (dv & I & _)].
    change division_id with (fst (division_id, dv)). now apply in_map.
Qed.

Lemma is_weekend_ordinal d : is_weekend d = weekend_ordinal (toordinal d).
Proof. reflexivity. Qed.

Lemma is_weekend_weekday d :
  is_weekend d = true <-> weekday d = 4 \/ weekday d = 5.
Proof.
  unfold is_weekend. now rewrite orb_true_iff, !Z.eqb_eq.
Qed.

Lemma weekend_ordinal_mod n : weekend_ordinal n = weekend_ordinal (n mod 7).
Proof.
  unfold weekend_ordinal. now rewrite Z.add_mod_idemp_l by lia.
Qed.

Lemma two_weekend_days_a_week o :
  List.length
    (filter (fun i => weekend_ordinal (o - i)) [1; 2; 3; 4; 5; 6; 7])
  = 2%nat.
Proof.
  pose proof (Z.mod_pos_bound o 7 ltac:(lia)) as B.
  pose proof (Z.div_mod o 7 ltac:(lia)) as E.
  rewrite (filter_ext _ (fun i => weekend_ordinal (o mod 7 + 7 - i))).
  - assert (o mod 7 = 0 \/ o mod 7 = 1 \/ o mod 7 = 2 \/ o mod 7 = 3
            \/ o mod 7 = 4 \/ o mod 7 = 5 \/ o mod 7 = 6) as C by lia.
    repeat (destruct C as [C | C]; [rewrite C; reflexivity | ]).
    rewrite C. reflexivity.
  - intros c.
    rewrite (weekend_ordinal_mod (o - c)),
      (weekend_ordinal_mod (o mod 7 + 7 - c)).
    f_equal. replace (o mod 7 + 7 - c) with (o - c + (1 - o / 7) * 7) by lia.
    now rewrite Z.mod_add by lia.
Qed.

Lemma filter_map_swap {A B : Type} (f : B -> bool) (g : A -> B) (l : list A) :
  filter f (map g l) = map g (filter (fun x => f (g x)) l).
Proof.
  induction l as [ | x l IH]; simpl; [reflexivity | ].
  rewrite IH. now destruct (f (g x)).
Qed.

(** Claim C6.  With [weekends_only] every surviving date is a Friday or a
    Saturday (weekday 4 or 5) and no date of another weekday survives; and
    of the seven candidate dates of a window of one week exactly two pass
    the weekend filter. *)
Theorem weekends_only_keeps_friday_saturday
  (permit_information : dict string division) (start_date end_date : datetime)
  (min_permits : Z) :
  valid start_date -> valid end_date ->
  (forall division_id v avail,
      In (division_id, v)
         (available_divisions_of
            (get_num_available_dates permit_information start_date end_date
                                     true min_permits)) ->
      In avail (dates v) ->
      (exists d, valid d /\ date avail = format_date d ISO_DATE_FORMAT_RESPONSE
                 /\ (weekday d = 4 \/ weekday d = 5))
      /\ (forall d, valid d ->
                    date avail = format_date d ISO_DATE_FORMAT_RESPONSE ->
                    weekday d = 4 \/ weekday d = 5))
  /\ (days_between end_date start_date = 7 ->
      List.length (dates_in_range_set start_date end_date false) = 7%nat
      /\ List.length (dates_in_range_set start_date end_date true) = 2%nat
      /\ NoDup (dates_in_range_set start_date end_date false)
      /\ NoDup (dates_in_range_set start_date end_date true)).
Proof.
  intros Hs He. split.
  - intros division_id v avail I Ia.
    destruct (surviving_entry _ _ _ _ _ _ _ _ I Ia) as (_ & _ & _ & M).
    apply matches_spec in M. destruct M as [M _]. apply set_mem_In in M.
    apply dates_in_range_set_elements in M; try assumption.
    destruct M as (d & Hd & E & _ & Wk).
    specialize (Wk eq_refl). apply is_weekend_weekday in Wk.
    split; [exists d; split; [exact Hd | split; [exact E | exact Wk]] | ].
    intros d' Hd' E'. rewrite E in E'.
    apply strftime_inj in E'; try assumption. subst d'. exact Wk.
  - intros N. pose proof (toordinal_pos _ Hs) as Ps.
    split; [ | split; [ | split; now apply NoDup_dates_in_range_set]].
    all: rewrite length_dates_in_range_set; unfold dates_in_range.
    all: rewrite N; change (range 1 (7 + 1)) with [1; 2; 3; 4; 5; 6; 7].
    { reflexivity. }
    unfold days_between in N. rewrite filter_map_swap, length_map.
    rewrite <- (two_weekend_days_a_week (toordinal end_date)).
    f_equal. apply filter_ext_in. intros i I.
    rewrite is_weekend_ordinal. f_equal.
    apply toordinal_sub_days; [assumption | ].
    simpl in I. lia.
Qed.

Lemma weekends_only_keeps_friday_saturday_witness :
  valid d_2022_06_20 /\ valid d_2022_06_27
  /\ days_between d_2022_06_27 d_2022_06_20 = 7
  /\ In ("200", mk_available_division "Some River Section"
                  [mk_date_entry "2022-06-24T00:00:00Z" 1 6])
        (available_divisions_of
           (get_num_available_dates sample_weekend_information
              d_2022_06_20 d_2022_06_27 true 1))
  /\ (exists d,
         valid d
         /\ date (mk_date_entry "2022-06-24T00:00:00Z" 1 6)
            = format_date d ISO_DATE_FORMAT_RESPONSE
         /\ (weekday d = 4 \/ weekday d = 5))
  /\ List.length (dates_in_range_set d_2022_06_20 d_2022_06_27 false)
     = 7%nat
  /\ List.length (dates_in_range_set d_2022_06_20 d_2022_06_27 true)
     = 2%nat.
Proof.
  destruct (weekends_only_keeps_friday_saturday sample_weekend_information
              d_2022_06_20 d_2022_06_27 1 eq_refl eq_refl) as [A B].
  assert (In ("200", mk_available_division "Some River Section"
                       [mk_date_entry "2022-06-24T00:00:00Z" 1 6])
             (available_divisions_of
                (get_num_available_dates sample_weekend_information
                   d_2022_06_20 d_2022_06_27 true 1))) as I
    by (left; reflexivity).
  destruct (A _ _ (mk_date_entry "2022-06-24T00:00:00Z" 1 6) I
              (or_introl eq_refl)) as [E _].
  destruct (B eq_refl) as (L7 & L2 & _).
  split; [reflexivity | ]. split; [reflexivity | ]. split; [reflexivity | ].
  split; [exact I | ]. split; [exact E | ]. split; [exact L7 | exact L2].
Defined.

(** ** Order on datetimes and on strings *)

Lemma datetime_compare_antisym a b :
  Datetime.compare a b = CompOpp (Datetime.compare b a).
Proof.
  unfold Datetime.compare.
  rewrite (Z.compare_antisym (year b)), (Z.compare_antisym (month b)),
    (Z.compare_antisym (day b)).
  destruct (year b ?= year a); simpl; try reflexivity.
  destruct (month b ?= month a); simpl; try reflexivity.
Qed.

Lemma ltb_false_leb a b : ltb a b = false <-> leb b a = true.
Proof.
  unfold ltb, leb. rewrite (datetime_compare_antisym b a).
  destruct (Datetime.compare a b); simpl; intuition congruence.
Qed.

Lemma leb_false_ltb a b : leb a b = false <-> ltb b a = true.
Proof.
  unfold ltb, leb. rewrite (datetime_compare_antisym b a).
  destruct (Datetime.compare a b); simpl; intuition congruence.
Qed.

Lemma inside_requested_range d start_date end_date :
  outside_requested_range d start_date end_date = false
  <-> leb start_date d = true /\ ltb d end_date = true.
Proof.
  unfold outside_requested_range, geb.
  now rewrite orb_false_iff, ltb_false_leb, leb_false_ltb.
Qed.

Lemma ascii_compare_trans c a b d :
  Ascii.compare a b = c -> Ascii.compare b d = c -> Ascii.compare a d = c.
Proof.
  unfold Ascii.compare. destruct c; intros H1 H2.
  - apply N.compare_eq_iff in H1, H2. apply N.compare_eq_iff. congruence.
  - rewrite N.compare_lt_iff in *. lia.
  - rewrite N.compare_gt_iff in *. lia.
Qed.

Lemma string_compare_lt_trans a b c :
  String.compare a b = Lt -> String.compare b c = Lt ->
  String.compare a c = Lt.
Proof.
  revert b c. induction a as [ | x a IH]; intros [ | y b] [ | z c];
    simpl; try congruence.
  destruct (Ascii.compare x y) eqn:Exy; try discriminate;
    destruct (Ascii.compare y z) eqn:Eyz; try discriminate; intros H1 H2.
  - rewrite (ascii_compare_trans Eq x y z) by assumption. eauto.
  - apply Ascii.compare_eq_iff in Exy. subst y. now rewrite Eyz.
  - apply Ascii.compare_eq_iff in Eyz. subst z. now rewrite Exy.
  - now rewrite (ascii_compare_trans Lt x y z).
Qed.

Lemma string_leb_trans a b c :
  String.leb a b = true -> String.leb b c = true -> String.leb a c = true.
Proof.
  unfold String.leb.
  destruct (String.compare a b) eqn:Eab; try discriminate;
    destruct (String.compare b c) eqn:Ebc; try discriminate; intros _ _.
  - apply String.compare_eq_iff in Eab. subst b. now rewrite Ebc.
  - apply String.compare_eq_iff in Eab. subst b. now rewrite Ebc.
  - apply String.compare_eq_iff in Ebc. subst c. now rewrite Eab.
  - now rewrite (string_compare_lt_trans a b c).
Qed.

(** ** Sorting by date string *)

Lemma insert_by_date_perm e l : Permutation (e :: l) (insert_by_date e l).
Proof.
  induction l as [ | x l IH]; simpl; [apply Permutation_refl | ].
  destruct (String.leb (date e) (date x)); [apply Permutation_refl | ].
  etransitivity; [apply perm_swap | ]. now apply perm_skip.
Qed.

Lemma sort_by_date_perm l : Permutation l (sort_by_date l).
Proof.
  induction l as [ | x l IH]; simpl; [constructor | ].
  etransitivity; [ | apply insert_by_date_perm]. now apply perm_skip.
Qed.

Lemma In_sort_by_date e l : In e (sort_by_date l) <-> In e l.
Proof.
  split; apply Permutation_in;
    [apply Permutation_sym | ]; apply sort_by_date_perm.
Qed.

Lemma insert_by_date_sorted e l :
  StronglySorted date_le l -> StronglySorted date_le (insert_by_date e l).
Proof.
  induction 1 as [ | x l S IH F]; simpl.
  - repeat constructor.
  - destruct (String.leb (date e) (date x)) eqn:L.
    + constructor; [now constructor | ]. constructor; [exact L | ].
      eapply Forall_impl; [ | exact F]. intros y Hy.
      eapply string_leb_trans; eassumption.
    + constructor; [assumption | ].
      assert (date_le x e) as Lx.
      { destruct (String.leb_total (date e) (date x)); [congruence | assumption]. }
      eapply Permutation_Forall; [apply insert_by_date_perm | ].
      now constructor.
Qed.

Lemma sort_by_date_sorted l : StronglySorted date_le (sort_by_date l).
Proof.
  induction l as [ | x l IH]; simpl; [constructor | ].
  now apply insert_by_date_sorted.
Qed.

Lemma StronglySorted_weaken {A : Type} (R1 R2 : A -> A -> Prop) l :
  (forall a b, In a l -> In b l -> R1 a b -> R2 a b) ->
  StronglySorted R1 l -> StronglySorted R2 l.
Proof.
  intros W S. induction S as [ | x l S IH F]; constructor.
  - apply IH. intros a b Ia Ib. apply W; now right.
  - rewrite Forall_forall in *. intros y Iy.
    apply W; [now left | now right | now apply F].
Qed.

(** ** Loops *)

Lemma for_each_invariant {A S : Type} (P : S -> Prop) (xs : list A)
  (body : S -> A -> option S) s s' :
  (forall s x s', P s -> body s x = Some s' -> P s') ->
  P s -> for_each xs body s = Some s' -> P s'.
Proof.
  intros Step. revert s. induction xs as [ | x xs IH]; simpl; intros s Ps.
  - now intros [= <-].
  - destruct (body s x) as [s1 | ] eqn:E; [ | discriminate].
    apply IH. eapply Step; eassumption.
Qed.

Example sample_get_permit_information :
  get_permit_information sample_get_permit_availability sample_get_permit_info
    233393 d_2022_06_22 d_2022_06_24 = Some sample_normalized.
Proof. reflexivity. Qed.

(** ** The normaliser *)

Section Normaliser.
Variables (start_date end_date : datetime).

Lemma collect_date_ok division_id data item data' :
  data_ok start_date end_date data ->
  collect_date start_date end_date division_id data item = Some data' ->
  data_ok start_date end_date data'.
Proof.
  intros Ok. destruct item as [date_str info]. unfold collect_date.
  destruct (Z.leb_spec (get_or (ai_remaining info) 0) 0) as [R | R].
  { now intros [= <-]. }
  destruct (strptime date_str ISO_DATE_FORMAT_RESPONSE) as [d | ] eqn:P;
    [ | discriminate].
  destruct (outside_requested_range d start_date end_date) eqn:O.
  { now intros [= <-]. }
  destruct (dict_get data division_id) as [dv | ] eqn:G; [ | discriminate].
  intros [= <-]. intros id' dv' e I Ie.
  apply In_dict_set in I. destruct I as [[-> ->] | I].
  - cbn [available_dates] in Ie. apply in_app_iff in Ie.
    destruct Ie as [Ie | [<- | []]].
    + apply dict_get_In in G. exact (Ok _ _ _ G Ie).
    + split; [exact R | ]. exists d. split; [exact P | ].
      now apply inside_requested_range.
  - exact (Ok _ _ _ I Ie).
Qed.

Lemma collect_division_ok divisions_info data item data' :
  data_ok start_date end_date data ->
  collect_division divisions_info start_date end_date data item = Some data' ->
  data_ok start_date end_date data'.
Proof.
  intros Ok. destruct item as [division_id division_data].
  unfold collect_division.
  apply for_each_invariant.
  - intros s x s'. apply collect_date_ok.
  - destruct (dict_contains data division_id); [exact Ok | ].
    intros id' dv' e I Ie. apply In_dict_set in I.
    destruct I as [[-> ->] | I]; [destruct Ie | exact (Ok _ _ _ I Ie)].
Qed.

Lemma collect_month_ok divisions_info data month data' :
  data_ok start_date end_date data ->
  collect_month divisions_info start_date end_date data month = Some data' ->
  data_ok start_date end_date data'.
Proof.
  intros Ok. unfold collect_month. apply for_each_invariant.
  - intros s x s'. apply collect_division_ok.
  - exact Ok.
Qed.

Lemma In_map_sort_division division_id dv data :
  In (division_id, dv) (map sort_division data) ->
  exists dv0, In (division_id, dv0) data
              /\ dv = mk_division (name dv0)
                                  (sort_by_date (available_dates dv0)).
Proof.
  rewrite in_map_iff. intros ([id0 dv0] & E & I). unfold sort_division in E.
  cbn [fst snd] in E. injection E as -> <-. now exists dv0.
Qed.

Lemma collapse_ok api_data divisions_info data :
  collapse api_data divisions_info start_date end_date = Some data ->
  data_ok start_date end_date data.
Proof.
  unfold collapse.
  destruct (for_each api_data
              (collect_month divisions_info start_date end_date) [])
    as [data0 | ] eqn:E; [ | discriminate].
  intros [= <-].
  assert (data_ok start_date end_date data0) as Ok.
  { revert E. apply for_each_invariant.
    - intros s x s'. apply collect_month_ok.
    - intros id dv e []. }
  intros id dv e I Ie. apply In_map_sort_division in I.
  destruct I as (dv0 & I & ->). cbn [available_dates] in Ie.
  apply (proj1 (In_sort_by_date _ _)) in Ie. exact (Ok _ _ _ I Ie).
Qed.

Lemma collapse_sorted api_data divisions_info data division_id dv :
  collapse api_data divisions_info start_date end_date = Some data ->
  In (division_id, dv) data ->
  StronglySorted date_le (available_dates dv).
Proof.
  unfold collapse.
  destruct (for_each api_data
              (collect_month divisions_info start_date end_date) [])
    as [data0 | ]; [ | discriminate].
  intros [= <-] I. apply In_map_sort_division in I.
  destruct I as (dv0 & _ & ->). apply sort_by_date_sorted.
Qed.

End Normaliser.

(** Claim C5.  Every entry of the mapping [get_permit_information] returns
    has [remaining > 0] and a date [d] with [start_date <= d < end_date]:
    entries with nothing remaining and dates outside the half-open window
    never appear. *)
Theorem normalized_dates_in_window
  (get_permit_availability : Z -> datetime -> month_data)
  (get_permit_info : Z -> permit_info) (permit_id : Z)
  (start_date end_date : datetime) data division_id dv e :
  get_permit_information get_permit_availability get_permit_info permit_id
                         start_date end_date = Some data ->
  In (division_id, dv) data -> In e (available_dates dv) ->
  0 < remaining e
  /\ exists d, strptime (date e) ISO_DATE_FORMAT_RESPONSE = Some d
               /\ leb start_date d = true /\ ltb d end_date = true.
Proof.
  unfold get_permit_information. intros C I Ie.
  exact (collapse_ok _ _ _ _ _ C _ _ _ I Ie).
Qed.

Lemma normalized_dates_in_window_witness :
  get_permit_information sample_get_permit_availability sample_get_permit_info
    233393 d_2022_06_22 d_2022_06_24 = Some sample_normalized
  /\ 0 < remaining (mk_date_entry "2022-06-23T00:00:00Z" 1 6)
  /\ exists d, strptime (date (mk_date_entry "2022-06-23T00:00:00Z" 1 6))
                        ISO_DATE_FORMAT_RESPONSE = Some d
               /\ leb d_2022_06_22 d = true /\ ltb d d_2022_06_24 = true.
Proof.
  split; [reflexivity | ].
  apply (normalized_dates_in_window sample_get_permit_availability
           sample_get_permit_info 233393 d_2022_06_22 d_2022_06_24
           sample_normalized "200"
           (mk_division "Some River Section"
              [mk_date_entry "2022-06-22T00:00:00Z" 3 6;
               mk_date_entry "2022-06-23T00:00:00Z" 1 6])).
  - reflexivity.
  - left. reflexivity.
  - right. left. reflexivity.
Defined.

Lemma date_le_chronological a b :
  padded_date_string (date a) -> padded_date_string (date b) ->
  date_le a b <-> chronological a b.
Proof.
  intros (da & Va & Ea) (db & Vb & Eb). unfold date_le, chronological.
  rewrite Ea, Eb, leb_padded by assumption. split.
  - intros L. exists da, db. rewrite !strptime_padded by assumption. auto.
  - intros (da' & db' & Pa & Pb & L).
    rewrite strptime_padded in Pa, Pb by assumption. congruence.
Qed.

(** Claim C9, as amended.  Each division's list in the result of
    [get_permit_information] is sorted ascending by date string, whatever
    the answers; on zero padded date strings the order of the strings is
    the order of the days, so that a list of such strings is in
    chronological order.  (On the strings [strptime] reads with an
    unpadded month or day it is not: the counterexample below.) *)
Theorem normalized_dates_sorted
  (get_permit_availability : Z -> datetime -> month_data)
  (get_permit_info : Z -> permit_info) (permit_id : Z)
  (start_date end_date : datetime) data division_id dv :
  get_permit_information get_permit_availability get_permit_info permit_id
                         start_date end_date = Some data ->
  In (division_id, dv) data ->
  StronglySorted date_le (available_dates dv)
  /\ (forall a b,
         In a (available_dates dv) -> In b (available_dates dv) ->
         padded_date_string (date a) -> padded_date_string (date b) ->
         (date_le a b <-> chronological a b))
  /\ ((forall e, In e (available_dates dv) -> padded_date_string (date e)) ->
      StronglySorted chronological (available_dates dv)).
Proof.
  unfold get_permit_information. intros C I.
  pose proof (collapse_sorted _ _ _ _ _ _ _ C I) as S.
  split; [exact S | ]. split.
  - intros a b _ _. apply date_le_chronological.
  - intros Iso. revert S. apply StronglySorted_weaken.
    intros a b Ia Ib L. apply date_le_chronological; auto.
Qed.

Lemma normalized_dates_sorted_witness :
  get_permit_information sample_get_permit_availability sample_get_permit_info
    233393 d_2022_06_22 d_2022_06_24 = Some sample_normalized
  /\ StronglySorted date_le
       [mk_date_entry "2022-06-22T00:00:00Z" 3 6;
        mk_date_entry "2022-06-23T00:00:00Z" 1 6]
  /\ StronglySorted chronological
       [mk_date_entry "2022-06-22T00:00:00Z" 3 6;
        mk_date_entry "2022-06-23T00:00:00Z" 1 6].
Proof.
  split; [reflexivity | ].
  destruct (normalized_dates_sorted sample_get_permit_availability
              sample_get_permit_info 233393 d_2022_06_22 d_2022_06_24
              sample_normalized "200"
              (mk_division "Some River Section"
                 [mk_date_entry "2022-06-22T00:00:00Z" 3 6;
                  mk_date_entry "2022-06-23T00:00:00Z" 1 6])
              eq_refl (or_introl eq_refl)) as (S & _ & Ch).
  split; [exact S | ]. apply Ch.
  intros e [<- | [<- | []]].
  - exists d_2022_06_22. split; reflexivity.
  - exists (mk_datetime 2022 6 23). split; reflexivity.
Defined.

(** The statement of C9 for every answer fails on an answer with an
    unpadded day: [strptime] reads both strings, the result lists the 10th
    before the 9th, as the strings are ordered. *)
Lemma normalized_dates_counterexample :
  get_permit_information (fun _ _ => sample_unpadded_month)
    sample_get_permit_info 233393
    (mk_datetime 2022 6 1) (mk_datetime 2022 6 30)
  = Some [("200", mk_division "Some River Section"
                    [mk_date_entry "2022-06-10T00:00:00Z" 2 6;
                     mk_date_entry "2022-06-9T00:00:00Z" 1 6])]
  /\ strptime "2022-06-10T00:00:00Z" ISO_DATE_FORMAT_RESPONSE
     = Some (mk_datetime 2022 6 10)
  /\ strptime "2022-06-9T00:00:00Z" ISO_DATE_FORMAT_RESPONSE
     = Some (mk_datetime 2022 6 9)
  /\ String.leb "2022-06-10T00:00:00Z" "2022-06-9T00:00:00Z" = true
  /\ leb (mk_datetime 2022 6 10) (mk_datetime 2022 6 9) = false.
Proof. repeat split. Qed.

(** ** The renderers *)

Lemma last_char_append s1 s2 :
  s2 <> EmptyString -> last_char (s1 ++ s2) = last_char s2.
Proof.
  intros N. induction s1 as [ | c s1 IH]; [reflexivity | ].
  cbn [append last_char]. rewrite IH.
  destruct (s1 ++ s2)%string eqn:E; [ | reflexivity].
  destruct s1; [simpl in E; congruence | discriminate].
Qed.

Lemma append_nonempty s1 s2 : s2 <> EmptyString -> (s1 ++ s2)%string <> EmptyString.
Proof. destruct s1; [auto | discriminate]. Qed.

Lemma last_char_sub_header division_id dv :
  last_char (sub_header division_id dv) = Some ":"%char.
Proof.
  unfold sub_header.
  rewrite !last_char_append; try reflexivity;
    repeat (apply append_nonempty); discriminate.
Qed.

Lemma last_char_date_line show date_nice remaining total :
  last_char (date_line show date_nice remaining total) = Some "g"%char.
Proof.
  unfold date_line.
  rewrite !last_char_append; try reflexivity;
    repeat (apply append_nonempty); discriminate.
Qed.

Lemma last_char_summary_line emoji permit_name permit_id current maximum :
  last_char (summary_line emoji permit_name permit_id current maximum)
  = Some ")"%char.
Proof.
  unfold summary_line.
  rewrite !last_char_append; try reflexivity;
    repeat (apply append_nonempty); discriminate.
Qed.

(** Without sub-headers no line of a division ends in a colon. *)
Lemma division_lines_no_header item l :
  In l (division_lines false item) -> last_char l = Some "g"%char.
Proof.
  unfold division_lines. cbn [app]. rewrite in_map_iff.
  intros (e & <- & _). apply last_char_date_line.
Qed.

(** The three loops of the renderer, each as the lines it appends. *)
Lemma render_dates_lines show dates0 out out' :
  for_each dates0 (render_date show) out = Some out' ->
  out' = out ++ map (fun e => date_line show (date_text e) (remaining e)
                                        (total e)) dates0.
Proof.
  revert out. induction dates0 as [ | e l IH]; intros out; cbn [for_each map].
  - intros [= <-]. now rewrite app_nil_r.
  - unfold render_date at 1, date_text at 1.
    destruct (strptime (date e) ISO_DATE_FORMAT_RESPONSE) as [d | ];
      [ | discriminate].
    intros R. apply IH in R. subst out'. now rewrite <- app_assoc.
Qed.

Lemma render_divisions_lines show divs out out' :
  for_each divs (render_division show) out = Some out' ->
  out' = out ++ flat_map (division_lines show) divs.
Proof.
  revert out. induction divs as [ | [id dv] divs IH]; intros out;
    cbn [for_each flat_map].
  - intros [= <-]. now rewrite app_nil_r.
  - unfold render_division at 1.
    destruct (for_each (dates dv) (render_date show)
                (if show then out ++ [division_header (div_name dv) id]
                 else out)) as [out1 | ] eqn:E; [ | discriminate].
    apply render_dates_lines in E. subst out1.
    intros R. apply IH in R. subst out'.
    unfold division_lines. cbn [fst snd].
    destruct show; now rewrite <- !app_assoc.
Qed.

Lemma for_each_each {A S : Type} (xs : list A) (body : S -> A -> option S)
  s s' x :
  for_each xs body s = Some s' -> In x xs ->
  exists s1 s2, body s1 x = Some s2.
Proof.
  revert s. induction xs as [ | y xs IH]; intros s R []; cbn [for_each] in R;
    destruct (body s y) as [s1 | ] eqn:E; try discriminate.
  - subst y. now exists s, s1.
  - now apply (IH s1).
Qed.

Section HumanOutput.
Variables RAFTING_SUCCESS RAFTING_FAILURE : string.

Local Abbreviation render_permit' :=
  (render_permit RAFTING_SUCCESS RAFTING_FAILURE).
Local Abbreviation permit_lines' :=
  (permit_lines RAFTING_SUCCESS RAFTING_FAILURE).

Lemma render_permit_dates_parse state item state' division_id v a :
  render_permit RAFTING_SUCCESS RAFTING_FAILURE state item = Some state' ->
  In (division_id, v) (result_divisions (snd item)) -> In a (dates v) ->
  exists d, strptime (date a) ISO_DATE_FORMAT_RESPONSE = Some d.
Proof.
  destruct state as [out has], item as [pid [[[c m] divs] nm]].
  unfold render_permit. cbn [snd result_divisions fst].
  intros R Iv Ia.
  destruct divs as [ | d0 divs0] eqn:Ed; [destruct Iv | ].
  rewrite <- Ed in *. clear Ed.
  destruct (negb (c =? 0)).
  all: destruct (for_each divs _ _) as [o | ] eqn:F; [ | discriminate].
  all: destruct (for_each_each _ _ _ _ _ F Iv) as (s1 & s2 & D).
  all: unfold render_division in D.
  all: destruct (for_each_each _ _ _ _ _ D Ia) as (s3 & s4 & P).
  all: unfold render_date in P.
  all: destruct (strptime (date a) ISO_DATE_FORMAT_RESPONSE) as [d | ];
    [now exists d | discriminate].
Qed.

Lemma shows_sub_headers_iff (divs : dict string available_division) maximum :
  shows_sub_headers divs maximum = true <-> 1 < len divs \/ 1 < maximum.
Proof.
  unfold shows_sub_headers. rewrite orb_true_iff, !Z.ltb_lt. tauto.
Qed.

Lemma render_permit_lines out has item out' has' :
  render_permit' (out, has) item = Some (out', has') ->
  out' = out ++ permit_lines' item.
Proof.
  destruct item as [permit_id [[[current maximum] divs] permit_name]].
  unfold render_permit, permit_lines, shows_sub_headers.
  rewrite !Z.gtb_ltb.
  destruct (negb (current =? 0)).
  all: destruct divs as [ | d0 divs0] eqn:Ed; [now intros [= <- _] | ].
  all: rewrite <- Ed; clear Ed.
  all: destruct (for_each divs _ _) as [out1 | ] eqn:E; [ | discriminate].
  all: intros [= <- _]; apply render_divisions_lines in E; subst out1.
  all: now rewrite <- app_assoc.
Qed.

Lemma render_permits_lines info out has out' has' :
  for_each info render_permit' (out, has) = Some (out', has') ->
  out' = out ++ flat_map permit_lines' info.
Proof.
  revert out has. induction info as [ | item info IH]; intros out has;
    cbn [for_each flat_map].
  - intros [= <- _]. now rewrite app_nil_r.
  - destruct (render_permit' (out, has) item) as [[out1 has1] | ] eqn:E;
      [ | discriminate].
    apply render_permit_lines in E. subst out1.
    intros R. apply IH in R. subst out'. now rewrite app_assoc.
Qed.

(** A division's sub-header is among the lines of its permit exactly when
    the rule says so. *)
Lemma sub_header_in_permit_lines permit_id current maximum
  (available_divisions : dict string available_division) permit_name
  division_id dv :
  In (division_id, dv) available_divisions ->
  In (sub_header division_id dv)
     (permit_lines' (permit_id,
                     (current, maximum, available_divisions, permit_name)))
  <-> 1 < len available_divisions \/ 1 < maximum.
Proof.
  intros I. rewrite <- shows_sub_headers_iff. unfold permit_lines.
  destruct (shows_sub_headers available_divisions maximum); split.
  - reflexivity.
  - intros _. right. apply in_flat_map. exists (division_id, dv).
    split; [exact I | ]. left. reflexivity.
  - intros [E | J]; exfalso.
    + apply (f_equal last_char) in E.
      rewrite last_char_summary_line, last_char_sub_header in E.
      discriminate.
    + apply in_flat_map in J. destruct J as (item & _ & J).
      apply division_lines_no_header in J.
      rewrite last_char_sub_header in J. discriminate.
  - discriminate.
Qed.


End HumanOutput.


Lemma dict_get_None {K V : Type} `{KeyEq K} (d : dict K V) k :
  ~ In k (keys d) -> dict_get d k = None.
Proof.
  intros N. destruct (dict_get d k) as [v | ] eqn:E; [ | reflexivity].
  exfalso. apply N. apply dict_contains_keys. unfold dict_contains.
  now rewrite E.
Qed.

Lemma fold_collect_json_get items acc has permit_id :
  well_formed items -> current_nonnegative items ->
  dict_get (fst (fold_left collect_json items (acc, has))) permit_id
  = match dict_get items permit_id with
    | Some r => match json_entry r with
                | Some divs => Some divs
                | None => dict_get acc permit_id
                end
    | None => dict_get acc permit_id
    end.
Proof.
  unfold well_formed. revert acc has.
  induction items as [ | [k0 r0] items IH]; intros acc has W Nn;
    [reflexivity | ].
  cbn [keys map fst keys_unique] in W.
  apply andb_true_iff in W. destruct W as [N W].
  apply negb_true_iff, keys_unique_notin in N.
  assert (current_nonnegative items) as Nn'.
  { intros p c m a n I. apply (Nn p c m a n). now right. }
  cbn [fold_left]. destruct r0 as [[[c0 m0] divs0] n0].
  assert (0 <= c0) as Hc by (apply (Nn k0 c0 m0 divs0 n0); now left).
  unfold collect_json at 2. cbn [dict_get].
  assert (negb (c0 =? 0) = (0 <? c0)) as Ec.
  { destruct (Z.eqb_spec c0 0), (Z.ltb_spec 0 c0); simpl; lia || reflexivity. }
  rewrite Ec. unfold json_entry.
  destruct (key_eqb_spec permit_id k0) as [-> | Nk].
  - destruct (0 <? c0); rewrite IH by assumption;
      rewrite (dict_get_None items k0 N); [ | reflexivity].
    rewrite dict_get_set. now rewrite key_eqb_refl.
  - destruct (0 <? c0); rewrite IH by assumption; [ | reflexivity].
    rewrite dict_get_set.
    destruct (key_eqb_spec permit_id k0); [congruence | reflexivity].
Qed.

Lemma fold_collect_json_flag items acc has :
  snd (fold_left collect_json items (acc, has)) = true
  <-> has = true
      \/ exists permit_id current maximum available_divisions permit_name,
           In (permit_id, (current, maximum, available_divisions, permit_name))
              items
           /\ current <> 0.
Proof.
  revert acc has. induction items as [ | [k0 [[[c0 m0] divs0] n0]] items IH];
    intros acc has; cbn [fold_left].
  - simpl. split; [auto | intros [E | (? & ? & ? & ? & ? & [] & _)]; exact E].
  - unfold collect_json at 2. destruct (Z.eqb_spec c0 0) as [-> | Nz];
      cbn [negb]; rewrite IH; split.
    + intros [E | (p & c & m & a & n & I & Nc)]; [now left | ].
      right. exists p, c, m, a, n. split; [now right | assumption].
    + intros [E | (p & c & m & a & n & [[= <- <- <- <- <-] | I] & Nc)];
        [now left | congruence | ].
      right. exists p, c, m, a, n. now split.
    + intros _. right. exists k0, c0, m0, divs0, n0. split; [now left | assumption].
    + intros _. now left.
Qed.

Section JsonOutput.
Variable json_dumps : dict Z (dict string available_division) -> string.

(** Claim C8.  The mapping [generate_json_output] serialises holds, under
    its permit id, the [available_divisions] of exactly the permits whose
    available count is above zero and nothing else of them; permits
    without availability have no key; and the flag is true exactly when
    some permit has an available count above zero. *)
Theorem json_output_lists_available_permits
  (info_by_permit_id : dict Z permit_result) :
  well_formed info_by_permit_id -> current_nonnegative info_by_permit_id ->
  exists availabilities_by_permit_id,
    fst (generate_json_output json_dumps info_by_permit_id)
    = json_dumps availabilities_by_permit_id
    /\ (forall permit_id,
           dict_get availabilities_by_permit_id permit_id
           = match dict_get info_by_permit_id permit_id with
             | Some r => json_entry r
             | None => None
             end)
    /\ (snd (generate_json_output json_dumps info_by_permit_id) = true
        <-> exists permit_id current maximum available_divisions permit_name,
              In (permit_id,
                  (current, maximum, available_divisions, permit_name))
                 info_by_permit_id
              /\ 0 < current).
Proof.
  intros W Nn. unfold generate_json_output.
  destruct (availabilities_of info_by_permit_id) as [m has] eqn:E.
  exists m. cbn [fst snd]. split; [reflexivity | ]. split.
  - intros permit_id.
    pose proof (fold_collect_json_get info_by_permit_id [] false permit_id
                  W Nn) as G.
    change (fold_left collect_json info_by_permit_id ([], false))
      with (availabilities_of info_by_permit_id) in G.
    rewrite E in G. cbn [fst dict_get] in G. rewrite G.
    destruct (dict_get info_by_permit_id permit_id) as [r | ];
      [ | reflexivity].
    now destruct (json_entry r).
  - pose proof (fold_collect_json_flag info_by_permit_id [] false) as F.
    change (fold_left collect_json info_by_permit_id ([], false))
      with (availabilities_of info_by_permit_id) in F.
    rewrite E in F. cbn [snd] in F. rewrite F. split.
    + intros [D | (p & c & m' & a & n & I & Nc)]; [discriminate | ].
      exists p, c, m', a, n. split; [assumption | ].
      pose proof (Nn p c m' a n I). lia.
    + intros (p & c & m' & a & n & I & Pc). right.
      exists p, c, m', a, n. split; [assumption | lia].
Qed.

End JsonOutput.

Lemma json_output_lists_available_permits_witness :
  well_formed sample_two_permits
  /\ exists availabilities_by_permit_id,
       fst (generate_json_output sample_json_dumps sample_two_permits)
       = sample_json_dumps availabilities_by_permit_id
       /\ dict_get availabilities_by_permit_id 234567 = None
       /\ dict_get availabilities_by_permit_id 233393
          = Some [("282", mk_available_division "Desolation-Gray Canyons"
                            [mk_date_entry "2022-06-22T00:00:00Z" 3 6])].
Proof.
  split; [reflexivity | ].
  assert (current_nonnegative sample_two_permits) as Nn.
  { intros p c m a n [[= <- <- <- <- <-] | [[= <- <- <- <- <-] | []]]; lia. }
  destruct (json_output_lists_available_permits sample_json_dumps
              sample_two_permits eq_refl Nn) as (m & E & G & _).
  exists m. split; [exact E | ].
  split; [exact (G 234567) | exact (G 233393)].
Defined.

(** ** The normaliser returns, and keeps every division *)

Lemma for_each_succeeds {A S : Type} (P : S -> Prop) (xs : list A)
  (body : S -> A -> option S) s :
  (forall s x, In x xs -> P s -> exists s', body s x = Some s' /\ P s') ->
  P s -> exists s', for_each xs body s = Some s' /\ P s'.
Proof.
  revert s. induction xs as [ | x xs IH]; intros s Step Ps; cbn [for_each].
  - now exists s.
  - destruct (Step s x (or_introl eq_refl) Ps) as (s1 & E & P1). rewrite E.
    apply IH; [ | exact P1]. intros s2 y Iy. apply Step. now right.
Qed.

Lemma for_each_established {A S : Type} (P : S -> Prop) (xs : list A)
  (body : S -> A -> option S) x0 s s' :
  (forall s x s', P s -> body s x = Some s' -> P s') ->
  (forall s s', body s x0 = Some s' -> P s') ->
  In x0 xs -> for_each xs body s = Some s' -> P s'.
Proof.
  intros Keep Make. revert s.
  induction xs as [ | x xs IH]; intros s []; cbn [for_each];
    destruct (body s x) as [s1 | ] eqn:E; try discriminate.
  - subst x0. apply (for_each_invariant P); [exact Keep | ].
    now apply (Make s).
  - now apply IH.
Qed.

Lemma collect_date_keys start_date end_date division_id data item data' k :
  collect_date start_date end_date division_id data item = Some data' ->
  In k (keys data) -> In k (keys data').
Proof.
  destruct item as [date_str info]. unfold collect_date.
  destruct (_ <=? 0); [now intros [= <-] | ].
  destruct (strptime date_str ISO_DATE_FORMAT_RESPONSE) as [d | ];
    [ | discriminate].
  destruct (outside_requested_range d start_date end_date);
    [now intros [= <-] | ].
  destruct (dict_get data division_id) as [dv | ]; [ | discriminate].
  intros [= <-] I. apply In_keys_dict_set. now right.
Qed.

Lemma collect_division_keys divisions_info start_date end_date data item
  data' k :
  collect_division divisions_info start_date end_date data item = Some data' ->
  In k (keys data) \/ k = fst item -> In k (keys data').
Proof.
  destruct item as [division_id division_data]. unfold collect_division.
  cbn [fst]. intros E I. revert E.
  apply (for_each_invariant (fun data => In k (keys data))).
  - intros s x s' Is C. exact (collect_date_keys _ _ _ _ _ _ _ C Is).
  - destruct (dict_contains data division_id) eqn:C.
    + destruct I as [I | ->]; [exact I | now apply dict_contains_keys].
    + apply In_keys_dict_set. tauto.
Qed.

Lemma collect_month_keys divisions_info start_date end_date data month
  data' k :
  collect_month divisions_info start_date end_date data month = Some data' ->
  In k (keys data) -> In k (keys data').
Proof.
  unfold collect_month. intros E I. revert E.
  apply (for_each_invariant (fun data => In k (keys data))); [ | exact I].
  intros s x s' Is C. apply (collect_division_keys _ _ _ _ _ _ _ C). now left.
Qed.

Lemma keys_map_sort_division data :
  keys (map sort_division data) = keys data.
Proof.
  unfold keys. rewrite map_map. apply map_ext. now intros [id dv].
Qed.

(** Property X1.  Every division the service names in some month is a key
    of the normalised result, with or without surviving dates: pruning is
    left to the aggregator. *)
Theorem normalized_keeps_every_division api_data divisions_info
  start_date end_date data month division_id division_data :
  collapse api_data divisions_info start_date end_date = Some data ->
  In month api_data ->
  In (division_id, division_data)
     (get_or (availability
                (get_or (md_payload month)
                   (mk_availability_payload (md_availability month)))) []) ->
  In division_id (keys data).
Proof.
  unfold collapse.
  destruct (for_each api_data
              (collect_month divisions_info start_date end_date) [])
    as [data0 | ] eqn:E; [ | discriminate].
  intros [= <-] Im Id. rewrite keys_map_sort_division. revert E.
  apply (for_each_established (fun data => In division_id (keys data))
           _ _ month); [ | | exact Im].
  - intros s x s' Is C. exact (collect_month_keys _ _ _ _ _ _ _ C Is).
  - intros s s'. unfold collect_month.
    apply (for_each_established (fun data => In division_id (keys data))
             _ _ (division_id, division_data)); [ | | exact Id].
    + intros s1 x s1' Is C.
      apply (collect_division_keys _ _ _ _ _ _ _ C). now left.
    + intros s1 s1' C.
      apply (collect_division_keys _ _ _ _ _ _ _ C). now right.
Qed.

Lemma normalized_keeps_every_division_witness :
  collapse [mk_month_data None
              (Some [("100", mk_division_data None)])] []
           d_2022_06_22 d_2022_06_24
  = Some [("100", mk_division "Division 100" [])]
  /\ In "100" (keys [("100", mk_division "Division 100" [])]).
Proof.
  split; [reflexivity | ].
  apply (normalized_keeps_every_division
           [mk_month_data None (Some [("100", mk_division_data None)])] []
           d_2022_06_22 d_2022_06_24 _
           (mk_month_data None (Some [("100", mk_division_data None)]))
           "100" (mk_division_data None)).
  - reflexivity.
  - left. reflexivity.
  - left. reflexivity.
Defined.

Lemma collect_date_succeeds start_date end_date division_id data item :
  dict_contains data division_id = true ->
  (exists d, strptime (fst item) ISO_DATE_FORMAT_RESPONSE = Some d) ->
  exists data',
    collect_date start_date end_date division_id data item = Some data'
    /\ dict_contains data' division_id = true.
Proof.
  intros C (d & P). destruct item as [date_str info]. cbn [fst] in P.
  unfold collect_date. rewrite P.
  destruct (_ <=? 0); [now exists data | ].
  destruct (outside_requested_range d start_date end_date);
    [now exists data | ].
  unfold dict_contains in C.
  destruct (dict_get data division_id) as [dv | ] eqn:G; [ | discriminate].
  eexists. split; [reflexivity | ].
  apply dict_contains_keys, In_keys_dict_set. now left.
Qed.

(** Property X2.  The normaliser returns a mapping whenever [strptime]
    reads every date string of the service's answers: a rejected date
    string is its only failure. *)
Theorem normaliser_returns api_data divisions_info start_date end_date :
  answer_dates_parse api_data ->
  exists data,
    collapse api_data divisions_info start_date end_date = Some data.
Proof.
  intros Parse. unfold collapse.
  destruct (for_each_succeeds (fun _ => True) api_data
              (collect_month divisions_info start_date end_date) [])
    as (data & E & _); [ | exact I | rewrite E; eauto].
  intros s month Im _. unfold collect_month.
  apply for_each_succeeds; [ | exact I].
  intros s1 [division_id division_data] Id _. unfold collect_division.
  set (s2 := if dict_contains s1 division_id then s1 else _).
  destruct (for_each_succeeds
              (fun data => dict_contains data division_id = true)
              (get_or (date_availability division_data) [])
              (collect_date start_date end_date division_id) s2)
    as (s3 & E3 & _).
  - intros s4 [date_str info] Idate C4.
    apply collect_date_succeeds; [exact C4 | ].
    exact (Parse month division_id division_data date_str info Im Id Idate).
  - subst s2. destruct (dict_contains s1 division_id) eqn:C; [exact C | ].
    apply dict_contains_keys, In_keys_dict_set. now left.
  - exists s3. split; [exact E3 | exact I].
Qed.

Lemma normaliser_returns_witness :
  exists data,
    collapse [sample_month_data] [] d_2022_06_22 d_2022_06_24 = Some data.
Proof.
  apply normaliser_returns.
  intros month division_id division_data date_str info
    [<- | []] [[= <- <-] | []] I.
  cbn in I.
  destruct I as [[= <- <-] | [[= <- <-] | [[= <- <-] | [[= <- <-] | []]]]];
    eexists; reflexivity.
Defined.

(** ** The examples of the repository's tests *)

(** Of the divisions 100 (no date), 200 and 300, the window from
    2022-06-22 to 2022-06-24 keeps two, the total is three and division
    100 is absent. *)
Example aggregates_data_for_multiple_divisions :
  get_num_available_dates sample_permit_information
    d_2022_06_22 d_2022_06_24 false 1
  = (2, 3,
     [("200", mk_available_division "Some River Section"
                [mk_date_entry "2022-06-22T00:00:00Z" 3 6;
                 mk_date_entry "2022-06-23T00:00:00Z" 1 6]);
      ("300", mk_available_division "Another River Section"
                [mk_date_entry "2022-06-22T00:00:00Z" 5 10])]).
Proof. reflexivity. Qed.

Example weekends_only_keeps_the_friday :
  get_num_available_dates sample_weekend_information
    d_2022_06_20 (mk_datetime 2022 6 26) true 1
  = (1, 1,
     [("200", mk_available_division "Some River Section"
                [mk_date_entry "2022-06-24T00:00:00Z" 1 6])]).
Proof. reflexivity. Qed.

(** With [min_permits = 2] only the entry of 2022-06-23 survives. *)
Example min_permits_filters_dates :
  get_num_available_dates sample_min_permits_information
    d_2022_06_22 d_2022_06_24 false 2
  = (1, 1,
     [("200", mk_available_division "Some River Section"
                [mk_date_entry "2022-06-23T00:00:00Z" 3 6])]).
Proof. reflexivity. Qed.

Example min_permits_excludes_entire_division :
  get_num_available_dates
    [("200", mk_division "Some River Section"
               [mk_date_entry "2022-06-22T00:00:00Z" 1 6])]
    d_2022_06_22 d_2022_06_24 false 2
  = (0, 1, []).
Proof. reflexivity. Qed.

Section HumanExamples.
Variables RAFTING_SUCCESS RAFTING_FAILURE : string.

Example human_output_without_availabilities :
  generate_human_output RAFTING_SUCCESS RAFTING_FAILURE
    [(233393, (0, 2, [], "Some River Permit"))]
    (mk_datetime 2022 6 1) (mk_datetime 2022 7 1)
  = Some
      (String.concat newline
         ["There are no permits available :(";
          summary_line RAFTING_FAILURE "Some River Permit" 233393 0 2],
       false).
Proof. reflexivity. Qed.


End HumanExamples.


(* ================================================================== *)
(** * More of the program *)

(** ** The months the normaliser asks for *)

Lemma leb_first_of_month cur until :
  first_of_month cur -> 1 <= month until <= 12 -> 1 <= day until ->
  leb cur until = true <-> month_index cur <= month_index until.
Proof.
  intros [Dc Mc] Mu Du. unfold leb, Datetime.compare, month_index.
  destruct (Z.compare_spec (year cur) (year until)) as [E | L | L].
  - destruct (Z.compare_spec (month cur) (month until)) as [Em | Lm | Lm].
    + destruct (Z.compare_spec (day cur) (day until)); split; (lia || congruence || auto).
    + split; [lia | reflexivity].
    + split; [discriminate | lia].
  - split; [lia | reflexivity].
  - split; [discriminate | lia].
Qed.

Lemma ltb_first_of_month a b :
  first_of_month a -> first_of_month b ->
  ltb a b = true <-> month_index a < month_index b.
Proof.
  intros [Da Ma] [Db Mb]. unfold ltb, Datetime.compare, month_index.
  rewrite Da, Db.
  destruct (Z.compare_spec (year a) (year b)) as [E | L | L].
  - destruct (Z.compare_spec (month a) (month b)) as [Em | Lm | Lm].
    + change (1 ?= 1) with Eq. cbv iota. split; [discriminate | lia].
    + split; [lia | reflexivity].
    + split; [discriminate | lia].
  - split; [lia | reflexivity].
  - split; [discriminate | lia].
Qed.

Lemma next_month_first cur :
  first_of_month cur ->
  first_of_month (next_month cur)
  /\ month_index (next_month cur) = month_index cur + 1.
Proof.
  intros [Dc Mc]. unfold next_month, first_of_month, month_index.
  destruct (Z.eqb_spec (month cur) 12); cbn [day month year]; lia.
Qed.

Lemma first_of_month_eq a b :
  first_of_month a -> first_of_month b -> month_index a = month_index b ->
  a = b.
Proof.
  intros [Da Ma] [Db Mb] E. unfold month_index in E.
  destruct a as [ya ma da], b as [yb mb db]. cbn [year month day] in *.
  assert (ya = yb) by lia. assert (ma = mb) by lia. congruence.
Qed.

Lemma rrule_monthly_from_spec n cur until :
  first_of_month cur -> 1 <= month until <= 12 -> 1 <= day until ->
  Z.of_nat n = Z.max 0 (month_index until - month_index cur + 1) ->
  (forall t, In t (rrule_monthly_from n cur until)
             <-> first_of_month t
                 /\ month_index cur <= month_index t <= month_index until)
  /\ List.length (rrule_monthly_from n cur until) = n
  /\ StronglySorted (fun a b => ltb a b = true)
                    (rrule_monthly_from n cur until).
Proof.
  revert cur. induction n as [ | n IH]; intros cur Fc Mu Du En.
  - simpl. split; [ | split; [reflexivity | constructor]].
    intros t. split; [tauto | ]. lia.
  - cbn [rrule_monthly_from].
    pose proof (leb_first_of_month cur until Fc Mu Du) as L.
    destruct (leb cur until) eqn:E; [ | exfalso; destruct L as [_ L]; lia].
    destruct (next_month_first cur Fc) as [Fn In'].
    destruct (IH (next_month cur) Fn Mu Du ltac:(lia)) as (Im & Ln & Sn).
    split; [ | split].
    + intros t. cbn [In]. rewrite Im, In'. split.
      * intros [<- | (Ft & B)]; [ | split; [exact Ft | lia]].
        split; [exact Fc | ]. destruct L as [L _]. specialize (L eq_refl). lia.
      * intros (Ft & B).
        destruct (Z.eq_dec (month_index t) (month_index cur)) as [Et | Nt].
        -- left. symmetry. now apply first_of_month_eq.
        -- right. split; [exact Ft | lia].
    + cbn [List.length]. now rewrite Ln.
    + constructor; [exact Sn | ]. apply Forall_forall. intros t It.
      apply Im in It. destruct It as (Ft & B).
      apply ltb_first_of_month; [exact Fc | exact Ft | lia].
Qed.

(** Property X4.  The normaliser asks for one month after the other, from
    the month of the start date through the month of the end date: the
    months are the firsts of exactly these months, in ascending order, and
    there is none when the end date's month is before the start date's. *)
Theorem months_requested (start_date end_date : datetime) :
  valid start_date -> valid end_date ->
  (forall t,
      In t (rrule_monthly
              (mk_datetime (year start_date) (month start_date) 1) end_date)
      <-> first_of_month t
          /\ month_index start_date <= month_index t
             <= month_index end_date)
  /\ List.length
       (rrule_monthly
          (mk_datetime (year start_date) (month start_date) 1) end_date)
     = Z.to_nat (month_index end_date - month_index start_date + 1)
  /\ StronglySorted (fun a b => ltb a b = true)
       (rrule_monthly
          (mk_datetime (year start_date) (month start_date) 1) end_date).
Proof.
  intros Hs He.
  apply valid_fields in Hs as (_ & Ms & _).
  apply valid_fields in He as (_ & Me & De).
  unfold rrule_monthly. cbn [year month].
  set (n := Z.to_nat _).
  assert (n = Z.to_nat (month_index end_date - month_index start_date + 1))
    as En by (unfold n, month_index; f_equal; lia).
  destruct (rrule_monthly_from_spec n
              (mk_datetime (year start_date) (month start_date) 1) end_date)
    as (A & B & C).
  - split; cbn [day month year]; lia.
  - exact Me.
  - lia.
  - rewrite En. unfold month_index. cbn [year month]. lia.
  - split; [exact A | ]. split; [ | exact C]. now rewrite B.
Qed.

Lemma months_requested_witness :
  valid (mk_datetime 2022 11 15) /\ valid (mk_datetime 2023 2 1)
  /\ List.length
       (rrule_monthly (mk_datetime 2022 11 1) (mk_datetime 2023 2 1))
     = 4%nat.
Proof.
  split; [reflexivity | ]. split; [reflexivity | ].
  exact (proj1 (proj2 (months_requested (mk_datetime 2022 11 15)
                         (mk_datetime 2023 2 1) eq_refl eq_refl))).
Defined.

(** ** What the normaliser collects *)

Lemma for_each_invariant_In {A S : Type} (P : S -> Prop) (xs : list A)
  (body : S -> A -> option S) s s' :
  (forall s x s', In x xs -> P s -> body s x = Some s' -> P s') ->
  P s -> for_each xs body s = Some s' -> P s'.
Proof.
  revert s. induction xs as [ | x xs IH]; intros s Step Ps; cbn [for_each].
  - now intros [= <-].
  - destruct (body s x) as [s1 | ] eqn:E; [ | discriminate].
    apply IH.
    + intros s2 y s3 Iy. apply Step. now right.
    + apply (Step s x s1); [now left | exact Ps | exact E].
Qed.

Section DictMore.
Context {K V : Type} `{KeyEq K}.

Lemma In_dict_set_same (d : dict K V) k v : In (k, v) (dict_set d k v).
Proof.
  induction d as [ | [k0 v0] d IH]; simpl; [now left | ].
  destruct (key_eqb_spec k k0) as [-> | N]; [now left | now right].
Qed.

Lemma In_dict_set_kept (d : dict K V) k v k' v' :
  In (k', v') d ->
  In (k', v') (dict_set d k v) \/ (k' = k /\ dict_get d k = Some v').
Proof.
  induction d as [ | [k0 v0] d IH]; simpl; [tauto | ].
  destruct (key_eqb_spec k k0) as [-> | N].
  - intros [[= <- <-] | I]; [now right | left; now right].
  - intros [E | I]; [left; now left | ].
    destruct (IH I) as [I' | R]; [left; now right | now right].
Qed.

End DictMore.

Section Collect.
Variables (divisions_info : dict string div_info)
          (start_date end_date : datetime).

Lemma collect_date_kept division_id data item data' id e :
  collect_date start_date end_date division_id data item = Some data' ->
  has_entry data id e -> has_entry data' id e.
Proof.
  destruct item as [date_str info]. unfold collect_date.
  destruct (_ <=? 0); [now intros [= <-] | ].
  destruct (strptime date_str ISO_DATE_FORMAT_RESPONSE) as [d | ];
    [ | discriminate].
  destruct (outside_requested_range d start_date end_date);
    [now intros [= <-] | ].
  destruct (dict_get data division_id) as [dv | ] eqn:G; [ | discriminate].
  intros [= <-] (dv0 & I & Ie).
  apply (In_dict_set_kept data division_id
           (mk_division (name dv)
              (available_dates dv
               ++ [mk_date_entry date_str (get_or (ai_remaining info) 0)
                                 (get_or (ai_total info) 0)]))) in I.
  destruct I as [I | [-> G']].
  - exists dv0. split; assumption.
  - rewrite G in G'. injection G' as ->.
    eexists. split; [apply In_dict_set_same | ].
    cbn [available_dates]. apply in_or_app. now left.
Qed.

Lemma collect_date_made division_id data date_str info data' e :
  collect_date start_date end_date division_id data (date_str, info)
  = Some data' ->
  collected start_date end_date date_str info e ->
  has_entry data' division_id e.
Proof.
  intros C (-> & R & d & P & O). unfold collect_date in C.
  destruct (Z.leb_spec (get_or (ai_remaining info) 0) 0); [lia | ].
  rewrite P, O in C.
  destruct (dict_get data division_id) as [dv | ]; [ | discriminate].
  injection C as <-. eexists. split; [apply In_dict_set_same | ].
  cbn [available_dates]. apply in_or_app. right. now left.
Qed.

Lemma collect_date_origin division_id data date_str info data' id e :
  collect_date start_date end_date division_id data (date_str, info)
  = Some data' ->
  has_entry data' id e ->
  has_entry data id e
  \/ (id = division_id /\ collected start_date end_date date_str info e).
Proof.
  unfold collect_date.
  destruct (Z.leb_spec (get_or (ai_remaining info) 0) 0) as [R | R];
    [intros [= <-]; now left | ].
  destruct (strptime date_str ISO_DATE_FORMAT_RESPONSE) as [d | ] eqn:P;
    [ | discriminate].
  destruct (outside_requested_range d start_date end_date) eqn:O;
    [intros [= <-]; now left | ].
  destruct (dict_get data division_id) as [dv | ] eqn:G; [ | discriminate].
  intros [= <-] (dv0 & I & Ie).
  apply In_dict_set in I. destruct I as [[-> ->] | I].
  - cbn [available_dates] in Ie. apply in_app_iff in Ie.
    destruct Ie as [Ie | [<- | []]].
    + left. exists dv. split; [now apply dict_get_In | exact Ie].
    + right. split; [reflexivity | ]. split; [reflexivity | ].
      split; [exact R | ]. exists d. now split.
  - left. exists dv0. now split.
Qed.

Lemma has_entry_new_division data division_id nm id e :
  has_entry (if dict_contains data division_id then data
             else dict_set data division_id (mk_division nm [])) id e
  <-> has_entry data id e.
Proof.
  destruct (dict_contains data division_id) eqn:C; [tauto | ]. split.
  - intros (dv & I & Ie). apply In_dict_set in I.
    destruct I as [[-> ->] | I]; [destruct Ie | ]. now exists dv.
  - intros (dv & I & Ie).
    apply (In_dict_set_kept data division_id (mk_division nm [])) in I.
    destruct I as [I | [-> G]]; [now exists dv | ].
    unfold dict_contains in C. rewrite G in C. discriminate.
Qed.

Lemma collect_division_kept data item data' id e :
  collect_division divisions_info start_date end_date data item = Some data' ->
  has_entry data id e -> has_entry data' id e.
Proof.
  destruct item as [division_id dd]. unfold collect_division.
  intros C He. revert C.
  apply (for_each_invariant (fun data => has_entry data id e)).
  - intros s x s' Hs Cs. exact (collect_date_kept _ _ _ _ _ _ Cs Hs).
  - now apply has_entry_new_division.
Qed.

Lemma collect_division_made data division_id dd data' date_str info e :
  collect_division divisions_info start_date end_date data (division_id, dd)
  = Some data' ->
  In (date_str, info) (division_dates dd) ->
  collected start_date end_date date_str info e ->
  has_entry data' division_id e.
Proof.
  unfold collect_division. intros C I Co. revert C.
  apply (for_each_established (fun data => has_entry data division_id e)
           _ _ (date_str, info)); [ | | exact I].
  - intros s x s' Hs Cs. exact (collect_date_kept _ _ _ _ _ _ Cs Hs).
  - intros s s' Cs. exact (collect_date_made _ _ _ _ _ _ Cs Co).
Qed.

Lemma collect_division_origin data division_id dd data' id e :
  collect_division divisions_info start_date end_date data (division_id, dd)
  = Some data' ->
  has_entry data' id e ->
  has_entry data id e
  \/ (id = division_id
      /\ exists date_str info,
           In (date_str, info) (division_dates dd)
           /\ collected start_date end_date date_str info e).
Proof.
  unfold collect_division. intros C. revert C.
  apply (for_each_invariant_In
           (fun data' =>
              has_entry data' id e ->
              has_entry data id e
              \/ (id = division_id
                  /\ exists date_str info,
                       In (date_str, info) (division_dates dd)
                       /\ collected start_date end_date date_str info e))).
  - intros s [date_str info] s' Ix Ps Cs He.
    destruct (collect_date_origin _ _ _ _ _ _ _ Cs He) as [Hs | [-> Co]];
      [now apply Ps | ].
    right. split; [reflexivity | ]. now exists date_str, info.
  - intros He. left. now apply has_entry_new_division in He.
Qed.

Lemma collect_month_kept data month data' id e :
  collect_month divisions_info start_date end_date data month = Some data' ->
  has_entry data id e -> has_entry data' id e.
Proof.
  unfold collect_month. intros C He. revert C.
  apply (for_each_invariant (fun data => has_entry data id e));
    [ | exact He].
  intros s x s' Hs Cs. exact (collect_division_kept _ _ _ _ _ Cs Hs).
Qed.

Lemma collect_month_made data month data' division_id dd date_str info e :
  collect_month divisions_info start_date end_date data month = Some data' ->
  In (division_id, dd) (month_divisions month) ->
  In (date_str, info) (division_dates dd) ->
  collected start_date end_date date_str info e ->
  has_entry data' division_id e.
Proof.
  unfold collect_month. intros C Id I Co. revert C.
  apply (for_each_established (fun data => has_entry data division_id e)
           _ _ (division_id, dd)); [ | | exact Id].
  - intros s x s' Hs Cs. exact (collect_division_kept _ _ _ _ _ Cs Hs).
  - intros s s' Cs. exact (collect_division_made _ _ _ _ _ _ _ Cs I Co).
Qed.

Lemma collect_month_origin data month data' id e :
  collect_month divisions_info start_date end_date data month = Some data' ->
  has_entry data' id e ->
  has_entry data id e
  \/ exists dd date_str info,
       In (id, dd) (month_divisions month)
       /\ In (date_str, info) (division_dates dd)
       /\ collected start_date end_date date_str info e.
Proof.
  unfold collect_month. intros C. revert C.
  apply (for_each_invariant_In
           (fun data' =>
              has_entry data' id e ->
              has_entry data id e
              \/ exists dd date_str info,
                   In (id, dd) (month_divisions month)
                   /\ In (date_str, info) (division_dates dd)
                   /\ collected start_date end_date date_str info e)).
  - intros s [division_id dd] s' Ix Ps Cs He.
    destruct (collect_division_origin _ _ _ _ _ _ Cs He)
      as [Hs | (-> & date_str & info & I & Co)]; [now apply Ps | ].
    right. now exists dd, date_str, info.
  - intros He. now left.
Qed.

Lemma has_entry_sorted data id e :
  has_entry (map sort_division data) id e <-> has_entry data id e.
Proof.
  split.
  - intros (dv & I & Ie). apply In_map_sort_division in I.
    destruct I as (dv0 & I & ->). cbn [available_dates] in Ie.
    apply (proj1 (In_sort_by_date _ _)) in Ie. now exists dv0.
  - intros (dv & I & Ie).
    exists (mk_division (name dv) (sort_by_date (available_dates dv))).
    split.
    + change (In (sort_division (id, dv)) (map sort_division data)).
      now apply in_map.
    + cbn [available_dates]. now apply In_sort_by_date.
Qed.

End Collect.

(** Property X5.  The entries of the normalised mapping are exactly the
    dates of the answers that have something remaining and fall in the
    requested range, each under its division: none is lost and none
    invented, whichever month it came in. *)
Theorem normalized_entries_exact api_data divisions_info start_date end_date
  data division_id e :
  collapse api_data divisions_info start_date end_date = Some data ->
  has_entry data division_id e
  <-> answered api_data start_date end_date division_id e.
Proof.
  unfold collapse.
  destruct (for_each api_data
              (collect_month divisions_info start_date end_date) [])
    as [data0 | ] eqn:E; [ | discriminate].
  intros [= <-]. rewrite has_entry_sorted. split.
  - revert E.
    apply (for_each_invariant_In
             (fun data0 =>
                has_entry data0 division_id e ->
                answered api_data start_date end_date division_id e)).
    + intros s month s' Im Ps Cs He.
      destruct (collect_month_origin _ _ _ _ _ _ _ _ Cs He)
        as [Hs | (dd & date_str & info & Id & I & Co)]; [now apply Ps | ].
      now exists month, dd, date_str, info.
    + intros (dv & [] & _).
  - intros (month & dd & date_str & info & Im & Id & I & Co). revert E.
    apply (for_each_established (fun data => has_entry data division_id e)
             _ _ month); [ | | exact Im].
    + intros s x s' Hs Cs. exact (collect_month_kept _ _ _ _ _ _ _ _ Cs Hs).
    + intros s s' Cs.
      exact (collect_month_made _ _ _ _ _ _ _ _ _ _ _ Cs Id I Co).
Qed.

Lemma normalized_entries_exact_witness :
  collapse sample_answers [] d_2022_06_22 d_2022_06_24
  = Some [("200", mk_division "Division 200"
                    [mk_date_entry "2022-06-22T00:00:00Z" 3 6;
                     mk_date_entry "2022-06-22T00:00:00Z" 4 0;
                     mk_date_entry "2022-06-23T00:00:00Z" 1 6]);
          ("300", mk_division "Division 300" [])]
  /\ (has_entry
        [("200", mk_division "Division 200"
                    [mk_date_entry "2022-06-22T00:00:00Z" 3 6;
                     mk_date_entry "2022-06-22T00:00:00Z" 4 0;
                     mk_date_entry "2022-06-23T00:00:00Z" 1 6]);
          ("300", mk_division "Division 300" [])]
        "200" (mk_date_entry "2022-06-22T00:00:00Z" 4 0)
      <-> answered sample_answers d_2022_06_22 d_2022_06_24 "200"
            (mk_date_entry "2022-06-22T00:00:00Z" 4 0)).
Proof.
  split; [reflexivity | ].
  apply (normalized_entries_exact sample_answers [] d_2022_06_22
           d_2022_06_24). reflexivity.
Defined.

(** ** Names and keys of the normalised mapping *)

Section Names.
Variables (divisions_info : dict string div_info)
          (start_date end_date : datetime).

Lemma collect_date_named division_id data item data' :
  named_dict divisions_info data ->
  collect_date start_date end_date division_id data item = Some data' ->
  named_dict divisions_info data'.
Proof.
  intros [W N]. destruct item as [date_str info]. unfold collect_date.
  destruct (_ <=? 0); [intros [= <-]; now split | ].
  destruct (strptime date_str ISO_DATE_FORMAT_RESPONSE) as [d | ];
    [ | discriminate].
  destruct (outside_requested_range d start_date end_date);
    [intros [= <-]; now split | ].
  destruct (dict_get data division_id) as [dv | ] eqn:G; [ | discriminate].
  intros [= <-]. split; [now apply well_formed_dict_set | ].
  intros id dv' I. apply In_dict_set in I. destruct I as [[-> ->] | I].
  - cbn [name]. apply N. now apply dict_get_In.
  - now apply N.
Qed.

Lemma collect_division_named data item data' :
  named_dict divisions_info data ->
  collect_division divisions_info start_date end_date data item = Some data' ->
  named_dict divisions_info data'.
Proof.
  intros [W N]. destruct item as [division_id dd]. unfold collect_division.
  apply for_each_invariant.
  - intros s x s'. apply collect_date_named.
  - destruct (dict_contains data division_id); [now split | ].
    split; [now apply well_formed_dict_set | ].
    intros id dv I. apply In_dict_set in I.
    destruct I as [[-> ->] | I]; [reflexivity | now apply N].
Qed.

Lemma collect_month_named data month data' :
  named_dict divisions_info data ->
  collect_month divisions_info start_date end_date data month = Some data' ->
  named_dict divisions_info data'.
Proof.
  intros Nd. unfold collect_month. apply for_each_invariant; [ | exact Nd].
  intros s x s'. apply collect_division_named.
Qed.

Lemma collapse_named api_data data :
  collapse api_data divisions_info start_date end_date = Some data ->
  named_dict divisions_info data.
Proof.
  unfold collapse.
  destruct (for_each api_data
              (collect_month divisions_info start_date end_date) [])
    as [data0 | ] eqn:E; [ | discriminate].
  intros [= <-].
  assert (named_dict divisions_info data0) as [W N].
  { revert E. apply for_each_invariant.
    - intros s x s'. apply collect_month_named.
    - split; [reflexivity | intros ? ? []]. }
  split.
  - unfold well_formed. now rewrite keys_map_sort_division.
  - intros id dv I. apply In_map_sort_division in I.
    destruct I as (dv0 & I & ->). cbn [name]. now apply N.
Qed.

End Names.

(** Property X6.  The normalised mapping is a dictionary (no division id
    twice), and every division carries the name the permit's metadata
    gives its id, or ["Division <id>"] when the metadata has none. *)
Theorem normalized_names
  (get_permit_availability : Z -> datetime -> month_data)
  (get_permit_info : Z -> permit_info) (permit_id : Z)
  (start_date end_date : datetime) data :
  get_permit_information get_permit_availability get_permit_info permit_id
                         start_date end_date = Some data ->
  well_formed data
  /\ forall division_id dv,
       In (division_id, dv) data ->
       name dv
       = resolved_name
           (get_or (pp_divisions
                      (get_or (pi_payload (get_permit_info permit_id))
                              (mk_permit_payload None None))) [])
           division_id.
Proof.
  unfold get_permit_information. intros C.
  exact (collapse_named _ _ _ _ _ C).
Qed.

Lemma normalized_names_witness :
  get_permit_information sample_get_permit_availability sample_get_permit_info
    233393 d_2022_06_22 d_2022_06_24 = Some sample_normalized
  /\ well_formed sample_normalized
  /\ name (mk_division "Some River Section"
             [mk_date_entry "2022-06-22T00:00:00Z" 3 6;
              mk_date_entry "2022-06-23T00:00:00Z" 1 6])
     = resolved_name [("200", mk_div_info (Some "Some River Section"))] "200".
Proof.
  split; [reflexivity | ].
  destruct (normalized_names sample_get_permit_availability
              sample_get_permit_info 233393 d_2022_06_22 d_2022_06_24
              sample_normalized eq_refl) as [W N].
  split; [exact W | ].
  exact (N "200" _ (or_introl eq_refl)).
Defined.

(** ** Loops that assign to distinct keys *)

Section FoldDictSet.
Context {A K V : Type} `{KeyEq K}.
Variables (key : A -> K) (sel : A -> option V)
          (step : dict K V -> A -> dict K V).
Hypothesis step_eq :
  forall acc x,
    step acc x = match sel x with
                 | Some v => dict_set acc (key x) v
                 | None => acc
                 end.

Lemma dict_set_fresh (d : dict K V) k v :
  ~ In k (keys d) -> dict_set d k v = d ++ [(k, v)].
Proof.
  induction d as [ | [k0 v0] d IH]; simpl; [reflexivity | ].
  intros N. destruct (key_eqb_spec k k0) as [-> | Nk]; [tauto | ].
  rewrite IH; [reflexivity | tauto].
Qed.

Lemma fold_left_distinct_keys items acc :
  keys_unique (map key items) = true ->
  (forall x, In x items -> ~ In (key x) (keys acc)) ->
  fold_left step items acc
  = acc ++ flat_map (fun x => match sel x with
                              | Some v => [(key x, v)]
                              | None => []
                              end) items.
Proof.
  revert acc. induction items as [ | x items IH]; intros acc U F;
    cbn [fold_left flat_map].
  - now rewrite app_nil_r.
  - cbn [map keys_unique] in U. apply andb_true_iff in U.
    destruct U as [Nx U]. apply negb_true_iff, keys_unique_notin in Nx.
    rewrite step_eq. destruct (sel x) as [v | ].
    + rewrite dict_set_fresh by (apply F; now left).
      rewrite IH; [now rewrite <- app_assoc | exact U | ].
      intros y Iy. unfold keys. rewrite map_app, in_app_iff.
      intros [I | [E | []]]; [apply (F y); [now right | exact I] | ].
      cbn [fst] in E. apply Nx. rewrite E. now apply in_map.
    + apply IH; [exact U | ]. intros y Iy. apply F. now right.
Qed.

End FoldDictSet.

(** ** The aggregate as a list *)

Lemma aggregate_division_sel st min_permits acc item :
  aggregate_division st min_permits acc item
  = match (match kept_dates st min_permits (snd item) with
           | [] => None
           | e :: l =>
               Some (mk_available_division (name (snd item)) (e :: l))
           end) with
    | Some v => dict_set acc (fst item) v
    | None => acc
    end.
Proof.
  destruct item as [id dv]. unfold aggregate_division, kept_dates.
  cbn [fst snd]. now destruct (filter _ _).
Qed.

Lemma available_divisions_kept permit_information start_date end_date
  weekends_only min_permits :
  well_formed permit_information ->
  available_divisions_of
    (get_num_available_dates permit_information start_date end_date
                             weekends_only min_permits)
  = kept_divisions (dates_in_range_set start_date end_date weekends_only)
                   min_permits permit_information.
Proof.
  intros W. unfold get_num_available_dates, available_divisions_of.
  cbn [snd].
  rewrite (fold_left_distinct_keys fst _ _
             (aggregate_division_sel _ min_permits));
    [ | exact W | intros x _ []].
  cbn [app]. unfold kept_divisions. apply flat_map_ext. intros [id dv].
  cbn [fst snd]. now destruct (kept_dates _ _ _).
Qed.

Lemma keys_kept_divisions st min_permits (l : dict string division) :
  keys (kept_divisions st min_permits l)
  = keys (filter (fun item =>
                    existsb (matches st min_permits)
                            (available_dates (snd item))) l).
Proof.
  induction l as [ | [id dv] l IH]; [reflexivity | ].
  unfold kept_divisions, kept_dates in *. cbn [flat_map filter fst snd].
  destruct (filter (matches st min_permits) (available_dates dv))
    as [ | e r] eqn:F.
  - assert (existsb (matches st min_permits) (available_dates dv) = false)
      as ->.
    { apply not_true_iff_false. rewrite existsb_exists.
      intros (x & Ix & Mx).
      assert (In x []) as [] by (rewrite <- F; now apply filter_In). }
    exact IH.
  - assert (existsb (matches st min_permits) (available_dates dv) = true)
      as ->.
    { apply existsb_exists. exists e. apply filter_In. rewrite F.
      now left. }
    cbn [app keys map fst]. f_equal. exact IH.
Qed.

Lemma keys_unique_filter {K V : Type} `{KeyEq K} (f : K * V -> bool)
  (l : dict K V) :
  well_formed l -> well_formed (filter f l).
Proof.
  unfold well_formed.
  induction l as [ | [id dv] l IH]; [reflexivity | ].
  cbn [keys map fst keys_unique filter].
  rewrite andb_true_iff, negb_true_iff, keys_unique_notin. intros [N U].
  destruct (f (id, dv)); [ | now apply IH].
  cbn [keys map fst keys_unique].
  rewrite andb_true_iff, negb_true_iff, keys_unique_notin.
  split; [ | now apply IH]. intros I. apply N.
  apply in_map_iff in I. destruct I as (x & Ex & Ix).
  apply filter_In in Ix. rewrite <- Ex. apply in_map. tauto.
Qed.

Lemma well_formed_kept_divisions st min_permits (l : dict string division) :
  well_formed l -> well_formed (kept_divisions st min_permits l).
Proof.
  intros W. unfold well_formed. rewrite keys_kept_divisions.
  now apply keys_unique_filter.
Qed.

(** Property X7.  For a dictionary of divisions the aggregate lists, in
    the order of the input, exactly the divisions with a date that passes
    the test, each under its name with its passing dates in their order;
    the first count is the number of these divisions and the result is a
    dictionary again. *)
Theorem aggregate_in_input_order permit_information start_date end_date
  weekends_only min_permits :
  well_formed permit_information ->
  available_divisions_of
    (get_num_available_dates permit_information start_date end_date
                             weekends_only min_permits)
  = kept_divisions (dates_in_range_set start_date end_date weekends_only)
                   min_permits permit_information
  /\ current_of
       (get_num_available_dates permit_information start_date end_date
                                weekends_only min_permits)
     = Z.of_nat
         (List.length
            (filter
               (fun item =>
                  existsb (matches (dates_in_range_set start_date end_date
                                                       weekends_only)
                                   min_permits)
                          (available_dates (snd item)))
               permit_information))
  /\ well_formed
       (available_divisions_of
          (get_num_available_dates permit_information start_date end_date
                                   weekends_only min_permits)).
Proof.
  intros W. pose proof (available_divisions_kept permit_information start_date
                          end_date weekends_only min_permits W) as E.
  split; [exact E | ]. split.
  - change (current_of (get_num_available_dates permit_information start_date
                          end_date weekends_only min_permits))
      with (len (available_divisions_of
                   (get_num_available_dates permit_information start_date
                      end_date weekends_only min_permits))).
    rewrite E. unfold len. f_equal.
    rewrite <- (length_map fst (kept_divisions _ _ _)).
    change (map fst (kept_divisions
                       (dates_in_range_set start_date end_date weekends_only)
                       min_permits permit_information))
      with (keys (kept_divisions
                    (dates_in_range_set start_date end_date weekends_only)
                    min_permits permit_information)).
    rewrite keys_kept_divisions. unfold keys. now rewrite length_map.
  - rewrite E. now apply well_formed_kept_divisions.
Qed.

Lemma aggregate_in_input_order_witness :
  well_formed sample_permit_information
  /\ available_divisions_of
       (get_num_available_dates sample_permit_information
          d_2022_06_22 d_2022_06_24 false 1)
     = kept_divisions (dates_in_range_set d_2022_06_22 d_2022_06_24 false) 1
                      sample_permit_information.
Proof.
  split; [reflexivity | ].
  exact (proj1 (aggregate_in_input_order sample_permit_information
                  d_2022_06_22 d_2022_06_24 false 1 eq_refl)).
Defined.

Lemma In_kept_divisions st min_permits permit_information division_id v :
  In (division_id, v) (kept_divisions st min_permits permit_information)
  <-> exists dv, In (division_id, dv) permit_information
                 /\ kept_dates st min_permits dv <> []
                 /\ v = mk_available_division
                          (name dv) (kept_dates st min_permits dv).
Proof.
  unfold kept_divisions. rewrite in_flat_map. split.
  - intros ([id dv] & I & Iv). cbn [fst snd] in Iv.
    destruct (kept_dates st min_permits dv) as [ | e l] eqn:E; [destruct Iv | ].
    destruct Iv as [[= <- <-] | []]. exists dv. rewrite E.
    split; [exact I | split; [discriminate | reflexivity]].
  - intros (dv & I & N & ->). exists (division_id, dv).
    split; [exact I | ]. cbn [fst snd].
    destruct (kept_dates st min_permits dv); [congruence | now left].
Qed.

Lemma filter_length_le {A : Type} (f g : A -> bool) (l : list A) :
  (forall x, In x l -> f x = true -> g x = true) ->
  (List.length (filter f l) <= List.length (filter g l))%nat.
Proof.
  induction l as [ | x l IH]; intros Imp; cbn [filter]; [lia | ].
  assert ((List.length (filter f l) <= List.length (filter g l))%nat) as L
    by (apply IH; intros y Iy; apply Imp; now right).
  destruct (f x) eqn:Fx.
  - rewrite (Imp x (or_introl eq_refl) Fx). cbn [List.length]. lia.
  - destruct (g x); cbn [List.length]; lia.
Qed.

Lemma filter_incl {A : Type} (f g : A -> bool) (l : list A) :
  (forall x, In x l -> f x = true -> g x = true) ->
  incl (filter f l) (filter g l).
Proof.
  intros Imp x I. apply filter_In in I. destruct I as [I F].
  apply filter_In. split; [exact I | now apply Imp].
Qed.

Lemma StronglySorted_filter {A : Type} (R : A -> A -> Prop) (f : A -> bool)
  (l : list A) :
  StronglySorted R l -> StronglySorted R (filter f l).
Proof.
  induction 1 as [ | x l S IH F]; cbn [filter]; [constructor | ].
  destruct (f x); [ | exact IH]. constructor; [exact IH | ].
  rewrite Forall_forall in *. intros y Iy. apply F.
  apply filter_In in Iy. tauto.
Qed.

(** A stricter window, weekend flag and threshold pass fewer dates. *)
Lemma matches_loosened start1 end1 (weekends1 : bool) min1
  start2 end2 (weekends2 : bool) min2 e :
  valid start1 -> valid end1 -> valid start2 -> valid end2 ->
  leb start1 start2 = true -> leb end2 end1 = true ->
  (weekends1 = true -> weekends2 = true) -> min1 <= min2 ->
  matches (dates_in_range_set start2 end2 weekends2) min2 e = true ->
  matches (dates_in_range_set start1 end1 weekends1) min1 e = true.
Proof.
  intros Vs1 Ve1 Vs2 Ve2 Ls Le Wk Lm M.
  rewrite leb_toordinal in Ls, Le by assumption. apply Z.leb_le in Ls, Le.
  apply matches_spec in M. destruct M as [M R]. apply matches_spec.
  split; [ | lia]. apply set_mem_In in M.
  apply dates_in_range_set_elements in M; try assumption.
  destruct M as (d & Vd & -> & Bd & Wd).
  apply set_mem_dates_in_range_set; try assumption.
  split; [lia | ]. intros W1. apply Wd, Wk, W1.
Qed.

(** Property X8.  Loosening the filters never loses availability: with a
    wider window, the weekend flag dropped or a lower threshold, every
    division reported before is still reported, with at least the dates
    it had, and the count does not go down. *)
Theorem loosening_filters_keeps_availability
  (permit_information : dict string division)
  start1 end1 (weekends1 : bool) min1 start2 end2 (weekends2 : bool) min2 :
  well_formed permit_information ->
  valid start1 -> valid end1 -> valid start2 -> valid end2 ->
  leb start1 start2 = true -> leb end2 end1 = true ->
  (weekends1 = true -> weekends2 = true) -> min1 <= min2 ->
  (forall division_id v2,
      In (division_id, v2)
         (available_divisions_of
            (get_num_available_dates permit_information start2 end2
                                     weekends2 min2)) ->
      exists v1,
        In (division_id, v1)
           (available_divisions_of
              (get_num_available_dates permit_information start1 end1
                                       weekends1 min1))
        /\ div_name v1 = div_name v2
        /\ incl (dates v2) (dates v1))
  /\ current_of (get_num_available_dates permit_information start2 end2
                                         weekends2 min2)
     <= current_of (get_num_available_dates permit_information start1 end1
                                            weekends1 min1).
Proof.
  intros W Vs1 Ve1 Vs2 Ve2 Ls Le Wk Lm.
  pose proof (fun e => matches_loosened start1 end1 weekends1 min1
                         start2 end2 weekends2 min2 e
                         Vs1 Ve1 Vs2 Ve2 Ls Le Wk Lm) as Mono.
  split.
  - intros division_id v2.
    rewrite !available_divisions_kept by exact W.
    rewrite In_kept_divisions. intros (dv & I & N & ->).
    exists (mk_available_division
              (name dv)
              (kept_dates (dates_in_range_set start1 end1 weekends1)
                          min1 dv)).
    assert (incl (kept_dates (dates_in_range_set start2 end2 weekends2)
                             min2 dv)
                 (kept_dates (dates_in_range_set start1 end1 weekends1)
                             min1 dv)) as Inc
        by (apply filter_incl; intros x _; apply Mono).
    split; [ | split; [reflexivity | exact Inc]].
    apply In_kept_divisions. exists dv. split; [exact I | ].
    split; [ | reflexivity]. intros E.
    destruct (kept_dates (dates_in_range_set start2 end2 weekends2) min2 dv)
      as [ | x l]; [congruence | ].
    specialize (Inc x (or_introl eq_refl)). rewrite E in Inc. destruct Inc.
  - unfold current_of, get_num_available_dates. cbn [fst].
    unfold len. apply inj_le.
    pose proof (available_divisions_kept permit_information start1 end1
                  weekends1 min1 W) as E1.
    pose proof (available_divisions_kept permit_information start2 end2
                  weekends2 min2 W) as E2.
    unfold available_divisions_of, get_num_available_dates in E1, E2.
    cbn [snd] in E1, E2. rewrite E1, E2. clear E1 E2 W.
    induction permit_information as [ | [id dv] l IH]; [apply le_n | ].
    unfold kept_divisions in *. cbn [flat_map fst snd].
    rewrite !length_app.
    assert (incl (kept_dates (dates_in_range_set start2 end2 weekends2)
                             min2 dv)
                 (kept_dates (dates_in_range_set start1 end1 weekends1)
                             min1 dv)) as Inc
        by (apply filter_incl; intros x _; apply Mono).
    destruct (kept_dates (dates_in_range_set start2 end2 weekends2) min2 dv)
      as [ | x r].
    + cbn [List.length]. lia.
    + destruct (kept_dates (dates_in_range_set start1 end1 weekends1) min1 dv)
        as [ | y r'].
      * destruct (Inc x (or_introl eq_refl)).
      * cbn [List.length]. lia.
Qed.

Lemma loosening_filters_keeps_availability_witness :
  well_formed sample_permit_information
  /\ valid d_2022_06_20 /\ valid d_2022_06_27
  /\ valid d_2022_06_22 /\ valid d_2022_06_24
  /\ leb d_2022_06_20 d_2022_06_22 = true
  /\ leb d_2022_06_24 d_2022_06_27 = true
  /\ 1 <= 2
  /\ current_of (get_num_available_dates sample_permit_information
                   d_2022_06_22 d_2022_06_24 true 2)
     <= current_of (get_num_available_dates sample_permit_information
                      d_2022_06_20 d_2022_06_27 false 1).
Proof.
  repeat (split; [reflexivity || lia | ]).
  apply (loosening_filters_keeps_availability sample_permit_information
           d_2022_06_20 d_2022_06_27 false 1
           d_2022_06_22 d_2022_06_24 true 2);
    (reflexivity || discriminate || lia).
Defined.

(** ** One permit, from the answers to the report *)

Lemma collapse_sorted_all api_data divisions_info start_date end_date data :
  collapse api_data divisions_info start_date end_date = Some data ->
  forall division_id dv,
    In (division_id, dv) data -> StronglySorted date_le (available_dates dv).
Proof.
  intros C id dv I. exact (collapse_sorted _ _ _ _ _ _ _ C I).
Qed.

Lemma matched_date_reported start_date end_date weekends_only min_permits
  data division_id dv a :
  valid start_date -> valid end_date ->
  data_ok start_date end_date data ->
  In (division_id, dv) data -> In a (available_dates dv) ->
  matches (dates_in_range_set start_date end_date weekends_only)
          min_permits a = true ->
  reported_date start_date end_date weekends_only min_permits a.
Proof.
  intros Vs Ve Ok I Ia M. apply matches_spec in M. destruct M as [Ms Mr].
  destruct (Ok _ _ _ I Ia) as (R & d' & P & _).
  apply set_mem_In in Ms.
  apply dates_in_range_set_elements in Ms; try assumption.
  destruct Ms as (d & Vd & E & B & Wk).
  split; [exact Mr | ]. split; [exact R | ]. exists d.
  split; [exact Vd | ]. split.
  - rewrite E in P. unfold format_date in P.
    destruct (strptime_strftime_inv _ _ _ Vd P) as [-> _].
    rewrite E. exact P.
  - split; [exact E | ].
    rewrite leb_toordinal, ltb_toordinal by assumption.
    rewrite Z.leb_le, Z.ltb_lt. split; [lia | ]. split; [lia | exact Wk].
Qed.

Section CheckPermit.
Variable get_permit_availability : Z -> datetime -> month_data.
Variable get_permit_info : Z -> permit_info.

Lemma check_permit_unfold (permit_id : Z) (start_date end_date : datetime)
  (weekends_only : bool) (min_permits : Z) r :
  check_permit get_permit_availability get_permit_info permit_id
               start_date end_date weekends_only min_permits = Some r ->
  exists data,
    collapse
      (map (get_permit_availability permit_id)
           (rrule_monthly
              (mk_datetime (year start_date) (month start_date) 1) end_date))
      (permit_divisions_info (get_permit_info permit_id))
      start_date end_date = Some data
    /\ r = (get_num_available_dates data start_date end_date weekends_only
                                    min_permits,
            resolved_permit_name (get_permit_info permit_id) permit_id).
Proof.
  unfold check_permit.
  destruct (get_permit_information get_permit_availability get_permit_info
              permit_id start_date end_date) as [data | ] eqn:G;
    [ | discriminate].
  unfold get_permit_information in G. intros [= <-]. exists data.
  split; [exact G | reflexivity].
Qed.

Lemma check_permit_reported_dates (permit_id : Z)
  (start_date end_date : datetime) (weekends_only : bool) (min_permits : Z)
  r division_id v a :
  valid start_date -> valid end_date ->
  check_permit get_permit_availability get_permit_info permit_id
               start_date end_date weekends_only min_permits = Some r ->
  In (division_id, v) (snd (fst r)) -> In a (dates v) ->
  reported_date start_date end_date weekends_only min_permits a.
Proof.
  intros Vs Ve C Iv Ia. apply check_permit_unfold in C.
  destruct C as (data & G & ->). cbn [fst snd] in Iv.
  pose proof (collapse_ok _ _ _ _ _ G) as Ok.
  change (snd (get_num_available_dates data start_date end_date weekends_only
                 min_permits))
    with (available_divisions_of
            (get_num_available_dates data start_date end_date weekends_only
               min_permits)) in Iv.
  destruct (surviving_entry _ _ _ _ _ _ _ _ Iv Ia) as (dv & I & Iad & M).
  exact (matched_date_reported _ _ _ _ _ _ _ _ Vs Ve Ok I Iad M).
Qed.

(** Property X10.  What [check_permit] returns for a window of real
    dates: the count is the number of reported divisions and at most the
    total; the divisions are distinct, named from the metadata, not empty
    and sorted by date string; every date has at least [min_permits] and
    more than zero remaining, and its string is the text of a date of the
    window (a Friday or Saturday under [weekends_only]) that [strptime]
    reads back; the permit's name is the metadata's or ["Permit <id>"]. *)
Theorem check_permit_report (permit_id : Z) (start_date end_date : datetime)
  (weekends_only : bool) (min_permits : Z)
  current maximum available_divisions permit_name :
  valid start_date -> valid end_date ->
  check_permit get_permit_availability get_permit_info permit_id
               start_date end_date weekends_only min_permits
  = Some (current, maximum, available_divisions, permit_name) ->
  current = len available_divisions
  /\ 0 <= current <= maximum
  /\ well_formed available_divisions
  /\ permit_name = resolved_permit_name (get_permit_info permit_id) permit_id
  /\ forall division_id v,
       In (division_id, v) available_divisions ->
       div_name v
       = resolved_name (permit_divisions_info (get_permit_info permit_id))
                       division_id
       /\ dates v <> []
       /\ StronglySorted date_le (dates v)
       /\ forall a, In a (dates v) ->
                    reported_date start_date end_date weekends_only
                                  min_permits a.
Proof.
  intros Vs Ve. unfold check_permit.
  destruct (get_permit_information get_permit_availability get_permit_info
              permit_id start_date end_date) as [data | ] eqn:G;
    [ | discriminate].
  unfold get_permit_information in G.
  pose proof (collapse_named _ _ _ _ _ G) as [W N].
  pose proof (collapse_ok _ _ _ _ _ G) as Ok.
  pose proof (collapse_sorted_all _ _ _ _ _ G) as So.
  unfold get_num_available_dates.
  intros [= <- <- <- <-].
  pose proof (available_divisions_kept data start_date end_date weekends_only
                min_permits W) as E.
  unfold available_divisions_of, get_num_available_dates in E.
  cbn [snd] in E.
  split; [reflexivity | ]. split.
  - split; [unfold len; lia | ].
    pose proof (fold_aggregate_length
                  (dates_in_range_set start_date end_date weekends_only)
                  min_permits data []) as L.
    unfold len. cbn [List.length] in L. lia.
  - split; [rewrite E; now apply well_formed_kept_divisions | ].
    split; [reflexivity | ].
    intros division_id v I. rewrite E in I. apply In_kept_divisions in I.
    destruct I as (dv & I & Ne & ->). cbn [div_name dates].
    split; [exact (N _ _ I) | ]. split; [exact Ne | ]. split.
    + apply StronglySorted_filter. exact (So _ _ I).
    + intros a Ia. apply filter_In in Ia. destruct Ia as [Ia M].
      exact (matched_date_reported _ _ _ _ _ _ _ _ Vs Ve Ok I Ia M).
Qed.

End CheckPermit.

Lemma check_permit_report_witness :
  valid d_2022_06_22 /\ valid d_2022_06_24
  /\ check_permit sample_get_permit_availability sample_get_permit_info
       233393 d_2022_06_22 d_2022_06_24 false 2
     = Some (1, 1,
             [("200", mk_available_division "Some River Section"
                        [mk_date_entry "2022-06-22T00:00:00Z" 3 6])],
             "Some River Permit")
  /\ 1 = len [("200", mk_available_division "Some River Section"
                        [mk_date_entry "2022-06-22T00:00:00Z" 3 6])]
  /\ 0 <= 1 <= 1.
Proof.
  split; [reflexivity | ]. split; [reflexivity | ]. split; [reflexivity | ].
  destruct (check_permit_report sample_get_permit_availability
              sample_get_permit_info 233393 d_2022_06_22 d_2022_06_24
              false 2 1 1
              [("200", mk_available_division "Some River Section"
                         [mk_date_entry "2022-06-22T00:00:00Z" 3 6])]
              "Some River Permit" eq_refl eq_refl eq_refl) as (A & B & _).
  exact (conj A B).
Defined.

(** ** The default flags *)

Lemma filter_all {A : Type} (f : A -> bool) (l : list A) :
  (forall x, In x l -> f x = true) -> filter f l = l.
Proof.
  induction l as [ | x l IH]; intros All; cbn [filter]; [reflexivity | ].
  rewrite (All x (or_introl eq_refl)). f_equal. apply IH.
  intros y Iy. apply All. now right.
Qed.

Lemma flat_map_ext_In {A B : Type} (f g : A -> list B) (l : list A) :
  (forall x, In x l -> f x = g x) -> flat_map f l = flat_map g l.
Proof.
  induction l as [ | x l IH]; intros E; cbn [flat_map]; [reflexivity | ].
  rewrite (E x (or_introl eq_refl)). f_equal. apply IH.
  intros y Iy. apply E. now right.
Qed.

(** Property X11.  Without the weekend flag and with a threshold of at
    most one the aggregator drops nothing the normaliser kept but the
    empty divisions, on date strings as [format_date] writes them: its own
    window test is then redundant. *)
Theorem default_flags_keep_normalised
  (get_permit_availability : Z -> datetime -> month_data)
  (get_permit_info : Z -> permit_info) (permit_id : Z)
  (start_date end_date : datetime) (min_permits : Z) data :
  valid start_date -> valid end_date -> min_permits <= 1 ->
  get_permit_information get_permit_availability get_permit_info permit_id
                         start_date end_date = Some data ->
  (forall division_id dv e,
      In (division_id, dv) data -> In e (available_dates dv) ->
      iso_date_string (date e)) ->
  available_divisions_of
    (get_num_available_dates data start_date end_date false min_permits)
  = flat_map
      (fun item =>
         match available_dates (snd item) with
         | [] => []
         | e :: l =>
             [(fst item, mk_available_division (name (snd item)) (e :: l))]
         end)
      data.
Proof.
  intros Vs Ve Lm G Iso. unfold get_permit_information in G.
  pose proof (collapse_named _ _ _ _ _ G) as [W _].
  pose proof (collapse_ok _ _ _ _ _ G) as Ok.
  rewrite available_divisions_kept by exact W.
  unfold kept_divisions. apply flat_map_ext_In. intros [id dv] I.
  cbn [fst snd]. unfold kept_dates. rewrite filter_all; [reflexivity | ].
  intros a Ia. apply matches_spec.
  destruct (Ok _ _ _ I Ia) as (R & d & P & Ls & Le).
  destruct (Iso _ _ _ I Ia) as (d' & Vd' & E).
  split; [ | lia]. rewrite E in P |- *. unfold format_date in P.
  apply strptime_strftime_inv in P; [ | assumption]. destruct P as [-> _].
  apply set_mem_dates_in_range_set; try assumption.
  rewrite leb_toordinal, ltb_toordinal in * by assumption.
  apply Z.leb_le in Ls. apply Z.ltb_lt in Le.
  split; [lia | discriminate].
Qed.

Lemma default_flags_keep_normalised_witness :
  valid d_2022_06_22 /\ valid d_2022_06_24 /\ 1 <= 1
  /\ get_permit_information sample_get_permit_availability
       sample_get_permit_info 233393 d_2022_06_22 d_2022_06_24
     = Some sample_normalized
  /\ available_divisions_of
       (get_num_available_dates sample_normalized d_2022_06_22 d_2022_06_24
                                false 1)
     = [("200", mk_available_division "Some River Section"
                  [mk_date_entry "2022-06-22T00:00:00Z" 3 6;
                   mk_date_entry "2022-06-23T00:00:00Z" 1 6])].
Proof.
  split; [reflexivity | ]. split; [reflexivity | ]. split; [lia | ].
  split; [reflexivity | ].
  apply (default_flags_keep_normalised sample_get_permit_availability
           sample_get_permit_info 233393 d_2022_06_22 d_2022_06_24 1
           sample_normalized eq_refl eq_refl); [lia | reflexivity | ].
  intros division_id dv e [[= <- <-] | []] [<- | [<- | []]].
  - exists d_2022_06_22. split; reflexivity.
  - exists (mk_datetime 2022 6 23). split; reflexivity.
Defined.

(** ** The renderers' flag, and the order of the structured output *)

Lemma fold_collect_json_split items acc has :
  fold_left collect_json items (acc, has)
  = (fold_left
       (fun acc item =>
          if negb (result_current (snd item) =? 0)
          then dict_set acc (fst item) (result_divisions (snd item))
          else acc)
       items acc,
     has || any_available items).
Proof.
  revert acc has. induction items as [ | [pid [[[c m] divs] nm]] items IH];
    intros acc has; cbn [fold_left].
  - now rewrite orb_false_r.
  - unfold collect_json at 2. unfold any_available.
    cbn [existsb fst snd result_current result_divisions].
    destruct (negb (c =? 0)); rewrite IH; cbn [orb]; f_equal.
    + now rewrite orb_true_r.
Qed.

Section Flag.
Variables RAFTING_SUCCESS RAFTING_FAILURE : string.
Variable json_dumps : dict Z (dict string available_division) -> string.

Lemma render_permit_flag out has item out' has' :
  render_permit RAFTING_SUCCESS RAFTING_FAILURE (out, has) item
  = Some (out', has') ->
  has' = has || negb (result_current (snd item) =? 0).
Proof.
  destruct item as [pid [[[c m] divs] nm]]. unfold render_permit.
  cbn [snd result_current fst].
  destruct (negb (c =? 0)); destruct divs as [ | d0 divs0];
    try (intros [= _ <-]; now rewrite ?orb_true_r, ?orb_false_r).
  all: destruct (for_each _ _ _) as [o | ]; [ | discriminate].
  all: intros [= _ <-]; now rewrite ?orb_true_r, ?orb_false_r.
Qed.

Lemma render_permits_flag info out has out' has' :
  for_each info (render_permit RAFTING_SUCCESS RAFTING_FAILURE) (out, has)
  = Some (out', has') ->
  has' = has || any_available info.
Proof.
  revert out has. induction info as [ | item info IH]; intros out has;
    cbn [for_each].
  - intros [= _ <-]. now rewrite orb_false_r.
  - destruct (render_permit _ _ (out, has) item) as [[o1 h1] | ] eqn:E;
      [ | discriminate].
    apply render_permit_flag in E. intros R. apply IH in R. subst.
    unfold any_available. cbn [existsb]. now rewrite orb_assoc.
Qed.

Lemma generate_json_output_eq (info_by_permit_id : dict Z permit_result) :
  well_formed info_by_permit_id ->
  generate_json_output json_dumps info_by_permit_id
  = (json_dumps (available_permits info_by_permit_id),
     any_available info_by_permit_id).
Proof.
  intros W. unfold generate_json_output, availabilities_of.
  rewrite fold_collect_json_split. cbn [orb]. f_equal. f_equal.
  rewrite (fold_left_distinct_keys fst
             (fun item => if negb (result_current (snd item) =? 0)
                          then Some (result_divisions (snd item))
                          else None));
    [ | intros acc x; now destruct (negb _) | exact W | intros x _ []].
  cbn [app]. unfold available_permits. apply flat_map_ext.
  intros x. now destruct (negb _).
Qed.

Lemma generate_json_output_flag (info_by_permit_id : dict Z permit_result) :
  snd (generate_json_output json_dumps info_by_permit_id)
  = any_available info_by_permit_id.
Proof.
  unfold generate_json_output, availabilities_of.
  now rewrite fold_collect_json_split.
Qed.

Lemma generate_human_output_flag (info_by_permit_id : dict Z permit_result)
  (start_date end_date : datetime) output has_availabilities :
  generate_human_output RAFTING_SUCCESS RAFTING_FAILURE info_by_permit_id
                        start_date end_date
  = Some (output, has_availabilities) ->
  has_availabilities = any_available info_by_permit_id
  /\ exists rest,
       output
       = String.concat newline
           (headline has_availabilities start_date end_date :: rest).
Proof.
  unfold generate_human_output.
  destruct (for_each info_by_permit_id
              (render_permit RAFTING_SUCCESS RAFTING_FAILURE) ([], false))
    as [[out has] | ] eqn:E; [ | discriminate].
  intros [= <- <-]. apply render_permits_flag in E. cbn [orb] in E.
  split; [exact E | now exists out].
Qed.

(** Property X12.  The structured renderer, all of it: for a run with
    distinct permit ids it serialises the permits with a count other than
    zero, in the order of the run, each with its available divisions, and
    its flag says whether there is one. *)
Theorem json_output_in_run_order (info_by_permit_id : dict Z permit_result) :
  well_formed info_by_permit_id ->
  generate_json_output json_dumps info_by_permit_id
  = (json_dumps (available_permits info_by_permit_id),
     any_available info_by_permit_id)
  /\ well_formed (available_permits info_by_permit_id).
Proof.
  intros W. split; [now apply generate_json_output_eq | ].
  unfold well_formed in *.
  assert (keys (available_permits info_by_permit_id)
          = keys (filter (fun item =>
                            negb (result_current (snd item) =? 0))
                         info_by_permit_id)) as ->.
  { clear W. induction info_by_permit_id as [ | x l IH]; [reflexivity | ].
    unfold available_permits in *. cbn [flat_map filter].
    destruct (negb _); [ | exact IH].
    cbn [app keys map fst]. f_equal. exact IH. }
  now apply keys_unique_filter.
Qed.


End Flag.

Lemma json_output_in_run_order_witness :
  well_formed sample_two_permits
  /\ generate_json_output sample_json_dumps sample_two_permits
     = (sample_json_dumps
          [(233393,
            [("282", mk_available_division "Desolation-Gray Canyons"
                       [mk_date_entry "2022-06-22T00:00:00Z" 3 6])])],
        true).
Proof.
  split; [reflexivity | ].
  exact (proj1 (json_output_in_run_order sample_json_dumps
                  sample_two_permits eq_refl)).
Defined.


(** ** When the human renderer fails *)

Section HumanFails.
Variables RAFTING_SUCCESS RAFTING_FAILURE : string.

Lemma render_permit_succeeds state item :
  (forall division_id v a,
      In (division_id, v) (result_divisions (snd item)) -> In a (dates v) ->
      exists d, strptime (date a) ISO_DATE_FORMAT_RESPONSE = Some d) ->
  exists state',
    render_permit RAFTING_SUCCESS RAFTING_FAILURE state item = Some state'.
Proof.
  destruct state as [out has], item as [pid [[[c m] divs] nm]].
  cbn [snd result_divisions fst]. intros Parse. unfold render_permit.
  set (eh := if negb (c =? 0) then _ else _). destruct eh as [emoji has1].
  destruct divs as [ | d0 divs0] eqn:Ed; [eauto | ]. rewrite <- Ed in *.
  set (show := (len divs >? 1) || (m >? 1)).
  set (out1 := out ++ _).
  destruct (for_each_succeeds (fun _ => True) divs (render_division show)
              out1) as (o & E & _); [ | exact I | rewrite E; eauto].
  intros s [id v] Iv _. unfold render_division.
  apply for_each_succeeds; [ | exact I].
  intros s1 a Ia _. unfold render_date.
  destruct (Parse id v a Iv Ia) as (d & ->). eauto.
Qed.

Lemma human_output_returns (info_by_permit_id : dict Z permit_result)
  (start_date end_date : datetime) :
  run_dates_parse info_by_permit_id ->
  exists output has_availabilities,
    generate_human_output RAFTING_SUCCESS RAFTING_FAILURE info_by_permit_id
                          start_date end_date
    = Some (output, has_availabilities).
Proof.
  intros Parse. unfold generate_human_output.
  destruct (for_each_succeeds (fun _ => True) info_by_permit_id
              (render_permit RAFTING_SUCCESS RAFTING_FAILURE) ([], false))
    as ([out h] & E & _); [ | exact I | rewrite E; eauto].
  intros s [pid r] Ir _.
  destruct (render_permit_succeeds s (pid, r)) as (s' & R);
    [ | exists s'; now split].
  intros id v a Iv Ia. exact (Parse pid r id v a Ir Iv Ia).
Qed.

(** Property X14.  The human renderer returns exactly when [strptime]
    reads every date string of the run: a date string it rejects is its
    only failure. *)
Theorem human_output_fails_on_bad_date
  (info_by_permit_id : dict Z permit_result) (start_date end_date : datetime) :
  (exists output has_availabilities,
      generate_human_output RAFTING_SUCCESS RAFTING_FAILURE info_by_permit_id
                            start_date end_date
      = Some (output, has_availabilities))
  <-> run_dates_parse info_by_permit_id.
Proof.
  split; [ | apply human_output_returns].
  unfold generate_human_output. intros (output & has & G).
  destruct (for_each info_by_permit_id
              (render_permit RAFTING_SUCCESS RAFTING_FAILURE) ([], false))
    as [[out h] | ] eqn:E; [ | discriminate].
  intros pid r id v a Ir Iv Ia.
  destruct (for_each_each _ _ _ _ _ E Ir) as (s1 & s2 & R).
  exact (render_permit_dates_parse _ _ _ _ _ _ _ _ R Iv Ia).
Qed.

End HumanFails.

(** ** The run *)

Section Main.
Variable get_permit_availability : Z -> datetime -> month_data.
Variable get_permit_info : Z -> permit_info.
Variables RAFTING_SUCCESS RAFTING_FAILURE : string.
Variable json_dumps : dict Z (dict string available_division) -> string.
Variables (start_date end_date : datetime) (weekends_only : bool)
          (min_permits : Z).

Local Abbreviation check p :=
  (check_permit get_permit_availability get_permit_info p
                start_date end_date weekends_only min_permits).
Local Abbreviation body :=
  (fun (info_by_permit_id : dict Z permit_result) (permit_id : Z) =>
     match check permit_id with
     | None => None
     | Some r => Some (dict_set info_by_permit_id permit_id r)
     end).

Local Abbreviation run_ok' := (run_ok (fun p => check p)).

Lemma main_unfold permits json_output :
  main get_permit_availability get_permit_info RAFTING_SUCCESS RAFTING_FAILURE
       json_dumps permits json_output start_date end_date weekends_only
       min_permits
  = match run_result get_permit_availability get_permit_info permits
                     start_date end_date weekends_only min_permits with
    | None => None
    | Some info_by_permit_id =>
        if json_output
        then Some (generate_json_output json_dumps info_by_permit_id)
        else generate_human_output RAFTING_SUCCESS RAFTING_FAILURE
                                   info_by_permit_id start_date end_date
    end.
Proof. reflexivity. Qed.

Lemma run_loop_ok permits seen info info' :
  run_ok' seen info ->
  for_each permits body info = Some info' ->
  run_ok' (seen ++ permits) info'.
Proof.
  revert seen info. induction permits as [ | p permits IH];
    intros seen info Ok; cbn [for_each].
  - intros [= <-]. now rewrite app_nil_r.
  - destruct (check p) as [r | ] eqn:C; [ | discriminate].
    intros R. replace (seen ++ p :: permits) with ((seen ++ [p]) ++ permits)
      by now rewrite <- app_assoc.
    revert R. apply IH.
    destruct Ok as (W & K & Ch). split; [now apply well_formed_dict_set | ].
    split.
    + intros q. rewrite In_keys_dict_set, in_app_iff, K. cbn [In].
      intuition congruence.
    + intros q r' I. apply In_dict_set in I.
      destruct I as [[-> ->] | I]; [exact C | now apply Ch].
Qed.

Lemma run_result_ok permits info :
  run_result get_permit_availability get_permit_info permits
             start_date end_date weekends_only min_permits = Some info ->
  run_ok' permits info.
Proof.
  unfold run_result. intros R.
  apply (run_loop_ok permits [] [] info); [ | exact R].
  split; [reflexivity | ]. split; [intros p; tauto | intros p r []].
Qed.

Lemma run_result_fails permits :
  run_result get_permit_availability get_permit_info permits
             start_date end_date weekends_only min_permits = None
  <-> exists p, In p permits /\ check p = None.
Proof.
  unfold run_result. generalize (@nil (Z * permit_result)).
  induction permits as [ | p permits IH]; intros info; cbn [for_each].
  - split; [discriminate | intros (p & [] & _)].
  - destruct (check p) as [r | ] eqn:C.
    + rewrite IH. split.
      * intros (q & Iq & Cq). exists q. split; [now right | exact Cq].
      * intros (q & [<- | Iq] & Cq); [congruence | ]. now exists q.
    + split; [ | reflexivity]. intros _. exists p. split; [now left | exact C].
Qed.

Lemma check_permit_current_nonneg p r :
  check p = Some r -> 0 <= result_current r.
Proof.
  intros C. apply check_permit_unfold in C. destruct C as (data & _ & ->).
  unfold result_current, get_num_available_dates, len. cbn [fst]. lia.
Qed.

Lemma check_permit_fails p :
  check p = None
  <-> get_permit_information get_permit_availability get_permit_info p
                             start_date end_date = None.
Proof.
  unfold check_permit.
  destruct (get_permit_information get_permit_availability get_permit_info p
              start_date end_date) as [data | ].
  - destruct (get_num_available_dates _ _ _ _ _) as [[c m] d].
    split; discriminate.
  - tauto.
Qed.

(** Property X15.  What [main] prints and returns: behind it is a mapping
    with every requested permit once (a permit named twice is checked
    twice and kept once), each with what [check_permit] returned; the flag
    is true exactly when some permit has an available division; the output
    is the rendering of that mapping by the chosen renderer. *)
Theorem main_run permits json_output output has_availabilities :
  main get_permit_availability get_permit_info RAFTING_SUCCESS RAFTING_FAILURE
       json_dumps permits json_output start_date end_date weekends_only
       min_permits
  = Some (output, has_availabilities) ->
  exists info_by_permit_id,
    well_formed info_by_permit_id
    /\ (forall p, In p (keys info_by_permit_id) <-> In p permits)
    /\ (forall p r, In (p, r) info_by_permit_id -> check p = Some r)
    /\ (has_availabilities = true
        <-> exists p r, In p permits /\ check p = Some r
                        /\ 0 < result_current r)
    /\ (json_output = true ->
        output = json_dumps (available_permits info_by_permit_id))
    /\ (json_output = false ->
        generate_human_output RAFTING_SUCCESS RAFTING_FAILURE
                              info_by_permit_id start_date end_date
        = Some (output, has_availabilities)).
Proof.
  rewrite main_unfold.
  destruct (run_result get_permit_availability get_permit_info permits
              start_date end_date weekends_only min_permits)
    as [info | ] eqn:R; [ | discriminate].
  destruct (run_result_ok _ _ R) as (W & K & Ch).
  intros M. exists info.
  split; [exact W | ]. split; [exact K | ]. split; [exact Ch | ].
  assert (has_availabilities = any_available info) as Eh.
  { destruct json_output.
    - injection M as M. apply (f_equal snd) in M. cbn [snd] in M.
      rewrite <- M. apply generate_json_output_flag.
    - now apply (generate_human_output_flag _ _ _ _ _ _ _ M). }
  split; [ | split].
  - rewrite Eh. unfold any_available. rewrite existsb_exists. split.
    + intros ([p r] & I & Nz). cbn [snd] in Nz. exists p, r.
      split; [apply K; now apply (in_map fst _ (p, r)) | ].
      split; [now apply Ch | ].
      pose proof (check_permit_current_nonneg p r (Ch _ _ I)).
      apply negb_true_iff, Z.eqb_neq in Nz. lia.
    + intros (p & r & Ip & C & Pos). apply K in Ip.
      apply in_map_iff in Ip. destruct Ip as ([q r'] & Eq & I).
      cbn [fst] in Eq. subst q. exists (p, r'). split; [exact I | ].
      cbn [snd]. rewrite (Ch _ _ I) in C. injection C as ->.
      apply negb_true_iff, Z.eqb_neq. lia.
  - intros ->. injection M as M. apply (f_equal fst) in M. cbn [fst] in M.
    rewrite <- M. now rewrite generate_json_output_eq.
  - intros ->. exact M.
Qed.

End Main.

Lemma main_run_witness :
  main sample_get_permit_availability sample_get_permit_info "OK" "NO"
       sample_json_dumps [233393; 233393] true d_2022_06_22 d_2022_06_24
       false 1
  = Some ("233393", true)
  /\ exists info_by_permit_id : dict Z permit_result,
       well_formed info_by_permit_id
       /\ (forall p, In p (keys info_by_permit_id)
                     <-> In p [233393; 233393])
       /\ "233393" = sample_json_dumps (available_permits info_by_permit_id).
Proof.
  split; [reflexivity | ].
  destruct (main_run sample_get_permit_availability sample_get_permit_info
              "OK" "NO" sample_json_dumps d_2022_06_22 d_2022_06_24 false 1
              [233393; 233393] true "233393" true eq_refl)
    as (info & W & K & _ & _ & J & _).
  exists info. split; [exact W | ]. split; [exact K | exact (J eq_refl)].
Defined.

(** ** A run fails only in the normaliser *)

Section MainFails.
Variable get_permit_availability : Z -> datetime -> month_data.
Variable get_permit_info : Z -> permit_info.
Variables RAFTING_SUCCESS RAFTING_FAILURE : string.
Variable json_dumps : dict Z (dict string available_division) -> string.

(** Property X16.  With real dates for the window [main] fails exactly
    when the normaliser fails for one of the permits: the renderers never
    fail on what [check_permit] returns. *)
Theorem main_fails_only_in_normaliser permits json_output
  (start_date end_date : datetime) (weekends_only : bool) (min_permits : Z) :
  valid start_date -> valid end_date ->
  main get_permit_availability get_permit_info RAFTING_SUCCESS RAFTING_FAILURE
       json_dumps permits json_output start_date end_date weekends_only
       min_permits = None
  <-> exists p,
        In p permits
        /\ get_permit_information get_permit_availability get_permit_info p
                                  start_date end_date = None.
Proof.
  intros Vs Ve. rewrite main_unfold.
  destruct (run_result get_permit_availability get_permit_info permits
              start_date end_date weekends_only min_permits)
    as [info | ] eqn:R.
  - assert (~ exists p,
               In p permits
               /\ get_permit_information get_permit_availability
                    get_permit_info p start_date end_date = None) as No.
    { intros (p & Ip & G).
      assert (run_result get_permit_availability get_permit_info permits
                start_date end_date weekends_only min_permits = None) as R'.
      { apply run_result_fails. exists p. split; [exact Ip | ].
        now apply check_permit_fails. }
      congruence. }
    destruct json_output; [split; [discriminate | tauto] | ].
    destruct (run_result_ok _ _ _ _ _ _ _ _ R) as (_ & _ & Ch).
    destruct (human_output_returns RAFTING_SUCCESS RAFTING_FAILURE info
                start_date end_date) as (o & h & ->);
      [ | split; [discriminate | tauto]].
    intros p r id v a Ir Iv Ia.
    destruct (check_permit_reported_dates _ _ _ _ _ _ _ _ _ _ _ Vs Ve
                (Ch _ _ Ir) Iv Ia) as (_ & _ & d & _ & P & _).
    now exists d.
  - split; [intros _ | reflexivity].
    apply run_result_fails in R. destruct R as (p & Ip & C).
    exists p. split; [exact Ip | now apply check_permit_fails in C].
Qed.

End MainFails.

Lemma main_fails_only_in_normaliser_witness :
  valid d_2022_06_22 /\ valid d_2022_06_24
  /\ (main (fun _ _ =>
              mk_month_data None
                (Some [("200", mk_division_data
                          (Some [("June 22nd", mk_avail_info (Some 1) None)]))]))
           sample_get_permit_info "OK" "NO" sample_json_dumps [233393] false
           d_2022_06_22 d_2022_06_24 false 1 = None
      <-> exists p,
            In p [233393]
            /\ get_permit_information
                 (fun _ _ =>
                    mk_month_data None
                      (Some [("200", mk_division_data
                                (Some [("June 22nd",
                                        mk_avail_info (Some 1) None)]))]))
                 sample_get_permit_info p d_2022_06_22 d_2022_06_24 = None).
Proof.
  split; [reflexivity | ]. split; [reflexivity | ].
  apply main_fails_only_in_normaliser; reflexivity.
Defined.

(** ** Dates read and written *)

Lemma strptime_valid s fmt t : strptime s fmt = Some t -> valid t.
Proof.
  unfold strptime.
  destruct (parse_year s) as [[y s1] | ]; [ | discriminate].
  destruct (expect_char "-" s1) as [s2 | ]; [ | discriminate].
  destruct (parse_month s2) as [[m s3] | ]; [ | discriminate].
  destruct (expect_char "-" s3) as [s4 | ]; [ | discriminate].
  destruct (parse_day s4) as [[d s5] | ]; [ | discriminate].
  destruct (String.eqb _ _); [ | discriminate].
  destruct (validb (mk_datetime y m d)) eqn:V; [ | discriminate].
  intros [= <-]. exact V.
Qed.

(** Property X17.  The dates of the command line: what
    [TypeConverter.date] accepts is a calendar day of the years 1 to 9999,
    and it accepts every such day in its zero padded text.  The text
    [strftime] writes of a day, as the headline shows the window, is
    accepted and gives the day back from the year 1000 on; before, the
    year is written with fewer than four digits and the text is refused.
    Two days with the same text are the same. *)
Theorem argument_dates_are_calendar_days :
  (forall date_str t, TypeConverter_date date_str = Some t -> valid t)
  /\ (forall t, valid t ->
                TypeConverter_date (padded_text t INPUT_DATE_FORMAT) = Some t)
  /\ (forall t, valid t ->
                TypeConverter_date (strftime t INPUT_DATE_FORMAT)
                = if 1000 <=? year t then Some t else None)
  /\ (forall a b, valid a -> valid b ->
                  strftime a INPUT_DATE_FORMAT = strftime b INPUT_DATE_FORMAT ->
                  a = b).
Proof.
  unfold TypeConverter_date. split; [ | split; [ | split]].
  - intros s t P. now apply strptime_valid in P.
  - intros t V. now apply strptime_padded.
  - intros t V. destruct (Z.leb_spec 1000 (year t)).
    + now apply strptime_strftime.
    + now apply strptime_strftime_short.
  - intros a b. apply strftime_inj.
Qed.

Lemma argument_dates_are_calendar_days_witness :
  TypeConverter_date "2022-6-1" = Some (mk_datetime 2022 6 1)
  /\ valid (mk_datetime 2022 6 1)
  /\ strftime (mk_datetime 2022 6 1) INPUT_DATE_FORMAT = "2022-06-01"
  /\ TypeConverter_date "2022-06-01" = Some (mk_datetime 2022 6 1)
  /\ strftime (mk_datetime 999 1 2) INPUT_DATE_FORMAT = "999-01-02"
  /\ TypeConverter_date "999-01-02" = None
  /\ TypeConverter_date "0999-01-02" = Some (mk_datetime 999 1 2)
  /\ TypeConverter_date "2022-02-30" = None.
Proof.
  destruct argument_dates_are_calendar_days as (V & Pd & Rt & _).
  split; [reflexivity | ].
  split; [exact (V "2022-6-1" (mk_datetime 2022 6 1) eq_refl) | ].
  split; [reflexivity | ].
  split; [exact (Rt (mk_datetime 2022 6 1) eq_refl) | ].
  split; [reflexivity | ].
  split; [exact (Rt (mk_datetime 999 1 2) eq_refl) | ].
  split; [exact (Pd (mk_datetime 999 1 2) eq_refl) | reflexivity].
Defined.

(** ** An empty window *)

Lemma range_empty lo hi : hi <= lo -> range lo hi = [].
Proof.
  intros L. unfold range. replace (Z.to_nat (hi - lo)) with 0%nat by lia.
  reflexivity.
Qed.

Lemma fold_aggregate_nothing min_permits permit_information acc :
  fold_left (aggregate_division [] min_permits) permit_information acc = acc.
Proof.
  revert acc. induction permit_information as [ | [id dv] l IH]; intros acc;
    cbn [fold_left]; [reflexivity | ].
  rewrite IH. unfold aggregate_division.
  rewrite (filter_ext (matches [] min_permits) (fun _ => false))
    by reflexivity.
  now replace (filter (fun _ => false) (available_dates dv))
    with (@nil date_entry)
    by (induction (available_dates dv); [reflexivity | assumption]).
Qed.

(** Property X9.  A window whose end is not after its start has no
    candidate date: the aggregator then reports no division, whatever the
    input, and the normaliser keeps no date. *)
Theorem empty_window_reports_nothing (start_date end_date : datetime) :
  valid start_date -> valid end_date -> leb end_date start_date = true ->
  (forall weekends_only,
      dates_in_range_set start_date end_date weekends_only = [])
  /\ (forall permit_information weekends_only min_permits,
         get_num_available_dates permit_information start_date end_date
                                 weekends_only min_permits
         = (0, len permit_information, []))
  /\ (forall api_data divisions_info data division_id dv,
         collapse api_data divisions_info start_date end_date = Some data ->
         In (division_id, dv) data -> available_dates dv = []).
Proof.
  intros Vs Ve L. rewrite leb_toordinal in L by assumption.
  apply Z.leb_le in L.
  assert (forall weekends_only,
             dates_in_range_set start_date end_date weekends_only = []) as E.
  { intros w. unfold dates_in_range_set, set_of, dates_in_range, days_between.
    rewrite range_empty by lia. now destruct w. }
  split; [exact E | ]. split.
  - intros pi w m. unfold get_num_available_dates. rewrite E.
    now rewrite fold_aggregate_nothing.
  - intros api info data id dv C I.
    pose proof (collapse_ok _ _ _ _ _ C) as Ok.
    destruct (available_dates dv) as [ | e l] eqn:Ed; [reflexivity | ].
    exfalso.
    destruct (Ok id dv e I) as (_ & d & P & Ls & Le);
      [rewrite Ed; now left | ].
    apply strptime_valid in P.
    rewrite leb_toordinal in Ls by assumption.
    rewrite ltb_toordinal in Le by assumption.
    apply Z.leb_le in Ls. apply Z.ltb_lt in Le. lia.
Qed.

Lemma empty_window_reports_nothing_witness :
  valid d_2022_06_24 /\ valid d_2022_06_22
  /\ leb d_2022_06_22 d_2022_06_24 = true
  /\ get_num_available_dates sample_permit_information
       d_2022_06_24 d_2022_06_22 false 1
     = (0, len sample_permit_information, []).
Proof.
  split; [reflexivity | ]. split; [reflexivity | ]. split; [reflexivity | ].
  exact (proj1 (proj2 (empty_window_reports_nothing d_2022_06_24
                         d_2022_06_22 eq_refl eq_refl eq_refl))
           sample_permit_information false 1).
Defined.
